(** * workload-operator: the Register controller and the ArgoCD API manager

    A shallow embedding of
      - [internal/argocd/argocd.go]           (package [argocd]: the APIManager),
      - the Register controller               (type [RegisterReconciler]),
      - [api/argocd/v1beta1]                  (the Register custom resource),
      - [internal/status]                     (the condition type names),
    together with the library helpers the controller calls on every path
    ([meta.SetStatusCondition], [controllerutil] finalizer and owner
    helpers, [base64.StdEncoding.DecodeString], [strconv.Itoa]).

    Go strings are [string] (sequences of 8-bit characters), [[]byte] is
    [list Byte.byte], Go maps are [gmap]s, [(T, error)] results are sums,
    and an [error] that may be [nil] is an [option error].  The Kubernetes
    API server, the process environment, the wall clock and the remote
    ArgoCD endpoint are gathered in a [World] that every operation threads
    through explicitly. *)

From Stdlib Require Import ZArith String Ascii DecimalString List Lia.
From Stdlib.Strings Require Byte.
From stdpp Require Import base option gmap strings list.

Open Scope Z_scope.
Open Scope string_scope.
Open Scope list_scope.

(** ** Go values shared by all packages *)

(** A Go [error]: its [Error()] text, and whether [apierrors.IsNotFound]
    recognises it (the only classification the controller ever asks for). *)
Record error : Type := mkError { Error : string; NotFound : bool }.

(** [errors.New(msg)] and [fmt.Errorf(msg)] without verbs. *)
Definition errors_New (msg : string) : error :=
  {| Error := msg; NotFound := false |}.

(** [fmt.Errorf(prefix + "%w", err)]: the text is prefixed, the wrapped
    cause stays visible to [errors.As]. *)
Definition fmt_Errorf_w (prefix : string) (err : error) : error :=
  {| Error := prefix +:+ Error err; NotFound := NotFound err |}.

(** [(T, error)] with exactly one side meaningful. *)
Definition result (A : Type) : Type := (A + error)%type.

(** [types.NamespacedName], as (namespace, name). *)
Abbreviation NamespacedName := (string * string)%type.

(** [strconv.Itoa]. *)
Definition strconv_Itoa (i : Z) : string := NilZero.string_of_int (Z.to_int i).

(** [[]byte(s)] and [string(b)]. *)
Definition bytes_of_string (s : string) : list Byte.byte := list_byte_of_string s.
Definition string_of_bytes (b : list Byte.byte) : string := string_of_list_byte b.

(** ** Package [metav1]: object metadata and conditions *)
Module metav1.

(** [metav1.Time], as an instant counted from the zero time. *)
Definition Time : Type := Z.
Definition Time_IsZero (t : Time) : bool := Z.eqb t 0.

Inductive ConditionStatus : Type :=
| ConditionTrue
| ConditionFalse
| ConditionUnknown.

#[global] Instance ConditionStatus_eq_dec : EqDecision ConditionStatus.
Proof. solve_decision. Defined.

Record Condition : Type := mkCondition {
  Type_ : string;
  Status : ConditionStatus;
  ObservedGeneration : Z;
  LastTransitionTime : Time;
  Reason : string;
  Message : string
}.

Record OwnerReference : Type := mkOwnerReference {
  APIVersion : string;
  Kind : string;
  OwnerName : string;
  OwnerUID : string
}.

Record ObjectMeta : Type := mkObjectMeta {
  Name : string;
  Namespace : string;
  UID : string;
  DeletionTimestamp : option Time;
  Finalizers : list string;
  OwnerReferences : list OwnerReference
}.

(** The zero value of [ObjectMeta]. *)
Definition ObjectMeta_zero : ObjectMeta :=
  mkObjectMeta "" "" "" None [] [].

Definition SetDeletionTimestamp (m : ObjectMeta) (t : option Time) : ObjectMeta :=
  mkObjectMeta (Name m) (Namespace m) (UID m) t (Finalizers m) (OwnerReferences m).

Definition SetFinalizers (m : ObjectMeta) (fs : list string) : ObjectMeta :=
  mkObjectMeta (Name m) (Namespace m) (UID m) (DeletionTimestamp m) fs (OwnerReferences m).

Definition SetOwnerReferences (m : ObjectMeta) (refs : list OwnerReference) : ObjectMeta :=
  mkObjectMeta (Name m) (Namespace m) (UID m) (DeletionTimestamp m) (Finalizers m) refs.

End metav1.

(** ** Package [status]: the condition types of this project *)
Module status.
Definition ConditionAvailable : string := "Available".
Definition ConditionDegraded : string := "Degraded".
Definition ConditionProgressing : string := "Progressing".
End status.

(** ** Package [meta]: the condition helpers of apimachinery

    Every write of [Status.Conditions] in the controller goes through
    [meta.SetStatusCondition]; it is embedded here as apimachinery defines
    it, with the reading of [time.Now()] passed in as [now]. *)
Module meta.
Import metav1.

(** [FindStatusCondition]: the first entry of the given type, with its
    index standing for the pointer into the slice. *)
Fixpoint FindStatusCondition (conditions : list Condition) (conditionType : string)
  : option (nat * Condition) :=
  match conditions with
  | [] => None
  | c :: rest =>
      if String.eqb (Type_ c) conditionType then Some (0%nat, c)
      else match FindStatusCondition rest conditionType with
           | Some (i, c') => Some (S i, c')
           | None => None
           end
  end.

(** The in-place update of an entry that already exists: the transition
    time follows a change of [Status] only; reason, message and observed
    generation are overwritten. *)
Definition updateExisting (now : Time) (existingCondition newCondition : Condition)
  : Condition :=
  let statusChanged := negb (bool_decide (Status existingCondition = Status newCondition)) in
  {| Type_ := Type_ existingCondition;
     Status := if statusChanged then Status newCondition else Status existingCondition;
     ObservedGeneration := ObservedGeneration newCondition;
     LastTransitionTime :=
       if statusChanged then
         if negb (Time_IsZero (LastTransitionTime newCondition))
         then LastTransitionTime newCondition
         else now
       else LastTransitionTime existingCondition;
     Reason := Reason newCondition;
     Message := Message newCondition |}.

(** The entry appended when the type is new. *)
Definition stampNew (now : Time) (newCondition : Condition) : Condition :=
  if Time_IsZero (LastTransitionTime newCondition) then
    {| Type_ := Type_ newCondition;
       Status := Status newCondition;
       ObservedGeneration := ObservedGeneration newCondition;
       LastTransitionTime := now;
       Reason := Reason newCondition;
       Message := Message newCondition |}
  else newCondition.

Definition SetStatusCondition (now : Time) (conditions : list Condition)
    (newCondition : Condition) : list Condition :=
  match FindStatusCondition conditions (Type_ newCondition) with
  | None => conditions ++ [stampNew now newCondition]
  | Some (i, existingCondition) =>
      <[i := updateExisting now existingCondition newCondition]> conditions
  end.

(** The conditions of a given type, and the lists that hold at most one
    condition per type. *)
Definition ofType (conditionType : string) (conditions : list Condition)
  : list Condition :=
  filter (fun c => Type_ c = conditionType) conditions.

Definition OnePerType (conditions : list Condition) : Prop :=
  NoDup (Type_ <$> conditions).

End meta.

(** ** Package [encoding/base64]: the standard, padded, non-strict encoding *)
Module base64.

Definition encodeStd : string :=
  "ABCDEFGHIJKLMNOPQRSTUVWXYZabcdefghijklmnopqrstuvwxyz0123456789+/".

Definition alphabet : list Byte.byte := Eval vm_compute in bytes_of_string encodeStd.

Definition padChar : Byte.byte := Byte.x3d.

Definition isNewline (c : Byte.byte) : bool :=
  Byte.eqb c Byte.x0a || Byte.eqb c Byte.x0d.

Fixpoint indexOf (c : Byte.byte) (l : list Byte.byte) (i : N) : option N :=
  match l with
  | [] => None
  | x :: rest => if Byte.eqb x c then Some i else indexOf c rest (N.succ i)
  end.

(** [enc.decodeMap[in]], with [None] for the entries holding 0xff. *)
Definition decodeMap (c : Byte.byte) : option N := indexOf c alphabet 0%N.

(** [enc.encode[i]]. *)
Definition encodeChar (i : N) : Byte.byte := nth (N.to_nat i) alphabet Byte.x00.

(** [byte(v)]: the low eight bits. *)
Definition byte_of_N (v : N) : Byte.byte :=
  default Byte.x00 (Byte.of_N (N.land v 255)).

(** The value assembled from the sextets read so far (missing ones are 0). *)
Definition assemble (dbuf : list N) : N :=
  N.lor (N.lor (N.lor (N.shiftl (nth 0 dbuf 0%N) 18) (N.shiftl (nth 1 dbuf 0%N) 12))
               (N.shiftl (nth 2 dbuf 0%N) 6))
        (nth 3 dbuf 0%N).

(** The [dlen - 1] bytes a quantum of [dlen] sextets yields. *)
Definition quantumBytes (dbuf : list N) : list Byte.byte :=
  let val := assemble dbuf in
  take (length dbuf - 1)
    [byte_of_N (N.shiftr val 16); byte_of_N (N.shiftr val 8); byte_of_N val].

Definition CorruptInputError (offset : Z) : error :=
  errors_New ("illegal base64 data at input byte " +:+ strconv_Itoa offset).

Fixpoint skipNewlines (src : list Byte.byte) (si : Z) : list Byte.byte * Z :=
  match src with
  | c :: rest => if isNewline c then skipNewlines rest (si + 1) else (src, si)
  | [] => (src, si)
  end.

(** After the padding of a quantum: only newlines may follow. *)
Definition afterPadding (rest : list Byte.byte) (si : Z) (dbuf : list N)
  : result (list Byte.byte) :=
  match skipNewlines rest si with
  | ([], _) => inl (quantumBytes dbuf)
  | (_ :: _, si') => inr (CorruptInputError si')
  end.

(** [Decode], as the loop over [decodeQuantum]: [si] is the number of input
    bytes consumed, [dbuf] the sextets of the quantum being read. *)
Fixpoint decode (src : list Byte.byte) (si : Z) (dbuf : list N)
  : result (list Byte.byte) :=
  match src with
  | [] =>
      match dbuf with
      | [] => inl []
      | _ :: _ => inr (CorruptInputError (si - Z.of_nat (length dbuf)))
      end
  | in_ :: rest =>
      let si := si + 1 in
      match decodeMap in_ with
      | Some out =>
          let dbuf := dbuf ++ [out] in
          if (length dbuf =? 4)%nat then
            match decode rest si [] with
            | inl tail => inl (quantumBytes dbuf ++ tail)
            | inr err => inr err
            end
          else decode rest si dbuf
      | None =>
          if isNewline in_ then decode rest si dbuf
          else if negb (Byte.eqb in_ padChar) then inr (CorruptInputError (si - 1))
          else
            match length dbuf with
            | 0%nat | 1%nat => inr (CorruptInputError (si - 1))
            | 2%nat =>
                match skipNewlines rest si with
                | ([], si1) => inr (CorruptInputError si1)
                | (c :: rest2, si1) =>
                    if negb (Byte.eqb c padChar)
                    then inr (CorruptInputError (si1 - 1))
                    else afterPadding rest2 (si1 + 1) dbuf
                end
            | _ => afterPadding rest si dbuf
            end
      end
  end.

Definition StdEncoding_DecodeString (s : string) : result (list Byte.byte) :=
  decode (bytes_of_string s) 0 [].

(** [Encode]: three bytes to four characters, the tail padded. *)
Definition sextet (val : N) (shift : N) : Byte.byte :=
  encodeChar (N.land (N.shiftr val shift) 63).

Fixpoint encode (src : list Byte.byte) : list Byte.byte :=
  match src with
  | [] => []
  | [b0] =>
      let val := N.shiftl (Byte.to_N b0) 16 in
      [sextet val 18; sextet val 12; padChar; padChar]
  | [b0; b1] =>
      let val := N.lor (N.shiftl (Byte.to_N b0) 16) (N.shiftl (Byte.to_N b1) 8) in
      [sextet val 18; sextet val 12; sextet val 6; padChar]
  | b0 :: b1 :: b2 :: rest =>
      let val := N.lor (N.lor (N.shiftl (Byte.to_N b0) 16) (N.shiftl (Byte.to_N b1) 8))
                       (Byte.to_N b2) in
      [sextet val 18; sextet val 12; sextet val 6; sextet val 0] ++ encode rest
  end.

Definition StdEncoding_EncodeToString (src : list Byte.byte) : string :=
  string_of_bytes (encode src).

End base64.

(** ** The resources the controller reads and writes *)

(** Package [corev1]: secrets. *)
Module corev1.
Record Secret : Type := mkSecret {
  ObjectMeta : metav1.ObjectMeta;
  Data : gmap string (list Byte.byte)
}.
End corev1.

(** Package [clusterapiv1]: the workload cluster ([clusters.cluster.x-k8s.io]). *)
Module clusterapiv1.
Record APIEndpoint : Type := mkAPIEndpoint { Host : string; Port : Z }.
Record ClusterSpec : Type := mkClusterSpec { ControlPlaneEndpoint : APIEndpoint }.
Record Cluster : Type := mkCluster {
  ObjectMeta : metav1.ObjectMeta;
  Spec : ClusterSpec
}.

(** [&clusterapiv1.Cluster{}]. *)
Definition Cluster_zero : Cluster :=
  mkCluster metav1.ObjectMeta_zero (mkClusterSpec (mkAPIEndpoint "" 0)).
End clusterapiv1.

(** Package [argocdv1beta1]: the Register custom resource.  Its status is a
    sub-resource ([+kubebuilder:subresource:status]). *)
Module argocdv1beta1.
Record RegisterSpec : Type := mkRegisterSpec { ArgoCDEndpoint : string }.
Record RegisterStatus : Type := mkRegisterStatus { Conditions : list metav1.Condition }.
Record Register : Type := mkRegister {
  ObjectMeta : metav1.ObjectMeta;
  Spec : RegisterSpec;
  Status : RegisterStatus
}.

(** [&argocdv1beta1.Register{}]. *)
Definition Register_zero : Register :=
  mkRegister metav1.ObjectMeta_zero (mkRegisterSpec "") (mkRegisterStatus []).

Definition withObjectMeta (r : Register) (m : metav1.ObjectMeta) : Register :=
  mkRegister m (Spec r) (Status r).

Definition withStatus (r : Register) (s : RegisterStatus) : Register :=
  mkRegister (ObjectMeta r) (Spec r) s.

Definition GetDeletionTimestamp (r : Register) : option metav1.Time :=
  metav1.DeletionTimestamp (ObjectMeta r).

Definition SetDeletionTimestamp (r : Register) (t : option metav1.Time) : Register :=
  withObjectMeta r (metav1.SetDeletionTimestamp (ObjectMeta r) t).

Definition key (r : Register) : NamespacedName :=
  (metav1.Namespace (ObjectMeta r), metav1.Name (ObjectMeta r)).
End argocdv1beta1.

(** ** Package [controllerutil]: finalizers and owner references *)
Module controllerutil.
Import argocdv1beta1.

Definition ContainsFinalizer (o : Register) (finalizer : string) : bool :=
  existsb (String.eqb finalizer) (metav1.Finalizers (ObjectMeta o)).

(** [RemoveFinalizer]: every occurrence is dropped; the flag tells whether
    the list became shorter. *)
Definition RemoveFinalizer (o : Register) (finalizer : string) : Register * bool :=
  let f := metav1.Finalizers (ObjectMeta o) in
  let f' := List.filter (fun x => negb (String.eqb x finalizer)) f in
  (withObjectMeta o (metav1.SetFinalizers (ObjectMeta o) f'),
   negb (length f' =? length f)%nat).

(** [upsertOwnerRef]: replace the reference to the same owner, or append. *)
Fixpoint upsertOwnerRef (ref : metav1.OwnerReference) (refs : list metav1.OwnerReference)
  : list metav1.OwnerReference :=
  match refs with
  | [] => [ref]
  | r :: rest =>
      if String.eqb (metav1.APIVersion r) (metav1.APIVersion ref)
         && String.eqb (metav1.Kind r) (metav1.Kind ref)
         && String.eqb (metav1.OwnerName r) (metav1.OwnerName ref)
      then ref :: rest
      else r :: upsertOwnerRef ref rest
  end.

(** [validateOwner]: a namespaced owner needs an object in its namespace. *)
Definition validateOwner (owner : clusterapiv1.Cluster) (object : Register) : option error :=
  let ownerNs := metav1.Namespace (clusterapiv1.ObjectMeta owner) in
  let objNs := metav1.Namespace (ObjectMeta object) in
  if negb (String.eqb ownerNs "") then
    if String.eqb objNs "" then
      Some (errors_New "cluster-scoped resource must not have a namespace-scoped owner")
    else if negb (String.eqb ownerNs objNs) then
      Some (errors_New "cross-namespace owner references are disallowed")
    else None
  else None.

(** [SetOwnerReference(owner, object, scheme)]; the scheme either knows the
    (apiVersion, kind) of [Cluster] or fails the lookup. *)
Definition SetOwnerReference (owner : clusterapiv1.Cluster) (object : Register)
    (scheme : result (string * string)) : Register * option error :=
  match validateOwner owner object with
  | Some err => (object, Some err)
  | None =>
      match scheme with
      | inr err => (object, Some err)
      | inl (apiVersion, kind) =>
          let ref := metav1.mkOwnerReference apiVersion kind
                       (metav1.Name (clusterapiv1.ObjectMeta owner))
                       (metav1.UID (clusterapiv1.ObjectMeta owner)) in
          (withObjectMeta object
             (metav1.SetOwnerReferences (ObjectMeta object)
                (upsertOwnerRef ref (metav1.OwnerReferences (ObjectMeta object)))),
           None)
      end
  end.
End controllerutil.

(** ** Package [net/http] and [encoding/json]: what goes over the wire *)
Module http.

(** The value handed to [json.Marshal]: strings, byte slices (marshalled
    as base64 text) and maps, whose keys are emitted in sorted order. *)
#[warnings="-register-all"]
Inductive JSON : Type :=
| JString (s : string)
| JBytes (b : list Byte.byte)
| JObject (fields : list (string * JSON)).

Definition keys (v : JSON) : list string :=
  match v with
  | JObject fields => fst <$> fields
  | _ => []
  end.

Fixpoint assoc (k : string) (fields : list (string * JSON)) : option JSON :=
  match fields with
  | [] => None
  | (k', v) :: rest => if String.eqb k' k then Some v else assoc k rest
  end.

Definition field (k : string) (v : JSON) : option JSON :=
  match v with
  | JObject fields => assoc k fields
  | _ => None
  end.

Record Request : Type := mkRequest {
  Method : string;
  URL : string;
  Header : gmap string (list string);
  Body : JSON
}.

(** [req.Header.Set(key, value)]. *)
Definition Header_Set (req : Request) (k v : string) : Request :=
  mkRequest (Method req) (URL req) (<[k := [v]]> (Header req)) (Body req).

Record Response : Type := mkResponse { StatusCode : Z; Status : string }.

Definition StatusOK : Z := 200.

(** [time.Second], in nanoseconds as [time.Duration] counts. *)
Definition Second : Z := 1000000000.

Record Client : Type := mkClient { Timeout : Z }.

End http.

(** ** The world around one reconciliation *)

(** [argocd.APIManager]: the fields that carry data ([Client], [Ctx] and
    [Log] are the [World] below). *)
Record APIManager : Type := mkAPIManager {
  Token : string;
  Server : string;
  Name : string;
  KubeConfig : list Byte.byte;
  Endpoint : string
}.

(** The calls that leave the controller, in the order they are made; the
    three APIManager operations the controller invokes are recorded too, so
    that "is attempted" and "is invoked" can be read off an execution. *)
Inductive Call : Type :=
| GetCluster (key : NamespacedName)
| GetRegister (key : NamespacedName)
| GetSecret (key : NamespacedName)
| Create (obj : argocdv1beta1.Register)
| Update (obj : argocdv1beta1.Register)
| StatusUpdate (obj : argocdv1beta1.Register)
| Do (client : http.Client) (req : http.Request)
| IsClusterRegisteredCall (a : APIManager)
| RegisterClusterCall (a : APIManager)
| UnRegisterClusterCall (a : APIManager)
| RecorderEvent (key : NamespacedName) (eventtype reason message : string).

Record World : Type := mkWorld {
  (** the objects the API server holds *)
  clusters : gmap NamespacedName clusterapiv1.Cluster;
  registers : gmap NamespacedName argocdv1beta1.Register;
  secrets : gmap NamespacedName corev1.Secret;
  (** [os.LookupEnv] *)
  environ : gmap string string;
  (** the reading of [time.Now()] during this reconciliation *)
  now : metav1.Time;
  (** [r.Scheme]: the (apiVersion, kind) it resolves [Cluster] to *)
  scheme : result (string * string);
  (** [clientcmd.Load]: the error it answers for kubeconfig bytes, if any *)
  clientcmd_Load : list Byte.byte -> option error;
  (** [http.NewRequest]: the error it answers for a method and URL, if any *)
  http_NewRequest : string -> string -> option error;
  (** the transport and the remote endpoint behind [client.Do] *)
  roundTrip : http.Client -> http.Request -> result http.Response;
  (** the outcome imposed on each coming API-server call: [Some err] makes
      the call fail with [err] (conflict, timeout, ...), [None] and an
      exhausted schedule let it take its natural course *)
  faults : list (option error);
  (** the calls made so far *)
  trace : list Call
}.

Definition set_registers (w : World) (rs : gmap NamespacedName argocdv1beta1.Register) : World :=
  mkWorld (clusters w) rs (secrets w) (environ w) (now w) (scheme w)
          (clientcmd_Load w) (http_NewRequest w) (roundTrip w) (faults w) (trace w).

Definition set_faults (w : World) (fs : list (option error)) : World :=
  mkWorld (clusters w) (registers w) (secrets w) (environ w) (now w) (scheme w)
          (clientcmd_Load w) (http_NewRequest w) (roundTrip w) fs (trace w).

Definition set_trace (w : World) (tr : list Call) : World :=
  mkWorld (clusters w) (registers w) (secrets w) (environ w) (now w) (scheme w)
          (clientcmd_Load w) (http_NewRequest w) (roundTrip w) (faults w) tr.

(** The world at a later reading of [time.Now()]. *)
Definition set_now (w : World) (t : metav1.Time) : World :=
  mkWorld (clusters w) (registers w) (secrets w) (environ w) t (scheme w)
          (clientcmd_Load w) (http_NewRequest w) (roundTrip w) (faults w) (trace w).

Definition record (c : Call) (w : World) : World :=
  mkWorld (clusters w) (registers w) (secrets w) (environ w) (now w) (scheme w)
          (clientcmd_Load w) (http_NewRequest w) (roundTrip w) (faults w) (trace w ++ [c]).

(** The state monad over [World]. *)
Definition M (A : Type) : Type := World -> A * World.

Definition ret {A : Type} (a : A) : M A := fun w => (a, w).

Definition bind {A B : Type} (m : M A) (k : A -> M B) : M B :=
  fun w => let (a, w') := m w in k a w'.

Declare Scope go_scope.
Delimit Scope go_scope with go.
Notation "x <- m ;; k" := (bind m (fun x => k))
  (at level 63, m at next level, right associativity) : go_scope.
Open Scope go_scope.

Definition get {A : Type} (f : World -> A) : M A := fun w => (f w, w).

Definition call (c : Call) : M unit := fun w => (tt, record c w).

(** One call to the API server: recorded, then failed by the schedule or
    left to its natural course. *)
Definition api {A : Type} (c : Call) (natural : M (result A)) : M (result A) :=
  fun w =>
    let w := record c w in
    match faults w with
    | Some err :: fs => (inr err, set_faults w fs)
    | None :: fs => natural (set_faults w fs)
    | [] => natural w
    end.

(** The double quote of the API server's messages. *)
Definition quote : string := String (ascii_of_nat 34) EmptyString.

Definition NewNotFound (kind : string) (key : NamespacedName) : error :=
  {| Error := kind +:+ " " +:+ quote +:+ snd key +:+ quote +:+ " not found";
     NotFound := true |}.

Definition NewAlreadyExists (kind : string) (key : NamespacedName) : error :=
  {| Error := kind +:+ " " +:+ quote +:+ snd key +:+ quote +:+ " already exists";
     NotFound := false |}.

Definition NewInvalid (kind : string) (key : NamespacedName) (detail : string) : error :=
  {| Error := kind +:+ " " +:+ quote +:+ snd key +:+ quote +:+ " is invalid: " +:+ detail;
     NotFound := false |}.

(** ** [client.Client]: fetch by key, create, update, update status

    The store is the plain one the controller assumes: [Get] answers the
    stored object, which replaces the object it was given (as the
    cache-backed client of a manager does; a failed call leaves the object
    as it was); [Create] and [Update] store the metadata and spec they are
    given, [Status().Update] the status; each answers the object stored.
    The deletion timestamp is the server's: an [Update] that carries another
    one than the stored object has is refused. *)
Module client.
Import argocdv1beta1.

Definition lookup_or_NotFound {A : Type} (kind : string) (key : NamespacedName)
    (store : World -> gmap NamespacedName A) : M (result A) :=
  fun w => match store w !! key with
           | Some o => (inl o, w)
           | None => (inr (NewNotFound kind key), w)
           end.

Definition Get_Cluster (key : NamespacedName) : M (result clusterapiv1.Cluster) :=
  api (GetCluster key) (lookup_or_NotFound "clusters.cluster.x-k8s.io" key clusters).

Definition Get_Register (key : NamespacedName) : M (result Register) :=
  api (GetRegister key) (lookup_or_NotFound "registers.argocd.workload.com" key registers).

Definition Get_Secret (key : NamespacedName) : M (result corev1.Secret) :=
  api (GetSecret key) (lookup_or_NotFound "secrets" key secrets).

(** [Create]: the status of the request is dropped (it is a sub-resource);
    the object answered is the one stored. *)
Definition Create_Register (obj : Register) : M (result Register) :=
  api (Create obj) (fun w =>
    match registers w !! key obj with
    | Some _ => (inr (NewAlreadyExists "registers.argocd.workload.com" (key obj)), w)
    | None =>
        let stored := withStatus obj (mkRegisterStatus []) in
        (inl stored, set_registers w (<[key obj := stored]> (registers w)))
    end).

(** The message of the API server for a changed [metadata.deletionTimestamp]. *)
Definition deletionTimestampImmutable : string :=
  "metadata.deletionTimestamp: Invalid value: field is immutable; may only be changed via deletion".

(** [Update]: metadata and spec are replaced, the stored status is kept.
    [metadata.deletionTimestamp] is immutable: an update whose deletion
    timestamp is not the one of the stored object is refused as invalid,
    and nothing is stored. *)
Definition Update_Register (obj : Register) : M (result Register) :=
  api (Update obj) (fun w =>
    match registers w !! key obj with
    | None => (inr (NewNotFound "registers.argocd.workload.com" (key obj)), w)
    | Some old =>
        if bool_decide (GetDeletionTimestamp obj = GetDeletionTimestamp old) then
          let stored := withStatus obj (Status old) in
          (inl stored, set_registers w (<[key obj := stored]> (registers w)))
        else
          (inr (NewInvalid "registers.argocd.workload.com" (key obj)
                  deletionTimestampImmutable), w)
    end).

(** [Status().Update]: the status is replaced, metadata and spec are kept. *)
Definition Status_Update_Register (obj : Register) : M (result Register) :=
  api (StatusUpdate obj) (fun w =>
    match registers w !! key obj with
    | None => (inr (NewNotFound "registers.argocd.workload.com" (key obj)), w)
    | Some old =>
        let stored := withStatus old (Status obj) in
        (inl stored, set_registers w (<[key obj := stored]> (registers w)))
    end).
End client.

(** [os.LookupEnv(name)], with the default the callers fall back on. *)
Definition LookupEnv_or (name default : string) : M string :=
  fun w => (match environ w !! name with Some v => v | None => default end, w).

(** [meta.SetStatusCondition(&cr.Status.Conditions, c)] at the current time. *)
Definition SetStatusCondition (cr : argocdv1beta1.Register) (c : metav1.Condition)
  : M argocdv1beta1.Register :=
  fun w =>
    (argocdv1beta1.withStatus cr
       (argocdv1beta1.mkRegisterStatus
          (meta.SetStatusCondition (now w)
             (argocdv1beta1.Conditions (argocdv1beta1.Status cr)) c)),
     w).

(** [metav1.Condition{Type: t, Status: s, Reason: r, Message: m}]. *)
Definition condition (t : string) (s : metav1.ConditionStatus) (r m : string)
  : metav1.Condition :=
  metav1.mkCondition t s 0 0 r m.

(** ** Package [argocd]: the API manager ([internal/argocd/argocd.go]) *)
Module argocd.

Definition NamespaceEnvVar : string := "ARGOCD_NAMESPACE".
Definition SecretNameEnvVar : string := "ARGOCD_SECRET_NAME".
Definition APIEndpointEnvVar : string := "ARGOAPI_ENDPOINT".
Definition defaultSecretName : string := "argocd-secret".
Definition defaultNamespace : string := "argocd".
Definition defaultArgoAPIEndpoint : string := "https://argocd-api.example.com".

Definition withToken (a : APIManager) (token : string) : APIManager :=
  mkAPIManager token (Server a) (Name a) (KubeConfig a) (Endpoint a).

(** [setBareToken]: the manager as the method leaves it, and its error. *)
Definition setBareToken (a : APIManager) : M (APIManager * option error) :=
  argocdNamespace <- LookupEnv_or NamespaceEnvVar defaultNamespace ;;
  argocdSecretName <- LookupEnv_or SecretNameEnvVar defaultSecretName ;;
  r <- client.Get_Secret (argocdNamespace, argocdSecretName) ;;
  match r with
  | inr err => ret (a, Some (fmt_Errorf_w "error fetching secret: " err))
  | inl secret =>
      match corev1.Data secret !! "admin.password" with
      | None => ret (a, Some (errors_New "admin.password not found in secret"))
      | Some tokenBase64 =>
          match base64.StdEncoding_DecodeString (string_of_bytes tokenBase64) with
          | inr err => ret (a, Some err)
          | inl token => ret (withToken a (string_of_bytes token), None)
          end
      end
  end.

(** [NewAPIManagerWithCluster]: Go returns the manager and the error
    together, and so does the model. *)
Definition NewAPIManagerWithCluster (clusterAPI : clusterapiv1.Cluster)
    (kubeConfig : list Byte.byte) : M (APIManager * option error) :=
  argoAPIEndpoint <- LookupEnv_or APIEndpointEnvVar defaultArgoAPIEndpoint ;;
  let endpoint := clusterapiv1.ControlPlaneEndpoint (clusterapiv1.Spec clusterAPI) in
  let newArgo :=
    {| Token := "";
       Server := clusterapiv1.Host endpoint +:+ ":" +:+ strconv_Itoa (clusterapiv1.Port endpoint);
       Name := metav1.Name (clusterapiv1.ObjectMeta clusterAPI);
       KubeConfig := kubeConfig;
       Endpoint := argoAPIEndpoint |} in
  setBareToken newArgo.

Definition ValidateKubeConfigForClusterAPI (a : APIManager) : M (option error) :=
  fun w =>
    (match clientcmd_Load w (KubeConfig a) with
     | Some err => Some (fmt_Errorf_w "error loading kubeconfig: " err)
     | None => None
     end, w).

(** The map [argocdCluster], in the key order [json.Marshal] emits. *)
Definition argocdCluster (a : APIManager) : http.JSON :=
  http.JObject
    [("config", http.JObject [("bearerToken", http.JString (Token a))]);
     ("kubeconfig", http.JBytes (KubeConfig a));
     ("name", http.JString (Name a));
     ("server", http.JString (Server a))].

(** The request [RegisterCluster] builds, headers set. *)
Definition registerRequest (a : APIManager) : http.Request :=
  let url := Endpoint a +:+ "/api/v1/clusters" in
  let req := http.mkRequest "POST" url ∅ (argocdCluster a) in
  let req := http.Header_Set req "Content-Type" "application/json" in
  http.Header_Set req "Authorization" ("Bearer " +:+ Token a).

Definition registerClient : http.Client :=
  http.mkClient (http.Second * 30).

Definition Client_Do (c : http.Client) (req : http.Request) : M (result http.Response) :=
  fun w => (roundTrip w c req, record (Do c req) w).

Definition RegisterCluster (a : APIManager) : M (option error) :=
  _ <- call (RegisterClusterCall a) ;;
  v <- ValidateKubeConfigForClusterAPI a ;;
  match v with
  | Some err => ret (Some err)
  | None =>
      let url := Endpoint a +:+ "/api/v1/clusters" in
      e <- get (fun w => http_NewRequest w "POST" url) ;;
      match e with
      | Some err => ret (Some (fmt_Errorf_w "error creating request: " err))
      | None =>
          r <- Client_Do registerClient (registerRequest a) ;;
          match r with
          | inr err => ret (Some (fmt_Errorf_w "error sending request: " err))
          | inl resp =>
              if negb (Z.eqb (http.StatusCode resp) http.StatusOK) then
                ret (Some (errors_New
                  ("error registering cluster, status: " +:+ http.Status resp)))
              else ret None
          end
      end
  end.

Definition IsClusterRegistered (a : APIManager) : M (bool * option error) :=
  _ <- call (IsClusterRegisteredCall a) ;;
  ret (false, None).

Definition CheckRegistration (a : APIManager) : M (option error) :=
  ret None.

Definition UnRegisterCluster (a : APIManager) : M (option error) :=
  _ <- call (UnRegisterClusterCall a) ;;
  ret None.

End argocd.

(** ** The Register controller ([RegisterReconciler])

    [RegisterCR] is a pointer the helpers write through; each helper
    therefore answers the object as it leaves it next to its Go result. *)
Module controller.
Import argocdv1beta1.

Definition registerCRFinalizer : string := "argocd.register.workload.com/finalizer".

Definition isMarkedToBeDeleted (RegisterCR : Register) : bool :=
  bool_decide (is_Some (GetDeletionTimestamp RegisterCR)).

Definition getClusterKubeConfigFromSecret (req : NamespacedName)
  : M (result (list Byte.byte)) :=
  r <- client.Get_Secret req ;;
  match r with
  | inr err => ret (inr err)
  | inl secret =>
      match corev1.Data secret !! "kubeconfig" with
      | None => ret (inr (errors_New "kubeconfig not found in secret"))
      | Some kubeconfig => ret (inl kubeconfig)
      end
  end.

Definition generateRegisterCR (clusterAPI : clusterapiv1.Cluster)
  : M (Register * option error) :=
  let newRegister :=
    mkRegister
      (metav1.mkObjectMeta
         (metav1.Name (clusterapiv1.ObjectMeta clusterAPI))
         (metav1.Namespace (clusterapiv1.ObjectMeta clusterAPI))
         "" None [] [])
      (mkRegisterSpec "") (mkRegisterStatus []) in
  s <- get scheme ;;
  ret (controllerutil.SetOwnerReference clusterAPI newRegister s).

Definition createRegisterCR (clusterAPI : clusterapiv1.Cluster) (RegisterCR : Register)
  : M (option error * Register) :=
  g <- generateRegisterCR clusterAPI ;;
  match g with
  | (_, Some err) =>
      ret (Some (fmt_Errorf_w "failed to generate Register CR: " err), RegisterCR)
  | (newRegister, None) =>
      RegisterCR <- SetStatusCondition RegisterCR
        (condition status.ConditionProgressing metav1.ConditionTrue "Creating Register"
           "Preparing to Register Cluster with ArgoCD") ;;
      r <- client.Create_Register newRegister ;;
      match r with
      | inr err => ret (Some (fmt_Errorf_w "failed to create Register CR: " err), RegisterCR)
      | inl _ => ret (None, RegisterCR)
      end
  end.

(** The helper's two Degraded/"Error" reports share this shape: re-fetch,
    set the condition, update the status. *)
Definition handleIntegrationWithArgoCDAPI (req : NamespacedName) (RegisterCR : Register)
    (clusterAPI : clusterapiv1.Cluster) : M (result APIManager * Register) :=
  k <- getClusterKubeConfigFromSecret req ;;
  match k with
  | inr err =>
      r <- client.Get_Register req ;;
      match r with
      | inr err' => ret (inr err', RegisterCR)
      | inl RegisterCR =>
          RegisterCR <- SetStatusCondition RegisterCR
            (condition status.ConditionDegraded metav1.ConditionTrue "Error"
               ("Unable to gathering kubeConfig: " +:+ Error err)) ;;
          u <- client.Status_Update_Register RegisterCR ;;
          match u with
          | inr err' => ret (inr err', RegisterCR)
          | inl RegisterCR => ret (inr err, RegisterCR)
          end
      end
  | inl kubeconfigContent =>
      n <- argocd.NewAPIManagerWithCluster clusterAPI kubeconfigContent ;;
      match n with
      | (argoCDAPIManager, Some err) =>
          r <- client.Get_Register req ;;
          match r with
          | inr err' => ret (inr err', RegisterCR)
          | inl RegisterCR =>
              RegisterCR <- SetStatusCondition RegisterCR
                (condition status.ConditionDegraded metav1.ConditionTrue "Error"
                   ("Unable to gathering pre-requirements to connect with ArgoCD: "
                      +:+ Error err)) ;;
              u <- client.Status_Update_Register RegisterCR ;;
              match u with
              | inr err' => ret (inr err', RegisterCR)
              | inl RegisterCR => ret (inl argoCDAPIManager, RegisterCR)
              end
          end
      | (argoCDAPIManager, None) => ret (inl argoCDAPIManager, RegisterCR)
      end
  end.

Definition handleClusterRegistration (req : NamespacedName) (argoCDManager : APIManager)
    (RegisterCR : Register) : M (option error * Register) :=
  c <- argocd.IsClusterRegistered argoCDManager ;;
  let isClusterRegistered := fst c in
  r <- client.Get_Register req ;;
  match r with
  | inr err' => ret (Some err', RegisterCR)
  | inl RegisterCR =>
      (* lines 251-258 *)
      let available (RegisterCR : Register) : M (option error * Register) :=
        RegisterCR <- SetStatusCondition RegisterCR
          (condition status.ConditionAvailable metav1.ConditionTrue "Reconciling"
             "Cluster is Registered") ;;
        u <- client.Status_Update_Register RegisterCR ;;
        match u with
        | inr err' => ret (Some err', RegisterCR)
        | inl RegisterCR => ret (None, RegisterCR)
        end in
      (* lines 238-249 *)
      let register (RegisterCR : Register) : M (option error * Register) :=
        if negb isClusterRegistered then
          e <- argocd.RegisterCluster argoCDManager ;;
          match e with
          | Some err =>
              RegisterCR <- SetStatusCondition RegisterCR
                (condition status.ConditionDegraded metav1.ConditionTrue "Error"
                   ("Unable to register Cluster into ArgoCD: " +:+ Error err)) ;;
              u <- client.Status_Update_Register RegisterCR ;;
              match u with
              | inr err' => ret (Some err', RegisterCR)
              | inl RegisterCR => available RegisterCR
              end
          | None => available RegisterCR
          end
        else available RegisterCR in
      (* lines 227-236 *)
      match snd c with
      | Some err =>
          RegisterCR <- SetStatusCondition RegisterCR
            (condition status.ConditionDegraded metav1.ConditionTrue "Error"
               ("Unable to verify Cluster Registration: " +:+ Error err)) ;;
          u <- client.Status_Update_Register RegisterCR ;;
          match u with
          | inr err' => ret (Some err', RegisterCR)
          | inl RegisterCR => register RegisterCR
          end
      | None => register RegisterCR
      end
  end.

(** [doFinalizerOperations], over the unregister operation of the manager. *)
Definition doFinalizerOperations_via (UnRegisterCluster : APIManager -> M (option error))
    (cr : Register) (argoCDManager : APIManager) : M (option error) :=
  e <- UnRegisterCluster argoCDManager ;;
  match e with
  | Some err => ret (Some err)
  | None =>
      _ <- call (RecorderEvent (key cr) "Warning" "Deleting"
                   ("Register CR " +:+ metav1.Namespace (ObjectMeta cr)
                      +:+ " from the namespace " +:+ metav1.Name (ObjectMeta cr)
                      +:+ " will be deleted.")) ;;
      ret None
  end.

(** [handleFinalizer], over the unregister operation of the manager. *)
Definition handleFinalizer_via (UnRegisterCluster : APIManager -> M (option error))
    (RegisterCR : Register) (req : NamespacedName) (argoCDManager : APIManager)
  : M (option error * Register) :=
  if controllerutil.ContainsFinalizer RegisterCR registerCRFinalizer then
    RegisterCR <- SetStatusCondition RegisterCR
      (condition status.ConditionDegraded metav1.ConditionTrue "Finalizing"
         "Performing finalizer operations to delete Register") ;;
    u <- client.Status_Update_Register RegisterCR ;;
    match u with
    | inr err => ret (Some err, RegisterCR)
    | inl RegisterCR =>
    r <- client.Get_Register req ;;
    match r with
    | inr err => ret (Some err, RegisterCR)
    | inl RegisterCR =>
    e <- doFinalizerOperations_via UnRegisterCluster RegisterCR argoCDManager ;;
    match e with
    | Some err =>
        RegisterCR <- SetStatusCondition RegisterCR
          (condition status.ConditionDegraded metav1.ConditionUnknown "Finalizing"
             ("Error to perform required operations: " +:+ Error err)) ;;
        u <- client.Status_Update_Register RegisterCR ;;
        match u with
        | inr err' => ret (Some err', RegisterCR)
        | inl RegisterCR => ret (Some err, RegisterCR)
        end
    | None =>
        RegisterCR <- SetStatusCondition RegisterCR
          (condition status.ConditionDegraded metav1.ConditionTrue "Finalizing"
             "Cluster is unregister successfully accomplished") ;;
        u <- client.Status_Update_Register RegisterCR ;;
        match u with
        | inr err => ret (Some err, RegisterCR)
        | inl RegisterCR =>
        r <- client.Get_Register req ;;
        match r with
        | inr err => ret (Some err, RegisterCR)
        | inl RegisterCR =>
            let (RegisterCR, ok) :=
              controllerutil.RemoveFinalizer RegisterCR registerCRFinalizer in
            if negb ok then ret (None, RegisterCR)
            else
              u <- client.Update_Register RegisterCR ;;
              match u with
              | inr err => ret (Some err, RegisterCR)
              | inl RegisterCR => ret (None, RegisterCR)
              end
        end
        end
    end
    end
    end
  else ret (None, RegisterCR).

Definition doFinalizerOperations : Register -> APIManager -> M (option error) :=
  doFinalizerOperations_via argocd.UnRegisterCluster.

Definition handleFinalizer : Register -> NamespacedName -> APIManager
                             -> M (option error * Register) :=
  handleFinalizer_via argocd.UnRegisterCluster.

(** [Reconcile] from "Gathering the data, validate and create a
    argoCDAPIManager" to its end (lines 156-177), entered with the record
    just fetched. *)
Definition reconcileWithManager (req : NamespacedName) (clusterAPI : clusterapiv1.Cluster)
    (RegisterCR : Register) : M (option error) :=
  i <- handleIntegrationWithArgoCDAPI req RegisterCR clusterAPI ;;
  match i with
  | (inr err, _) => ret (Some err)
  | (inl argoCDAPIManager, RegisterCR) =>
      if isMarkedToBeDeleted RegisterCR then
        f <- handleFinalizer RegisterCR req argoCDAPIManager ;;
        match fst f with
        | Some err => ret (Some err)
        | None => ret None
        end
      else
        h <- handleClusterRegistration req argoCDAPIManager RegisterCR ;;
        match fst h with
        | Some err => ret (Some err)
        | None => ret None
        end
  end.

(** [Reconcile] from "Check if Register exist, if not create" on (lines
    140-154, then the part above), entered with the cluster and the record
    held so far. *)
Definition reconcileRegister (req : NamespacedName) (clusterAPI : clusterapiv1.Cluster)
    (RegisterCR : Register) : M (option error) :=
  r <- client.Get_Register req ;;
  match r with
  | inl RegisterCR => reconcileWithManager req clusterAPI RegisterCR
  | inr err =>
      if negb (NotFound err) then ret (Some err)
      else
        c <- createRegisterCR clusterAPI RegisterCR ;;
        match c with
        | (Some err, _) => ret (Some err)
        | (None, RegisterCR) =>
            r <- client.Get_Register req ;;
            match r with
            | inr err => ret (Some err)
            | inl RegisterCR => reconcileWithManager req clusterAPI RegisterCR
            end
        end
  end.

(** [Reconcile]; the [ctrl.Result] it answers is always the empty one, so
    the model answers the error alone. *)
Definition Reconcile (req : NamespacedName) : M (option error) :=
  r <- client.Get_Cluster req ;;
  match r with
  | inl clusterAPI => reconcileRegister req clusterAPI Register_zero
  | inr err =>
      if negb (NotFound err) then ret (Some err)
      else
        r <- client.Get_Register req ;;
        match r with
        | inr err =>
            if NotFound err then ret None else ret (Some err)
        | inl RegisterCR =>
            if negb (isMarkedToBeDeleted RegisterCR) then
              t <- get now ;;
              let RegisterCR := SetDeletionTimestamp RegisterCR (Some t) in
              u <- client.Update_Register RegisterCR ;;
              match u with
              | inr err => ret (Some err)
              | inl RegisterCR => reconcileRegister req clusterapiv1.Cluster_zero RegisterCR
              end
            else reconcileRegister req clusterapiv1.Cluster_zero RegisterCR
        end
  end.

End controller.

(** [strings.Split(s, sep)] for a separator of one byte: the pieces of [s]
    between the occurrences of [sep], in order; there is always one piece
    more than there are occurrences (so the list of the remainder is never
    empty, and the last case below does not arise). *)
Fixpoint strings_Split (s : string) (sep : ascii) : list string :=
  match s with
  | EmptyString => [EmptyString]
  | String c rest =>
      if Ascii.eqb c sep then EmptyString :: strings_Split rest sep
      else match strings_Split rest sep with
           | first :: others => String c first :: others
           | [] => [String c EmptyString]
           end
  end.

(** ** Package [utils] of the end-to-end tests ([test/utils/utils.go]) *)
Module utils.

Definition newline : ascii := "010"%char.

Definition GetNonEmptyLines (output : string) : list string :=
  List.filter (fun element => negb (String.eqb element ""))
    (strings_Split output newline).

End utils.

(** * Properties *)

(** ** Status conditions *)
Section Conditions.
Import metav1 meta.

Implicit Types (conditions : list Condition) (c e : Condition) (t : string).

Lemma ofType_absent conditions t :
  t ∉ Type_ <$> conditions -> ofType t conditions = [].
Proof.
  unfold ofType. induction conditions as [|c rest IH]; intros Hnotin; [done|].
  rewrite fmap_cons in Hnotin. apply not_elem_of_cons in Hnotin as [Hne Hrest].
  rewrite filter_cons_False by (intros Heq; by apply Hne). by apply IH.
Qed.

Lemma FindStatusCondition_None conditions t :
  FindStatusCondition conditions t = None <-> t ∉ Type_ <$> conditions.
Proof.
  induction conditions as [|c rest IH]; simpl.
  - split; [intros _; apply not_elem_of_nil | done].
  - destruct (String.eqb_spec (Type_ c) t) as [Heq|Hne].
    + split; [done | intros H; exfalso; apply H; subst; left].
    + destruct (FindStatusCondition rest t) as [[i c']|] eqn:Hf.
      * split; [done | intros H; exfalso].
        assert (Hin : t ∉ Type_ <$> rest) by (intros Hin; apply H; by right).
        apply IH in Hin. discriminate.
      * split; [intros _ | done].
        intros Hin. apply elem_of_cons in Hin as [Heq|Hin]; [by subst|].
        by apply IH in Hin.
Qed.

Lemma FindStatusCondition_Some conditions t i e :
  FindStatusCondition conditions t = Some (i, e) ->
  conditions !! i = Some e /\ Type_ e = t.
Proof.
  revert i. induction conditions as [|c rest IH]; intros i; simpl; [done|].
  destruct (String.eqb_spec (Type_ c) t) as [Heq|Hne].
  - intros [= <- <-]. done.
  - destruct (FindStatusCondition rest t) as [[j c']|] eqn:Hf; [|done].
    intros [= <- <-]. by apply IH.
Qed.

Lemma Type_updateExisting now e c : Type_ (updateExisting now e c) = Type_ e.
Proof. reflexivity. Qed.

Lemma Type_stampNew now c : Type_ (stampNew now c) = Type_ c.
Proof. unfold stampNew. by destruct (Time_IsZero _). Qed.

(** Replacing an entry by one of the same type keeps the list of types. *)
Lemma types_insert_same conditions i e e' :
  conditions !! i = Some e -> Type_ e' = Type_ e ->
  Type_ <$> <[i := e']> conditions = Type_ <$> conditions.
Proof.
  intros Hi Ht. rewrite list_fmap_insert, Ht.
  apply list_insert_id. by rewrite list_lookup_fmap, Hi.
Qed.

Lemma SetStatusCondition_types_existing now conditions c i e :
  FindStatusCondition conditions (Type_ c) = Some (i, e) ->
  Type_ <$> SetStatusCondition now conditions c = Type_ <$> conditions.
Proof.
  intros Hf. unfold SetStatusCondition. rewrite Hf.
  apply FindStatusCondition_Some in Hf as [Hi _].
  by eapply types_insert_same.
Qed.

Lemma SetStatusCondition_types_new now conditions c :
  FindStatusCondition conditions (Type_ c) = None ->
  Type_ <$> SetStatusCondition now conditions c = (Type_ <$> conditions) ++ [Type_ c].
Proof.
  intros Hf. unfold SetStatusCondition. rewrite Hf.
  by rewrite fmap_app; simpl; rewrite Type_stampNew.
Qed.

(** At most one condition per type: true of the empty list and kept by
    every [SetStatusCondition]. *)
Lemma OnePerType_nil : OnePerType [].
Proof. apply NoDup_nil_2. Qed.

Lemma OnePerType_SetStatusCondition now conditions c :
  OnePerType conditions -> OnePerType (SetStatusCondition now conditions c).
Proof.
  unfold OnePerType. intros Hnd.
  destruct (FindStatusCondition conditions (Type_ c)) as [[i e]|] eqn:Hf.
  - by erewrite SetStatusCondition_types_existing.
  - rewrite SetStatusCondition_types_new by done.
    apply NoDup_app. split; [done|]. split; [|apply NoDup_singleton].
    intros x Hx Hx'. apply list_elem_of_singleton in Hx'. subst x.
    by apply FindStatusCondition_None in Hf.
Qed.

(** In a list with one condition per type, the conditions of the type of
    the entry at [i] are that entry alone. *)
Lemma ofType_unique conditions i e :
  OnePerType conditions -> conditions !! i = Some e ->
  ofType (Type_ e) conditions = [e].
Proof.
  unfold OnePerType, ofType. revert i.
  induction conditions as [|c rest IH]; intros i Hnd Hi; [done|].
  rewrite fmap_cons in Hnd. apply NoDup_cons in Hnd as [Hnotin Hnd].
  destruct i as [|i]; simpl in Hi.
  - injection Hi as ->. rewrite filter_cons_True by done. f_equal.
    by apply ofType_absent.
  - rewrite filter_cons_False; [by eapply IH|].
    intros Heq. apply Hnotin. rewrite Heq.
    apply list_elem_of_fmap_2. by eapply list_elem_of_lookup_2.
Qed.

Lemma SetStatusCondition_ofType_existing now conditions c i e :
  OnePerType conditions ->
  FindStatusCondition conditions (Type_ c) = Some (i, e) ->
  ofType (Type_ c) (SetStatusCondition now conditions c) = [updateExisting now e c].
Proof.
  intros Hnd Hf. pose proof Hf as Hf'.
  apply FindStatusCondition_Some in Hf' as [Hi Ht].
  unfold SetStatusCondition. rewrite Hf.
  rewrite <- Ht, <- (Type_updateExisting now e c).
  apply (ofType_unique _ i).
  - unfold OnePerType. by erewrite types_insert_same.
  - apply list_lookup_insert_eq. by eapply lookup_lt_Some.
Qed.

Lemma SetStatusCondition_ofType_new now conditions c :
  FindStatusCondition conditions (Type_ c) = None ->
  ofType (Type_ c) (SetStatusCondition now conditions c) = [stampNew now c].
Proof.
  intros Hf. unfold SetStatusCondition. rewrite Hf. unfold ofType.
  rewrite filter_app. apply FindStatusCondition_None in Hf.
  fold (ofType (Type_ c) conditions). rewrite ofType_absent by done.
  simpl. by rewrite filter_cons_True by apply Type_stampNew.
Qed.

(** Setting what is already there changes nothing at all. *)
Lemma SetStatusCondition_same now conditions c i e :
  FindStatusCondition conditions (Type_ c) = Some (i, e) ->
  Status e = Status c -> Reason e = Reason c -> Message e = Message c ->
  ObservedGeneration e = ObservedGeneration c ->
  SetStatusCondition now conditions c = conditions.
Proof.
  intros Hf Hs Hr Hm Ho. unfold SetStatusCondition. rewrite Hf.
  apply FindStatusCondition_Some in Hf as [Hi Ht].
  apply list_insert_id. rewrite Hi. f_equal.
  unfold updateExisting. rewrite Hs, bool_decide_eq_true_2 by done. simpl.
  destruct e; simpl in *; by subst.
Qed.

End Conditions.

Definition availableX : metav1.Condition :=
  metav1.mkCondition "Available" metav1.ConditionTrue 0 100 "Reconciling" "X".

(** C5, the claim as stated fails: a condition set with a changed reason
    (and the status unchanged) keeps its lastTransitionTime.  The entry was
    last moved at time 100; at time 200 the reason goes from "Reconciling"
    to "Registered" and the time stays 100. *)
Lemma C5_changed_reason_keeps_lastTransitionTime :
  meta.SetStatusCondition 200 [availableX]
    (condition "Available" metav1.ConditionTrue "Registered" "X")
  = [metav1.mkCondition "Available" metav1.ConditionTrue 0 100 "Registered" "X"].
Proof. reflexivity. Qed.

(** C5, as amended: SetStatusCondition keeps "at most one condition per
    type"; when an entry of the type exists, the list keeps its length and
    holds exactly one entry of that type, which carries the new status,
    reason and message; its lastTransitionTime is unchanged when the status
    is unchanged (whatever the reason and message), and becomes the time of
    the call (or the one supplied) when the status changes; setting what is
    already there changes nothing. *)
Theorem C5_SetStatusCondition now conditions c :
  meta.OnePerType conditions ->
  meta.OnePerType (meta.SetStatusCondition now conditions c)
  /\ forall i e, meta.FindStatusCondition conditions (metav1.Type_ c) = Some (i, e) ->
       length (meta.SetStatusCondition now conditions c) = length conditions
       /\ (exists e', meta.ofType (metav1.Type_ c) (meta.SetStatusCondition now conditions c) = [e']
             /\ metav1.Status e' = metav1.Status c
             /\ metav1.Reason e' = metav1.Reason c
             /\ metav1.Message e' = metav1.Message c
             /\ (metav1.Status e = metav1.Status c ->
                 metav1.LastTransitionTime e' = metav1.LastTransitionTime e)
             /\ (metav1.Status e <> metav1.Status c ->
                 metav1.LastTransitionTime e' =
                   if metav1.Time_IsZero (metav1.LastTransitionTime c)
                   then now else metav1.LastTransitionTime c))
       /\ (metav1.Status e = metav1.Status c -> metav1.Reason e = metav1.Reason c ->
           metav1.Message e = metav1.Message c ->
           metav1.ObservedGeneration e = metav1.ObservedGeneration c ->
           meta.SetStatusCondition now conditions c = conditions).
Proof.
  intros Hone. split; [by apply OnePerType_SetStatusCondition|].
  intros i e Hf. split; [|split].
  - unfold meta.SetStatusCondition. rewrite Hf. apply length_insert.
  - exists (meta.updateExisting now e c).
    split; [by eapply SetStatusCondition_ofType_existing|].
    unfold meta.updateExisting; simpl.
    destruct (decide (metav1.Status e = metav1.Status c)) as [Heq|Hne].
    + rewrite bool_decide_eq_true_2 by done. simpl. repeat split; try done.
    + rewrite bool_decide_eq_false_2 by done. simpl. repeat split; try done.
      intros _. by destruct (metav1.Time_IsZero _).
  - intros. by eapply SetStatusCondition_same.
Qed.

(** The second test of the specification: {Available, True, "X"} then
    {Available, True, "Y"}. *)
Lemma C5_SetStatusCondition_witness :
  meta.OnePerType
    (meta.SetStatusCondition 200 [availableX]
       (condition "Available" metav1.ConditionTrue "Reconciling" "Y")).
Proof.
  apply (C5_SetStatusCondition 200 [availableX]
           (condition "Available" metav1.ConditionTrue "Reconciling" "Y")).
  apply NoDup_singleton.
Defined.

(** ** Base64: decoding undoes encoding *)
Section Base64.
Import base64.
Local Open Scope N_scope.

Lemma byte_high b n : 8 <= n -> N.testbit (Byte.to_N b) n = false.
Proof.
  intros Hn. pose proof (Byte.to_N_bounded b) as Hb.
  destruct (N.eq_dec (Byte.to_N b) 0) as [->|Hne]; [apply N.bits_0|].
  apply N.bits_above_log2.
  apply N.log2_lt_pow2; [lia|].
  apply N.lt_le_trans with (2 ^ 8); [simpl; lia|].
  apply N.pow_le_mono_r; lia.
Qed.

(** Bit by bit: push [testbit] through shifts, masks and unions. *)
Ltac shifts :=
  repeat first
    [ rewrite N.lor_spec
    | rewrite N.land_spec
    | rewrite N.shiftr_spec'
    | rewrite N.shiftl_spec_low by lia
    | rewrite N.shiftl_spec_high' by lia
    | rewrite N.ones_spec_low by lia
    | rewrite N.ones_spec_high by lia
    | rewrite N.bits_0
    | match goal with
      | |- context [(?a - ?s + ?s)%N] => replace (a - s + s)%N with a by lia
      | |- context [N.testbit (Byte.to_N ?b) ?m] => rewrite (byte_high b m) by lia
      end ].

Ltac samebit :=
  repeat rewrite ?orb_false_r, ?orb_false_l, ?andb_true_r, ?andb_false_r;
  try reflexivity;
  try (f_equal; lia).

Ltac split_at n ks :=
  match ks with
  | nil => idtac
  | cons ?k ?rest => destruct (N.lt_ge_cases n k); [| split_at n rest]
  end.

(** The 24-bit group of one, two and three source bytes. *)
Definition group1 (b0 : Byte.byte) : N := N.shiftl (Byte.to_N b0) 16.

Definition group2 (b0 b1 : Byte.byte) : N :=
  N.lor (N.shiftl (Byte.to_N b0) 16) (N.shiftl (Byte.to_N b1) 8).

Definition group3 (b0 b1 b2 : Byte.byte) : N :=
  N.lor (N.lor (N.shiftl (Byte.to_N b0) 16) (N.shiftl (Byte.to_N b1) 8)) (Byte.to_N b2).

Definition six (val shift : N) : N := N.land (N.shiftr val shift) 63.

Lemma assemble_group3 b0 b1 b2 :
  assemble [six (group3 b0 b1 b2) 18; six (group3 b0 b1 b2) 12;
            six (group3 b0 b1 b2) 6; six (group3 b0 b1 b2) 0]
  = group3 b0 b1 b2.
Proof.
  unfold assemble, six, group3. cbn [nth].
  change 63 with (N.ones 6). apply N.bits_inj. intros n.
  split_at n [6; 8; 12; 16; 18; 24]; shifts; samebit.
Qed.

Lemma group3_byte0 b0 b1 b2 : N.land (N.shiftr (group3 b0 b1 b2) 16) 255 = Byte.to_N b0.
Proof.
  unfold group3. change 255 with (N.ones 8). apply N.bits_inj. intros n.
  split_at n [8]; shifts; samebit.
Qed.

Lemma group3_byte1 b0 b1 b2 : N.land (N.shiftr (group3 b0 b1 b2) 8) 255 = Byte.to_N b1.
Proof.
  unfold group3. change 255 with (N.ones 8). apply N.bits_inj. intros n.
  split_at n [8]; shifts; samebit.
Qed.

Lemma group3_byte2 b0 b1 b2 : N.land (group3 b0 b1 b2) 255 = Byte.to_N b2.
Proof.
  unfold group3. change 255 with (N.ones 8). apply N.bits_inj. intros n.
  split_at n [8]; shifts; samebit.
Qed.

Lemma group2_byte0 b0 b1 :
  N.land (N.shiftr (assemble [six (group2 b0 b1) 18; six (group2 b0 b1) 12;
                              six (group2 b0 b1) 6]) 16) 255
  = Byte.to_N b0.
Proof.
  unfold assemble, six, group2. cbn [nth].
  change 63 with (N.ones 6). change 255 with (N.ones 8).
  apply N.bits_inj. intros n.
  split_at n [2; 8]; shifts; samebit.
Qed.

Lemma group2_byte1 b0 b1 :
  N.land (N.shiftr (assemble [six (group2 b0 b1) 18; six (group2 b0 b1) 12;
                              six (group2 b0 b1) 6]) 8) 255
  = Byte.to_N b1.
Proof.
  unfold assemble, six, group2. cbn [nth].
  change 63 with (N.ones 6). change 255 with (N.ones 8).
  apply N.bits_inj. intros n.
  split_at n [4; 8]; shifts; samebit.
Qed.

Lemma group1_byte0 b0 :
  N.land (N.shiftr (assemble [six (group1 b0) 18; six (group1 b0) 12]) 16) 255
  = Byte.to_N b0.
Proof.
  unfold assemble, six, group1. cbn [nth].
  change 63 with (N.ones 6). change 255 with (N.ones 8).
  apply N.bits_inj. intros n.
  split_at n [2; 8]; shifts; samebit.
Qed.

Lemma byte_of_N_to_N v b : N.land v 255 = Byte.to_N b -> byte_of_N v = b.
Proof. intros H. unfold byte_of_N. by rewrite H, Byte.of_to_N. Qed.

Lemma six_lt val shift : six val shift < 64.
Proof.
  unfold six. change 63 with (N.ones 6). rewrite N.land_ones.
  apply N.mod_lt. discriminate.
Qed.

(** Every character of the alphabet decodes to its index. *)
Lemma decodeMap_encodeChar i : i < 64 -> decodeMap (encodeChar i) = Some i.
Proof.
  intros Hi.
  assert (Hall : forallb (fun j => match decodeMap (encodeChar j) with
                                   | Some k => N.eqb j k
                                   | None => false
                                   end)
                   (List.map N.of_nat (seq 0 64)) = true) by (vm_compute; reflexivity).
  rewrite forallb_forall in Hall.
  specialize (Hall i).
  destruct (decodeMap (encodeChar i)) as [k|].
  - f_equal. symmetry. apply N.eqb_eq, Hall.
    apply in_map_iff. exists (N.to_nat i). split; [lia|]. apply in_seq. lia.
  - exfalso. assert (false = true); [|discriminate]. apply Hall.
    apply in_map_iff. exists (N.to_nat i). split; [lia|]. apply in_seq. lia.
Qed.

Lemma decodeMap_sextet val shift : decodeMap (sextet val shift) = Some (six val shift).
Proof. apply decodeMap_encodeChar, six_lt. Qed.

(** One valid character: it joins the quantum, which is emitted when full. *)
Lemma decode_valid c rest si dbuf d :
  decodeMap c = Some d ->
  decode (c :: rest) si dbuf
  = if (length (dbuf ++ [d]) =? 4)%nat then
      match decode rest (si + 1)%Z [] with
      | inl tail => inl (quantumBytes (dbuf ++ [d]) ++ tail)
      | inr err => inr err
      end
    else decode rest (si + 1)%Z (dbuf ++ [d]).
Proof. intros H. cbn [decode]. by rewrite H. Qed.

Lemma decode_quantum c0 c1 c2 c3 d0 d1 d2 d3 rest si :
  decodeMap c0 = Some d0 -> decodeMap c1 = Some d1 ->
  decodeMap c2 = Some d2 -> decodeMap c3 = Some d3 ->
  decode (c0 :: c1 :: c2 :: c3 :: rest) si []
  = match decode rest (si + 1 + 1 + 1 + 1)%Z [] with
    | inl tail => inl (quantumBytes [d0; d1; d2; d3] ++ tail)
    | inr err => inr err
    end.
Proof.
  intros H0 H1 H2 H3.
  rewrite (decode_valid c0 _ _ _ d0 H0). cbn [length app Nat.eqb].
  rewrite (decode_valid c1 _ _ _ d1 H1). cbn [length app Nat.eqb].
  rewrite (decode_valid c2 _ _ _ d2 H2). cbn [length app Nat.eqb].
  rewrite (decode_valid c3 _ _ _ d3 H3). cbn [length app Nat.eqb].
  reflexivity.
Qed.

Lemma decode_padded1 c0 c1 c2 d0 d1 d2 si :
  decodeMap c0 = Some d0 -> decodeMap c1 = Some d1 -> decodeMap c2 = Some d2 ->
  decode [c0; c1; c2; padChar] si [] = inl (quantumBytes [d0; d1; d2]).
Proof.
  intros H0 H1 H2.
  rewrite (decode_valid c0 _ _ _ d0 H0). cbn [length app Nat.eqb].
  rewrite (decode_valid c1 _ _ _ d1 H1). cbn [length app Nat.eqb].
  rewrite (decode_valid c2 _ _ _ d2 H2). cbn [length app Nat.eqb].
  reflexivity.
Qed.

Lemma decode_padded2 c0 c1 d0 d1 si :
  decodeMap c0 = Some d0 -> decodeMap c1 = Some d1 ->
  decode [c0; c1; padChar; padChar] si [] = inl (quantumBytes [d0; d1]).
Proof.
  intros H0 H1.
  rewrite (decode_valid c0 _ _ _ d0 H0). cbn [length app Nat.eqb].
  rewrite (decode_valid c1 _ _ _ d1 H1). cbn [length app Nat.eqb].
  reflexivity.
Qed.

Lemma quantumBytes_group3 b0 b1 b2 :
  quantumBytes [six (group3 b0 b1 b2) 18; six (group3 b0 b1 b2) 12;
                six (group3 b0 b1 b2) 6; six (group3 b0 b1 b2) 0]
  = [b0; b1; b2].
Proof.
  unfold quantumBytes. rewrite assemble_group3. cbn [length Nat.sub take].
  rewrite (byte_of_N_to_N _ b0) by apply group3_byte0.
  rewrite (byte_of_N_to_N _ b1) by apply group3_byte1.
  rewrite (byte_of_N_to_N _ b2) by apply group3_byte2.
  reflexivity.
Qed.

Lemma quantumBytes_group2 b0 b1 :
  quantumBytes [six (group2 b0 b1) 18; six (group2 b0 b1) 12; six (group2 b0 b1) 6]
  = [b0; b1].
Proof.
  unfold quantumBytes. cbn [length Nat.sub take].
  rewrite (byte_of_N_to_N _ b0) by apply group2_byte0.
  rewrite (byte_of_N_to_N _ b1) by apply group2_byte1.
  reflexivity.
Qed.

Lemma quantumBytes_group1 b0 :
  quantumBytes [six (group1 b0) 18; six (group1 b0) 12] = [b0].
Proof.
  unfold quantumBytes. cbn [length Nat.sub take].
  rewrite (byte_of_N_to_N _ b0) by apply group1_byte0.
  reflexivity.
Qed.

(** Lists, three elements at a time. *)
Lemma list_ind3 {A : Type} (P : list A -> Prop) :
  P [] -> (forall a, P [a]) -> (forall a b, P [a; b]) ->
  (forall a b c l, P l -> P (a :: b :: c :: l)) ->
  forall l, P l.
Proof.
  intros H0 H1 H2 H3.
  assert (Hall : forall l, P l /\ (forall a, P (a :: l)) /\ (forall a b, P (a :: b :: l))).
  { induction l as [|c l (IH0 & IH1 & IH2)]; [by repeat split|].
    split; [apply IH1|]. split; [intros a; apply IH2|]. intros a b. by apply H3. }
  intros l. apply Hall.
Qed.

Lemma decode_encode src : forall si, decode (encode src) si [] = inl src.
Proof.
  induction src as [|b0|b0 b1|b0 b1 b2 rest IH] using list_ind3; intros si.
  - reflexivity.
  - cbn [encode]. fold (group1 b0).
    rewrite (decode_padded2 _ _ _ _ si (decodeMap_sextet _ 18) (decodeMap_sextet _ 12)).
    by rewrite quantumBytes_group1.
  - cbn [encode]. fold (group2 b0 b1).
    rewrite (decode_padded1 _ _ _ _ _ _ si (decodeMap_sextet _ 18) (decodeMap_sextet _ 12)
               (decodeMap_sextet _ 6)).
    by rewrite quantumBytes_group2.
  - cbn [encode]. fold (group3 b0 b1 b2). cbn [app].
    rewrite (decode_quantum _ _ _ _ _ _ _ _ _ si (decodeMap_sextet _ 18)
               (decodeMap_sextet _ 12) (decodeMap_sextet _ 6) (decodeMap_sextet _ 0)).
    rewrite IH. by rewrite quantumBytes_group3.
Qed.

(** [StdEncoding.DecodeString(StdEncoding.EncodeToString(src))] is [src]. *)
Lemma DecodeString_EncodeToString src :
  StdEncoding_DecodeString (StdEncoding_EncodeToString src) = inl src.
Proof.
  unfold StdEncoding_DecodeString, StdEncoding_EncodeToString, bytes_of_string,
    string_of_bytes.
  rewrite list_byte_of_string_of_list_byte. apply decode_encode.
Qed.

End Base64.

(** ** The API manager *)

(** The key under which [setBareToken] looks for the ArgoCD secret. *)
Definition argocdSecretKey (w : World) : NamespacedName :=
  (default argocd.defaultNamespace (environ w !! argocd.NamespaceEnvVar),
   default argocd.defaultSecretName (environ w !! argocd.SecretNameEnvVar)).

(** The schedule does not fail the next API-server call. *)
Definition next_call_natural (w : World) : Prop :=
  match faults w with
  | Some _ :: _ => False
  | _ => True
  end.

Lemma api_natural {A : Type} (c : Call) (natural : M (result A)) (w : World) :
  next_call_natural w ->
  exists fs, api c natural w = natural (set_faults (record c w) fs).
Proof.
  unfold next_call_natural, api. simpl.
  destruct w as [cl rg sc en nw sm ld nr rt fs tr]; simpl.
  destruct fs as [|[e|] fs]; [|done|]; intros _.
  - by exists [].
  - by exists fs.
Qed.

Lemma Server_setBareToken a w : Server (argocd.setBareToken a w).1.1 = Server a.
Proof.
  unfold argocd.setBareToken, bind, LookupEnv_or. simpl.
  destruct (client.Get_Secret _ _) as [[secret|err] w1]; simpl; [|done].
  destruct (corev1.Data secret !! "admin.password"); simpl; [|done].
  by destruct (base64.StdEncoding_DecodeString _).
Qed.

Definition cluster_Host_80 : clusterapiv1.Cluster :=
  clusterapiv1.mkCluster (metav1.mkObjectMeta "test" "test" "uid-test" None [] [])
    (clusterapiv1.mkClusterSpec (clusterapiv1.mkAPIEndpoint "Host" 80)).

Definition secret_token_test : corev1.Secret :=
  corev1.mkSecret (metav1.mkObjectMeta "argocd-secret" "argocd" "" None [] [])
    {[ "admin.password" :=
         bytes_of_string (base64.StdEncoding_EncodeToString (bytes_of_string "token-test")) ]}.

(** A management cluster holding the ArgoCD secret of the unit test and
    nothing else; every collaborator answers without error. *)
Definition world_token_test : World :=
  {| clusters := ∅;
     registers := ∅;
     secrets := {[ ("argocd", "argocd-secret") := secret_token_test ]};
     environ := ∅;
     now := 1000;
     scheme := inl ("cluster.x-k8s.io/v1beta1", "Cluster");
     clientcmd_Load := fun _ => None;
     http_NewRequest := fun _ _ => None;
     roundTrip := fun _ _ => inl (http.mkResponse 200 "200 OK");
     faults := [];
     trace := [] |}.

(** C8: the manager built for a cluster has Server = host ":" port in
    decimal; when the ArgoCD secret is fetched, a decodable "admin.password"
    field gives Token its base64 decoding and no error (so a field holding
    the base64 encoding of a token gives that token), and an absent field
    gives the error "admin.password not found in secret". *)
Theorem C8_NewAPIManagerWithCluster clusterAPI kubeConfig w secret :
  next_call_natural w ->
  secrets w !! argocdSecretKey w = Some secret ->
  let a := (argocd.NewAPIManagerWithCluster clusterAPI kubeConfig w).1.1 in
  let err := (argocd.NewAPIManagerWithCluster clusterAPI kubeConfig w).1.2 in
  Server a
  = clusterapiv1.Host (clusterapiv1.ControlPlaneEndpoint (clusterapiv1.Spec clusterAPI))
    +:+ ":"
    +:+ strconv_Itoa (clusterapiv1.Port (clusterapiv1.ControlPlaneEndpoint (clusterapiv1.Spec clusterAPI)))
  /\ (forall tokenBase64 token,
        corev1.Data secret !! "admin.password" = Some tokenBase64 ->
        base64.StdEncoding_DecodeString (string_of_bytes tokenBase64) = inl token ->
        err = None /\ Token a = string_of_bytes token)
  /\ (forall token,
        corev1.Data secret !! "admin.password"
        = Some (bytes_of_string (base64.StdEncoding_EncodeToString token)) ->
        err = None /\ Token a = string_of_bytes token)
  /\ (corev1.Data secret !! "admin.password" = None ->
      exists e, err = Some e /\ Error e = "admin.password" +:+ " not found in secret").
Proof.
  intros Hnat Hsecret a err. subst a err.
  cut (Server (argocd.NewAPIManagerWithCluster clusterAPI kubeConfig w).1.1
       = clusterapiv1.Host (clusterapiv1.ControlPlaneEndpoint (clusterapiv1.Spec clusterAPI))
         +:+ ":"
         +:+ strconv_Itoa (clusterapiv1.Port
                             (clusterapiv1.ControlPlaneEndpoint (clusterapiv1.Spec clusterAPI)))
       /\ (forall tokenBase64 token,
             corev1.Data secret !! "admin.password" = Some tokenBase64 ->
             base64.StdEncoding_DecodeString (string_of_bytes tokenBase64) = inl token ->
             (argocd.NewAPIManagerWithCluster clusterAPI kubeConfig w).1.2 = None
             /\ Token (argocd.NewAPIManagerWithCluster clusterAPI kubeConfig w).1.1
                = string_of_bytes token)
       /\ (corev1.Data secret !! "admin.password" = None ->
           exists e, (argocd.NewAPIManagerWithCluster clusterAPI kubeConfig w).1.2 = Some e
                     /\ Error e = "admin.password" +:+ " not found in secret")).
  { intros (Hserver & Hdecoded & Habsent).
    split; [exact Hserver|]. split; [exact Hdecoded|]. split; [|exact Habsent].
    intros token Hfield. apply (Hdecoded _ token Hfield).
    unfold string_of_bytes, bytes_of_string. rewrite string_of_list_byte_of_string.
    apply DecodeString_EncodeToString. }
  split.
  - unfold argocd.NewAPIManagerWithCluster, bind, LookupEnv_or.
    by rewrite Server_setBareToken.
  - unfold argocd.NewAPIManagerWithCluster, argocd.setBareToken, bind, LookupEnv_or.
    unfold client.Get_Secret.
    destruct (api_natural (GetSecret (argocdSecretKey w))
                (client.lookup_or_NotFound "secrets" (argocdSecretKey w) secrets) w Hnat)
      as [fs Hrun].
    unfold argocdSecretKey, default in Hrun, Hsecret.
    change (from_option id) with (@default string) in *.
    unfold argocdSecretKey in *.
    destruct (environ w !! argocd.NamespaceEnvVar) as [ns|] eqn:Hns;
      destruct (environ w !! argocd.SecretNameEnvVar) as [nm|] eqn:Hnm;
      simpl in Hrun, Hsecret; rewrite Hrun;
      unfold client.lookup_or_NotFound; simpl; rewrite Hsecret; simpl.
    all: split;
      [ intros tokenBase64 token Hfield Hdec; rewrite Hfield, Hdec; by simpl
      | intros Hfield; rewrite Hfield; simpl; eexists; by split ].
Qed.

(** The unit test of the manager: host "Host", port 80, and the secret
    holding base64("token-test"). *)
Lemma C8_NewAPIManagerWithCluster_witness :
  Server (argocd.NewAPIManagerWithCluster cluster_Host_80 [] world_token_test).1.1 = "Host:80"
  /\ (argocd.NewAPIManagerWithCluster cluster_Host_80 [] world_token_test).1.2 = None
  /\ Token (argocd.NewAPIManagerWithCluster cluster_Host_80 [] world_token_test).1.1 = "token-test".
Proof.
  destruct (C8_NewAPIManagerWithCluster cluster_Host_80 [] world_token_test secret_token_test)
    as (Hserver & _ & Htoken & _); [exact I | reflexivity |].
  split; [exact Hserver|].
  apply (Htoken (bytes_of_string "token-test")). reflexivity.
Defined.

(** A manager as the unit test builds it, a kubeconfig it cannot load, and
    a world whose [clientcmd.Load] rejects those bytes. *)
Definition manager_test : APIManager :=
  {| Token := "tok"; Server := "Host:80"; Name := "test";
     KubeConfig := bytes_of_string "{";
     Endpoint := "https://argocd-api.example.com" |}.

Definition world_rejecting_kubeconfig : World :=
  {| clusters := ∅;
     registers := ∅;
     secrets := ∅;
     environ := ∅;
     now := 1000;
     scheme := inl ("cluster.x-k8s.io/v1beta1", "Cluster");
     clientcmd_Load := fun _ => Some (errors_New "yaml: line 1: did not find expected node content");
     http_NewRequest := fun _ _ => None;
     roundTrip := fun _ _ => inl (http.mkResponse 200 "200 OK");
     faults := [];
     trace := [] |}.

(** C6, the claim as stated fails: for a manager whose kubeconfig does not
    load, RegisterCluster answers the validation error and issues no request
    at all. *)
Lemma C6_rejected_kubeconfig_sends_nothing :
  (argocd.RegisterCluster manager_test world_rejecting_kubeconfig).1
  = Some (errors_New
      "error loading kubeconfig: yaml: line 1: did not find expected node content")
  /\ trace (argocd.RegisterCluster manager_test world_rejecting_kubeconfig).2
     = [RegisterClusterCall manager_test].
Proof. split; reflexivity. Qed.

(** C6, as amended: when the kubeconfig of the manager loads and a request
    can be built for its endpoint, RegisterCluster makes exactly one HTTP
    call: a POST to {Endpoint}/api/v1/clusters, under a 30-second timeout,
    with the headers Content-Type: application/json and
    Authorization: Bearer {Token}, whose body has exactly the top-level keys
    server, name, kubeconfig and config, with config.bearerToken = Token.
    For a response, the result is nil exactly when its status code is 200;
    any other response gives the error that carries its status text. *)
Theorem C6_RegisterCluster a w :
  clientcmd_Load w (KubeConfig a) = None ->
  http_NewRequest w "POST" (Endpoint a +:+ "/api/v1/clusters") = None ->
  exists req,
    trace (argocd.RegisterCluster a w).2
    = trace w ++ [RegisterClusterCall a; Do argocd.registerClient req]
    /\ http.Method req = "POST"
    /\ http.URL req = Endpoint a +:+ "/api/v1/clusters"
    /\ http.Timeout argocd.registerClient = 30 * http.Second
    /\ http.Header req !! "Content-Type" = Some ["application/json"]
    /\ http.Header req !! "Authorization" = Some ["Bearer " +:+ Token a]
    /\ http.keys (http.Body req) ≡ₚ ["server"; "name"; "kubeconfig"; "config"]
    /\ http.field "server" (http.Body req) = Some (http.JString (Server a))
    /\ http.field "name" (http.Body req) = Some (http.JString (Name a))
    /\ http.field "kubeconfig" (http.Body req) = Some (http.JBytes (KubeConfig a))
    /\ (http.field "config" (http.Body req) ≫= http.field "bearerToken")
       = Some (http.JString (Token a))
    /\ (forall resp, roundTrip w argocd.registerClient req = inl resp ->
          ((argocd.RegisterCluster a w).1 = None <-> http.StatusCode resp = 200)
          /\ (http.StatusCode resp <> 200 ->
              (argocd.RegisterCluster a w).1
              = Some (errors_New ("error registering cluster, status: "
                                    +:+ http.Status resp)))).
Proof.
  intros Hload Hurl. exists (argocd.registerRequest a).
  assert (Hrun : argocd.RegisterCluster a w
    = (match roundTrip w argocd.registerClient (argocd.registerRequest a) with
       | inr err => Some (fmt_Errorf_w "error sending request: " err)
       | inl resp =>
           if negb (Z.eqb (http.StatusCode resp) http.StatusOK)
           then Some (errors_New ("error registering cluster, status: " +:+ http.Status resp))
           else None
       end,
       record (Do argocd.registerClient (argocd.registerRequest a))
         (record (RegisterClusterCall a) w))).
  { unfold argocd.RegisterCluster, argocd.ValidateKubeConfigForClusterAPI,
      argocd.Client_Do, bind, call, get, ret.
    change (clientcmd_Load (record (RegisterClusterCall a) w)) with (clientcmd_Load w).
    rewrite Hload.
    change (http_NewRequest (record (RegisterClusterCall a) w)) with (http_NewRequest w).
    rewrite Hurl.
    change (roundTrip (record (RegisterClusterCall a) w)) with (roundTrip w).
    destruct (roundTrip w _ _) as [resp|err]; [|done].
    by destruct (negb _). }
  rewrite Hrun. simpl. split; [by rewrite <- app_assoc|].
  do 5 (split; [reflexivity|]).
  split.
  { change (["config"; "kubeconfig"; "name"; "server"]
              ≡ₚ ["server"; "name"; "kubeconfig"; "config"]).
    by rewrite <- (reverse_Permutation ["server"; "name"; "kubeconfig"; "config"]). }
  do 4 (split; [reflexivity|]).
  intros resp ->. unfold http.StatusOK.
  destruct (Z.eqb_spec (http.StatusCode resp) 200) as [Heq|Hne]; simpl.
  - split; [done|]. intros Hne. by destruct Hne.
  - split; [|done]. split; [done | intros Heq; by destruct Hne].
Qed.

Definition world_answering (code : Z) (text : string) : World :=
  {| clusters := ∅;
     registers := ∅;
     secrets := ∅;
     environ := ∅;
     now := 1000;
     scheme := inl ("cluster.x-k8s.io/v1beta1", "Cluster");
     clientcmd_Load := fun _ => None;
     http_NewRequest := fun _ _ => None;
     roundTrip := fun _ _ => inl (http.mkResponse code text);
     faults := [];
     trace := [] |}.

(** The payload test of the specification (Server "Host:80", Name "test",
    Token "tok"), against an endpoint that answers 500. *)
Lemma C6_RegisterCluster_witness :
  exists req,
    trace (argocd.RegisterCluster manager_test
             (world_answering 500 "500 Internal Server Error")).2
    = [RegisterClusterCall manager_test; Do argocd.registerClient req]
    /\ (http.field "config" (http.Body req) ≫= http.field "bearerToken")
       = Some (http.JString "tok").
Proof.
  destruct (C6_RegisterCluster manager_test (world_answering 500 "500 Internal Server Error"))
    as (req & Htrace & _ & _ & _ & _ & _ & _ & _ & _ & _ & Hbearer & _);
    [reflexivity | reflexivity |].
  exists req. split; [exact Htrace | exact Hbearer].
Defined.

(** ** Invariants of a reconciliation

    A property [I] of the world is kept by [Reconcile] on [req], whatever
    the API server answers, as soon as it is kept by the elementary writes
    of objects that satisfy [G] (the records the controller holds in memory)
    or [C] (the records it generates), and by the recording of the calls
    that satisfy [okc]. *)
Section Safety.
Import argocdv1beta1.

Variable req : NamespacedName.
Variable I : World -> Prop.
Variables G C : Register -> Prop.
Variable okc : Call -> Prop.

(** The calls made only while finalizing. *)
Definition finalizing (c : Call) : Prop :=
  match c with
  | UnRegisterClusterCall _ | RecorderEvent _ _ _ _ => True
  | _ => False
  end.

Hypothesis I_faults : forall w fs, I w -> I (set_faults w fs).
Hypothesis I_record : forall w c, okc c -> I w -> I (record c w).
Hypothesis I_update : forall w obj old,
  I w -> G obj -> registers w !! key obj = Some old ->
  I (set_registers w (<[key obj := withStatus obj (Status old)]> (registers w))).
Hypothesis I_status : forall w obj old,
  I w -> G obj -> registers w !! key obj = Some old ->
  I (set_registers w (<[key obj := withStatus old (Status obj)]> (registers w))).
Hypothesis I_create : forall w obj,
  I w -> C obj -> registers w !! key obj = None ->
  I (set_registers w (<[key obj := withStatus obj (mkRegisterStatus [])]> (registers w))).
Hypothesis G_fetched : forall w r, I w -> registers w !! req = Some r -> G r.
Hypothesis G_old : forall w obj old,
  I w -> G obj -> registers w !! key obj = Some old -> G old.
Hypothesis G_status : forall cr s, G cr -> G (withStatus cr s).
Hypothesis G_removed : forall cr,
  G cr ->
  G (withObjectMeta cr
       (metav1.SetFinalizers (ObjectMeta cr)
          (List.filter (fun x => negb (String.eqb x controller.registerCRFinalizer))
             (metav1.Finalizers (ObjectMeta cr))))).
Hypothesis G_marked : forall cr t,
  G cr -> GetDeletionTimestamp cr = None -> G (SetDeletionTimestamp cr (Some t)).
Hypothesis C_generated : forall name namespace refs,
  C (mkRegister (metav1.mkObjectMeta name namespace "" None [] refs)
       (mkRegisterSpec "") (mkRegisterStatus [])).
Hypothesis okc_plain : forall c, ~ finalizing c -> okc c.
Hypothesis okc_finalizing : forall cr,
  G cr -> controllerutil.ContainsFinalizer cr controller.registerCRFinalizer = true ->
  forall c, okc c.

(** [m] keeps [I] and answers a value that satisfies [post]. *)
Definition safe {A : Type} (m : M A) (post : A -> Prop) : Prop :=
  forall w, I w -> I (m w).2 /\ post (m w).1.

Definition fetched (r : result Register) : Prop :=
  match r with inl cr => G cr | inr _ => True end.

Definition any {A : Type} (_ : A) : Prop := True.

Lemma safe_ret {A : Type} (a : A) (post : A -> Prop) : post a -> safe (ret a) post.
Proof. intros Ha w Hw. by split. Qed.

Lemma safe_bind {A B : Type} (m : M A) (k : A -> M B) (mid : A -> Prop) (post : B -> Prop) :
  safe m mid -> (forall a, mid a -> safe (k a) post) -> safe (bind m k) post.
Proof.
  intros Hm Hk w Hw. unfold bind.
  destruct (Hm w Hw) as [Hw1 Ha]. destruct (m w) as [a w1]; simpl in *.
  by apply Hk.
Qed.

Lemma safe_weaken {A : Type} (m : M A) (post post' : A -> Prop) :
  safe m post -> (forall a, post a -> post' a) -> safe m post'.
Proof. intros Hm Himp w Hw. destruct (Hm w Hw). split; auto. Qed.

Lemma safe_get {A : Type} (f : World -> A) : safe (get f) any.
Proof. intros w Hw. by split. Qed.

Lemma safe_call c : okc c -> safe (call c) any.
Proof. intros Hc w Hw. split; [by apply I_record | done]. Qed.

Lemma safe_api {A : Type} c (natural : M (result A)) (post : result A -> Prop) :
  okc c -> safe natural post -> (forall err, post (inr err)) -> safe (api c natural) post.
Proof.
  intros Hc Hn Herr w Hw. unfold api.
  assert (Hw1 : I (record c w)) by by apply I_record.
  destruct (faults (record c w)) as [|[err|] fs].
  - by apply Hn.
  - split; [by apply I_faults | apply Herr].
  - apply Hn. by apply I_faults.
Qed.

Lemma safe_lookup {A : Type} (kind : string) (k : NamespacedName) (store : World -> gmap NamespacedName A) :
  safe (client.lookup_or_NotFound kind k store) any.
Proof. intros w Hw. unfold client.lookup_or_NotFound. by destruct (store w !! k). Qed.

Lemma safe_Get_Cluster (k : NamespacedName) : safe (client.Get_Cluster k) any.
Proof. apply safe_api; [apply okc_plain; by intros [] | apply safe_lookup | done]. Qed.

Lemma safe_Get_Secret (k : NamespacedName) : safe (client.Get_Secret k) any.
Proof. apply safe_api; [apply okc_plain; by intros [] | apply safe_lookup | done]. Qed.

Lemma safe_Get_Register : safe (client.Get_Register req) fetched.
Proof.
  apply safe_api; [apply okc_plain; by intros [] | | done].
  intros w Hw. unfold client.lookup_or_NotFound.
  destruct (registers w !! req) as [r|] eqn:Hr; simpl; [|done].
  split; [done | by eapply G_fetched].
Qed.

Lemma safe_Create obj : C obj -> safe (client.Create_Register obj) any.
Proof.
  intros Hobj. apply safe_api; [apply okc_plain; by intros [] | | done].
  intros w Hw. destruct (registers w !! key obj) eqn:Hold; simpl; [done|].
  split; [by apply I_create | done].
Qed.

Lemma safe_Update obj : G obj -> safe (client.Update_Register obj) fetched.
Proof.
  intros Hobj. apply safe_api; [apply okc_plain; by intros [] | | done].
  intros w Hw. destruct (registers w !! key obj) as [old|] eqn:Hold; simpl; [|done].
  destruct (bool_decide _); simpl; [|done].
  split; [by apply I_update | by apply G_status].
Qed.

Lemma safe_Status_Update obj : G obj -> safe (client.Status_Update_Register obj) fetched.
Proof.
  intros Hobj. apply safe_api; [apply okc_plain; by intros [] | | done].
  intros w Hw. destruct (registers w !! key obj) as [old|] eqn:Hold; simpl; [|done].
  split; [by apply I_status | apply G_status; by eapply G_old].
Qed.

Lemma safe_LookupEnv_or name d : safe (LookupEnv_or name d) any.
Proof. intros w Hw. by split. Qed.

Lemma safe_SetStatusCondition cr c : G cr -> safe (SetStatusCondition cr c) G.
Proof. intros Hcr w Hw. split; [done | by apply G_status]. Qed.

Create HintDb safe.

Hint Resolve safe_get | 10 : safe.

Hint Resolve safe_call safe_Get_Cluster safe_Get_Secret safe_Get_Register
  safe_Create safe_Update safe_Status_Update safe_LookupEnv_or
  safe_SetStatusCondition : safe.

(** One step through a body: a bind whose first action has a known
    specification, a return, or a case distinction of the code. *)
Ltac safe_step :=
  first
    [ apply safe_ret
    | eapply safe_bind; [ apply safe_SetStatusCondition; assumption | intros ? ? ]
    | eapply safe_bind; [ solve [eauto with safe] | intros ? ? ]
    | match goal with
      | |- safe (match ?x with _ => _ end) _ => destruct x eqn:?; simpl in *
      | |- safe (if ?b then _ else _) _ => destruct b eqn:?; simpl in *
      end ].

Ltac safe_steps := repeat (safe_step; try done).

Lemma safe_setBareToken a : safe (argocd.setBareToken a) any.
Proof. unfold argocd.setBareToken. safe_steps. Qed.

Hint Resolve safe_setBareToken : safe.

Lemma safe_NewAPIManagerWithCluster clusterAPI kubeConfig :
  safe (argocd.NewAPIManagerWithCluster clusterAPI kubeConfig) any.
Proof. unfold argocd.NewAPIManagerWithCluster. safe_steps. Qed.

Lemma safe_ValidateKubeConfigForClusterAPI a :
  safe (argocd.ValidateKubeConfigForClusterAPI a) any.
Proof. intros w Hw. by split. Qed.

Lemma safe_Client_Do c r : safe (argocd.Client_Do c r) any.
Proof.
  intros w Hw. split; [|done]. apply I_record; [|done]. apply okc_plain. by intros [].
Qed.

Lemma okc_RegisterClusterCall a : okc (RegisterClusterCall a).
Proof. apply okc_plain. by intros []. Qed.

Lemma okc_IsClusterRegisteredCall a : okc (IsClusterRegisteredCall a).
Proof. apply okc_plain. by intros []. Qed.

Hint Resolve safe_NewAPIManagerWithCluster safe_ValidateKubeConfigForClusterAPI
  safe_Client_Do okc_RegisterClusterCall okc_IsClusterRegisteredCall : safe.

Lemma safe_RegisterCluster a : safe (argocd.RegisterCluster a) any.
Proof. unfold argocd.RegisterCluster. safe_steps. Qed.

Lemma safe_IsClusterRegistered a : safe (argocd.IsClusterRegistered a) any.
Proof. unfold argocd.IsClusterRegistered. safe_steps. Qed.

Lemma safe_UnRegisterCluster a :
  okc (UnRegisterClusterCall a) -> safe (argocd.UnRegisterCluster a) any.
Proof. intros Hc. unfold argocd.UnRegisterCluster. safe_steps. Qed.

Lemma safe_getClusterKubeConfigFromSecret :
  safe (controller.getClusterKubeConfigFromSecret req) any.
Proof. unfold controller.getClusterKubeConfigFromSecret. safe_steps. Qed.

Lemma safe_generateRegisterCR clusterAPI :
  safe (controller.generateRegisterCR clusterAPI) (fun g => C g.1).
Proof.
  unfold controller.generateRegisterCR. safe_step.
  unfold controllerutil.SetOwnerReference.
  destruct (controllerutil.validateOwner _ _); [apply safe_ret, C_generated|].
  destruct a as [[apiVersion kind]|err]; apply safe_ret, C_generated.
Qed.

Hint Resolve safe_RegisterCluster safe_IsClusterRegistered safe_UnRegisterCluster
  safe_getClusterKubeConfigFromSecret safe_generateRegisterCR : safe.

Lemma safe_createRegisterCR clusterAPI RegisterCR :
  safe (controller.createRegisterCR clusterAPI RegisterCR) any.
Proof. unfold controller.createRegisterCR. safe_steps. Qed.

Lemma safe_handleIntegrationWithArgoCDAPI RegisterCR clusterAPI :
  G RegisterCR ->
  safe (controller.handleIntegrationWithArgoCDAPI req RegisterCR clusterAPI)
       (fun i => G i.2).
Proof. intros HG. unfold controller.handleIntegrationWithArgoCDAPI. safe_steps. Qed.

Lemma safe_handleClusterRegistration argoCDManager RegisterCR :
  safe (controller.handleClusterRegistration req argoCDManager RegisterCR) any.
Proof.
  unfold controller.handleClusterRegistration.
  safe_step. destruct a as [isClusterRegistered err]; simpl.
  safe_steps.
Qed.

Lemma safe_doFinalizerOperations cr argoCDManager :
  (forall c, okc c) ->
  safe (controller.doFinalizerOperations cr argoCDManager) any.
Proof.
  intros Hc. unfold controller.doFinalizerOperations, controller.doFinalizerOperations_via.
  safe_steps.
Qed.

Lemma safe_handleFinalizer RegisterCR argoCDManager :
  G RegisterCR ->
  safe (controller.handleFinalizer RegisterCR req argoCDManager) any.
Proof.
  intros HG. unfold controller.handleFinalizer, controller.handleFinalizer_via.
  destruct (controllerutil.ContainsFinalizer _ _) eqn:Hfin; [|by apply safe_ret].
  assert (Hc : forall c, okc c) by by eapply okc_finalizing.
  pose proof (fun cr => safe_doFinalizerOperations cr argoCDManager Hc) as Hdo.
  unfold controller.doFinalizerOperations in Hdo.
  safe_steps.
Qed.

Hint Resolve safe_createRegisterCR safe_handleIntegrationWithArgoCDAPI
  safe_handleClusterRegistration safe_handleFinalizer : safe.

Lemma safe_reconcileWithManager clusterAPI RegisterCR :
  G RegisterCR ->
  safe (controller.reconcileWithManager req clusterAPI RegisterCR) any.
Proof. intros HG. unfold controller.reconcileWithManager. safe_steps. Qed.

Hint Resolve safe_reconcileWithManager : safe.

Lemma safe_reconcileRegister clusterAPI RegisterCR :
  safe (controller.reconcileRegister req clusterAPI RegisterCR) any.
Proof.
  unfold controller.reconcileRegister. safe_steps; by apply safe_reconcileWithManager.
Qed.

Hint Resolve safe_reconcileRegister : safe.

(** The invariant survives a whole reconciliation of [req]. *)
Lemma safe_Reconcile : safe (controller.Reconcile req) any.
Proof.
  unfold controller.Reconcile. safe_steps.
  eapply safe_bind; [apply safe_Update | intros u Hu; safe_steps].
  apply G_marked; [done|].
  unfold controller.isMarkedToBeDeleted in *.
  destruct (GetDeletionTimestamp r) eqn:Hts; [|done].
  rewrite bool_decide_eq_true_2 in * by by eexists. done.
Qed.

End Safety.

(** ** The finalizer is never added *)

Definition lacksFinalizer (r : argocdv1beta1.Register) : Prop :=
  controllerutil.ContainsFinalizer r controller.registerCRFinalizer = false.

(** No stored record carries the finalizer, and the calls made since the
    trace was [t0] are not those of the finalize path. *)
Definition finalizerFree (t0 : list Call) (w : World) : Prop :=
  (forall k r, registers w !! k = Some r -> lacksFinalizer r)
  /\ exists calls, trace w = t0 ++ calls /\ Forall (fun c => ~ finalizing c) calls.

Lemma lacksFinalizer_removed r :
  lacksFinalizer
    (argocdv1beta1.withObjectMeta r
       (metav1.SetFinalizers (argocdv1beta1.ObjectMeta r)
          (List.filter (fun x => negb (String.eqb x controller.registerCRFinalizer))
             (metav1.Finalizers (argocdv1beta1.ObjectMeta r))))).
Proof.
  unfold lacksFinalizer, controllerutil.ContainsFinalizer.
  generalize controller.registerCRFinalizer as fin. intros fin.
  cbn [argocdv1beta1.withObjectMeta argocdv1beta1.ObjectMeta metav1.SetFinalizers
       metav1.Finalizers].
  induction (metav1.Finalizers (argocdv1beta1.ObjectMeta r)) as [|f fs IH]; [done|].
  simpl. destruct (String.eqb_spec f fin) as [->|Hne]; simpl; [done|].
  rewrite IH, orb_false_r. apply String.eqb_neq. congruence.
Qed.

Lemma finalizerFree_insert t0 w k r :
  finalizerFree t0 w -> lacksFinalizer r ->
  finalizerFree t0 (set_registers w (<[k := r]> (registers w))).
Proof.
  intros [Hstore Htrace] Hr. split; [|done]. simpl. intros k' r' Hlook.
  apply lookup_insert_Some in Hlook as [[_ <-]|[_ Hlook]]; [done | by eapply Hstore].
Qed.

Lemma finalizerFree_Reconcile t0 req w :
  finalizerFree t0 w -> finalizerFree t0 (controller.Reconcile req w).2.
Proof.
  intros Hw.
  refine (proj1 (safe_Reconcile req (finalizerFree t0) lacksFinalizer lacksFinalizer
                   (fun c => ~ finalizing c) _ _ _ _ _ _ _ _ _ _ _ _ _ w Hw)).
  - intros w0 fs H0. exact H0.
  - intros w0 c Hc [Hstore (calls & Htr & Hcalls)]. split; [done|].
    exists (calls ++ [c]). simpl. rewrite Htr, app_assoc. split; [done|].
    apply Forall_app. split; [done | by apply Forall_singleton].
  - intros w0 obj old H0 Hobj Hold. by apply finalizerFree_insert.
  - intros w0 obj old H0 Hobj Hold. apply finalizerFree_insert; [done|].
    by apply (proj1 H0 _ _ Hold).
  - intros w0 obj H0 Hobj Hnew. by apply finalizerFree_insert.
  - intros w0 r H0 Hr. by apply (proj1 H0 _ _ Hr).
  - intros w0 obj old H0 Hobj Hold. by apply (proj1 H0 _ _ Hold).
  - done.
  - intros cr _. apply lacksFinalizer_removed.
  - done.
  - done.
  - done.
  - intros cr Hcr Hfin. unfold lacksFinalizer in Hcr. congruence.
Qed.

Definition world_with_cluster : World :=
  {| clusters := {[ ("test", "test") := cluster_Host_80 ]};
     registers := ∅;
     secrets := ∅;
     environ := ∅;
     now := 1000;
     scheme := inl ("cluster.x-k8s.io/v1beta1", "Cluster");
     clientcmd_Load := fun _ => None;
     http_NewRequest := fun _ _ => None;
     roundTrip := fun _ _ => inl (http.mkResponse 200 "200 OK");
     faults := [];
     trace := [] |}.

(** C10: the records the controller generates carry no finalizer; if no
    stored record carries the finalizer before a reconciliation then none
    does after it, whatever the API server and the remote endpoint answer,
    and the reconciliation makes no call of the finalize path (no
    unregister, no deletion event); for a record without the finalizer
    [handleFinalizer] does nothing and answers nil, which is the Done state
    of a marked record. *)
Theorem C10_finalizer_never_added req w :
  (forall k r, registers w !! k = Some r -> lacksFinalizer r) ->
  (forall clusterAPI w0, lacksFinalizer (controller.generateRegisterCR clusterAPI w0).1.1)
  /\ (forall k r, registers (controller.Reconcile req w).2 !! k = Some r -> lacksFinalizer r)
  /\ (exists calls, trace (controller.Reconcile req w).2 = trace w ++ calls
                    /\ Forall (fun c => ~ finalizing c) calls)
  /\ (forall cr argoCDManager w0,
        lacksFinalizer cr ->
        controller.handleFinalizer cr req argoCDManager w0 = (None, cr, w0)).
Proof.
  intros Hstore. split; [|split; [|split]].
  - intros clusterAPI w0. unfold controller.generateRegisterCR, bind, get, ret.
    unfold controllerutil.SetOwnerReference.
    destruct (controllerutil.validateOwner _ _); [done|].
    by destruct (scheme w0) as [[apiVersion kind]|err].
  - apply (finalizerFree_Reconcile (trace w) req w).
    split; [done|]. exists []. by rewrite app_nil_r.
  - apply (finalizerFree_Reconcile (trace w) req w).
    split; [done|]. exists []. by rewrite app_nil_r.
  - intros cr argoCDManager w0 Hcr.
    unfold controller.handleFinalizer, controller.handleFinalizer_via.
    unfold lacksFinalizer in Hcr. by rewrite Hcr.
Qed.

(** A first reconciliation of the cluster of the unit test. *)
Lemma C10_finalizer_never_added_witness :
  exists calls,
    trace (controller.Reconcile ("test", "test") world_with_cluster).2
    = trace world_with_cluster ++ calls
    /\ Forall (fun c => ~ finalizing c) calls.
Proof.
  apply (C10_finalizer_never_added ("test", "test") world_with_cluster).
  intros k r Hlook. vm_compute in Hlook. discriminate.
Defined.

(** ** Reconciliations of the cluster of the unit test *)

Definition key_test : NamespacedName := ("test", "test").

(** The secret holding the kubeconfig of the workload cluster. *)
Definition secret_kubeconfig : corev1.Secret :=
  corev1.mkSecret (metav1.mkObjectMeta "test" "test" "" None [] [])
    {[ "kubeconfig" := bytes_of_string "apiVersion: v1" ]}.

(** The record of the cluster, as a first reconciliation leaves it,
    possibly marked for deletion and carrying finalizers. *)
Definition register_test (deletion : option metav1.Time) (finalizers : list string)
  : argocdv1beta1.Register :=
  argocdv1beta1.mkRegister
    (metav1.mkObjectMeta "test" "test" "uid-register" deletion finalizers
       [metav1.mkOwnerReference "cluster.x-k8s.io/v1beta1" "Cluster" "test" "uid-test"])
    (argocdv1beta1.mkRegisterSpec "")
    (argocdv1beta1.mkRegisterStatus []).

(** A world in which every API-server call takes its natural course, the
    kubeconfig loads, and the endpoint answers every request with [resp]. *)
Definition world_of (cs : gmap NamespacedName clusterapiv1.Cluster)
    (rs : gmap NamespacedName argocdv1beta1.Register)
    (ss : gmap NamespacedName corev1.Secret) (resp : http.Response) : World :=
  {| clusters := cs;
     registers := rs;
     secrets := ss;
     environ := ∅;
     now := 1000;
     scheme := inl ("cluster.x-k8s.io/v1beta1", "Cluster");
     clientcmd_Load := fun _ => None;
     http_NewRequest := fun _ _ => None;
     roundTrip := fun _ _ => inl resp;
     faults := [];
     trace := [] |}.

Definition conditionsAt (k : NamespacedName) (w : World) : option (list metav1.Condition) :=
  (fun r => argocdv1beta1.Conditions (argocdv1beta1.Status r)) <$> registers w !! k.

(** The Active state: cluster and record exist, the record is not marked,
    both secrets are in place; the endpoint answers [resp]. *)
Definition world_active (resp : http.Response) : World :=
  world_of {[ key_test := cluster_Host_80 ]}
           {[ key_test := register_test None [] ]}
           {[ key_test := secret_kubeconfig;
              ("argocd", "argocd-secret") := secret_token_test ]}
           resp.

Definition manager_active : APIManager :=
  {| Token := "token-test"; Server := "Host:80"; Name := "test";
     KubeConfig := bytes_of_string "apiVersion: v1";
     Endpoint := "https://argocd-api.example.com" |}.

(** C1, on the code: the endpoint answers HTTP 500.  RegisterCluster
    answers the error that carries the status text, yet Reconcile answers
    nil and leaves the record with Available = True, next to the Degraded
    condition that reports the failure. *)
Lemma C1_failed_register_is_reported_Available :
  (argocd.RegisterCluster manager_active
     (world_active (http.mkResponse 500 "500 Internal Server Error"))).1
  = Some (errors_New "error registering cluster, status: 500 Internal Server Error")
  /\ (controller.Reconcile key_test
        (world_active (http.mkResponse 500 "500 Internal Server Error"))).1 = None
  /\ conditionsAt key_test
       (controller.Reconcile key_test
          (world_active (http.mkResponse 500 "500 Internal Server Error"))).2
     = Some [metav1.mkCondition "Degraded" metav1.ConditionTrue 0 1000 "Error"
               ("Unable to register Cluster into ArgoCD: "
                  +:+ "error registering cluster, status: 500 Internal Server Error");
             metav1.mkCondition "Available" metav1.ConditionTrue 0 1000 "Reconciling"
               "Cluster is Registered"]
  /\ RegisterClusterCall manager_active
     ∈ trace (controller.Reconcile key_test
                (world_active (http.mkResponse 500 "500 Internal Server Error"))).2.
Proof.
  split; [reflexivity|]. split; [vm_compute; reflexivity|].
  split; [vm_compute; reflexivity|].
  apply list_elem_of_In. vm_compute. tauto.
Qed.

(** The Active state without the ArgoCD secret: the bearer token cannot be
    resolved. *)
Definition world_without_argocd_secret : World :=
  world_of {[ key_test := cluster_Host_80 ]}
           {[ key_test := register_test None [] ]}
           {[ key_test := secret_kubeconfig ]}
           (http.mkResponse 200 "200 OK").

Definition manager_without_token : APIManager :=
  {| Token := ""; Server := "Host:80"; Name := "test";
     KubeConfig := bytes_of_string "apiVersion: v1";
     Endpoint := "https://argocd-api.example.com" |}.

(** C2, on the code: the ArgoCD secret cannot be fetched.
    NewAPIManagerWithCluster answers an error, and the Degraded condition is
    written; but handleIntegrationWithArgoCDAPI then answers the manager
    with a nil error, so Reconcile goes on to register the cluster with the
    empty token, reports Available = True and answers nil. *)
Lemma C2_unresolved_token_goes_on_to_register :
  (argocd.NewAPIManagerWithCluster cluster_Host_80 (bytes_of_string "apiVersion: v1")
     world_without_argocd_secret).1
  = (manager_without_token,
     Some (fmt_Errorf_w "error fetching secret: "
             (NewNotFound "secrets" ("argocd", "argocd-secret"))))
  /\ (controller.Reconcile key_test world_without_argocd_secret).1 = None
  /\ RegisterClusterCall manager_without_token
     ∈ trace (controller.Reconcile key_test world_without_argocd_secret).2
  /\ (metav1.Type_ <$>
      default [] (conditionsAt key_test
                    (controller.Reconcile key_test world_without_argocd_secret).2))
     = ["Degraded"; "Available"].
Proof.
  split; [vm_compute; reflexivity|]. split; [vm_compute; reflexivity|].
  split; [apply list_elem_of_In; vm_compute; tauto | vm_compute; reflexivity].
Qed.

(** The Absent state: the cluster exists, its record does not. *)
Definition world_absent : World :=
  world_of {[ key_test := cluster_Host_80 ]}
           ∅
           {[ key_test := secret_kubeconfig;
              ("argocd", "argocd-secret") := secret_token_test ]}
           (http.mkResponse 200 "200 OK").

Definition register_created : argocdv1beta1.Register :=
  argocdv1beta1.mkRegister
    (metav1.mkObjectMeta "test" "test" "" None []
       [metav1.mkOwnerReference "cluster.x-k8s.io/v1beta1" "Cluster" "test" "uid-test"])
    (argocdv1beta1.mkRegisterSpec "")
    (argocdv1beta1.mkRegisterStatus []).

(** The records handed to Create, in order. *)
Definition created (calls : list Call) : list argocdv1beta1.Register :=
  omap (fun c => match c with Create obj => Some obj | _ => None end) calls.

(** C4, on the code: a successful first reconciliation creates one record
    with the identity of the cluster and an owner reference to it, but the
    Progressing condition is set on the local [RegisterCR], not on the
    record handed to Create: the record is created without conditions and
    ends the reconciliation with the Available condition alone. *)
Lemma C4_created_record_has_no_Progressing_condition :
  (controller.Reconcile key_test world_absent).1 = None
  /\ (controller.createRegisterCR cluster_Host_80 argocdv1beta1.Register_zero world_absent).1
     = (None,
        argocdv1beta1.mkRegister metav1.ObjectMeta_zero (argocdv1beta1.mkRegisterSpec "")
          (argocdv1beta1.mkRegisterStatus
             [metav1.mkCondition "Progressing" metav1.ConditionTrue 0 1000
                "Creating Register" "Preparing to Register Cluster with ArgoCD"]))
  /\ created (trace (controller.Reconcile key_test world_absent).2) = [register_created]
  /\ (map_to_list (registers (controller.Reconcile key_test world_absent).2)).*1
     = [key_test]
  /\ conditionsAt key_test (controller.Reconcile key_test world_absent).2
     = Some [metav1.mkCondition "Available" metav1.ConditionTrue 0 1000 "Reconciling"
               "Cluster is Registered"].
Proof. repeat split; vm_compute; reflexivity. Qed.

(** ** Executions in which every API-server call takes its natural course *)
(** Side conditions of the steps below: the schedule stays empty, and the
    record last written is the record found. *)
Ltac quiet :=
  cbn [faults registers record set_registers set_faults set_trace];
  first [ assumption | apply lookup_insert_eq | eassumption ].

Section Quiet.
Import argocdv1beta1.

Lemma bind_run {A B : Type} (m : M A) (k : A -> M B) w a w' :
  m w = (a, w') -> bind m k w = k a w'.
Proof. intros H. unfold bind. by rewrite H. Qed.

Lemma api_quiet {A : Type} c (natural : M (result A)) w :
  faults w = [] -> api c natural w = natural (record c w).
Proof. intros Hq. unfold api. simpl. by rewrite Hq. Qed.

Lemma run_Get_Cluster k w :
  faults w = [] ->
  client.Get_Cluster k w
  = (match clusters w !! k with
     | Some o => inl o
     | None => inr (NewNotFound "clusters.cluster.x-k8s.io" k)
     end, record (GetCluster k) w).
Proof.
  intros Hq. unfold client.Get_Cluster. rewrite api_quiet by done.
  unfold client.lookup_or_NotFound. simpl. by destruct (clusters w !! k).
Qed.

Lemma run_Get_Register k w :
  faults w = [] ->
  client.Get_Register k w
  = (match registers w !! k with
     | Some o => inl o
     | None => inr (NewNotFound "registers.argocd.workload.com" k)
     end, record (GetRegister k) w).
Proof.
  intros Hq. unfold client.Get_Register. rewrite api_quiet by done.
  unfold client.lookup_or_NotFound. simpl. by destruct (registers w !! k).
Qed.

Lemma run_Get_Register_found k w r :
  faults w = [] -> registers w !! k = Some r ->
  client.Get_Register k w = (inl r, record (GetRegister k) w).
Proof. intros Hq Hr. rewrite run_Get_Register by done. by rewrite Hr. Qed.

Lemma run_Get_Secret k w :
  faults w = [] ->
  client.Get_Secret k w
  = (match secrets w !! k with
     | Some o => inl o
     | None => inr (NewNotFound "secrets" k)
     end, record (GetSecret k) w).
Proof.
  intros Hq. unfold client.Get_Secret. rewrite api_quiet by done.
  unfold client.lookup_or_NotFound. simpl. by destruct (secrets w !! k).
Qed.

Lemma run_Update obj old w :
  faults w = [] -> registers w !! key obj = Some old ->
  GetDeletionTimestamp obj = GetDeletionTimestamp old ->
  client.Update_Register obj w
  = (inl (withStatus obj (Status old)),
     set_registers (record (Update obj) w)
       (<[key obj := withStatus obj (Status old)]> (registers w))).
Proof.
  intros Hq Hold Hsame. unfold client.Update_Register. rewrite api_quiet by done.
  cbn [registers record]. rewrite Hold. by rewrite bool_decide_eq_true_2.
Qed.

Lemma run_Update_refused obj old w :
  faults w = [] -> registers w !! key obj = Some old ->
  GetDeletionTimestamp obj <> GetDeletionTimestamp old ->
  client.Update_Register obj w
  = (inr (NewInvalid "registers.argocd.workload.com" (key obj)
            client.deletionTimestampImmutable),
     record (Update obj) w).
Proof.
  intros Hq Hold Hother. unfold client.Update_Register. rewrite api_quiet by done.
  cbn [registers record]. rewrite Hold. by rewrite bool_decide_eq_false_2.
Qed.

Lemma run_Status_Update obj old w :
  faults w = [] -> registers w !! key obj = Some old ->
  client.Status_Update_Register obj w
  = (inl (withStatus old (Status obj)),
     set_registers (record (StatusUpdate obj) w)
       (<[key obj := withStatus old (Status obj)]> (registers w))).
Proof.
  intros Hq Hold. unfold client.Status_Update_Register. rewrite api_quiet by done.
  simpl. by rewrite Hold.
Qed.

(** The kubeconfig of [req] can be gathered. *)
Definition kubeconfigAt (req : NamespacedName) (w : World) (kubeconfig : list Byte.byte) : Prop :=
  exists secret, secrets w !! req = Some secret
                 /\ corev1.Data secret !! "kubeconfig" = Some kubeconfig.

(** The bearer token resolves to [token]. *)
Definition tokenResolves (w : World) (token : string) : Prop :=
  exists secret tokenBase64 decoded,
    secrets w !! argocdSecretKey w = Some secret
    /\ corev1.Data secret !! "admin.password" = Some tokenBase64
    /\ base64.StdEncoding_DecodeString (string_of_bytes tokenBase64) = inl decoded
    /\ token = string_of_bytes decoded.

(** The manager [NewAPIManagerWithCluster] builds once the token is known. *)
Definition managerOf (w : World) (clusterAPI : clusterapiv1.Cluster)
    (kubeConfig : list Byte.byte) (token : string) : APIManager :=
  {| Token := token;
     Server := clusterapiv1.Host (clusterapiv1.ControlPlaneEndpoint (clusterapiv1.Spec clusterAPI))
               +:+ ":"
               +:+ strconv_Itoa (clusterapiv1.Port
                                   (clusterapiv1.ControlPlaneEndpoint (clusterapiv1.Spec clusterAPI)));
     Name := metav1.Name (clusterapiv1.ObjectMeta clusterAPI);
     KubeConfig := kubeConfig;
     Endpoint := default argocd.defaultArgoAPIEndpoint (environ w !! argocd.APIEndpointEnvVar) |}.

Lemma run_LookupEnv_or name d w :
  LookupEnv_or name d w = (default d (environ w !! name), w).
Proof. unfold LookupEnv_or. by destruct (environ w !! name). Qed.

Lemma run_getClusterKubeConfigFromSecret req w kubeconfig :
  faults w = [] -> kubeconfigAt req w kubeconfig ->
  controller.getClusterKubeConfigFromSecret req w
  = (inl kubeconfig, record (GetSecret req) w).
Proof.
  intros Hq (secret & Hs & Hk). unfold controller.getClusterKubeConfigFromSecret.
  erewrite bind_run by by apply run_Get_Secret.
  rewrite Hs, Hk. done.
Qed.

Lemma run_NewAPIManagerWithCluster clusterAPI kubeConfig w token :
  faults w = [] -> tokenResolves w token ->
  argocd.NewAPIManagerWithCluster clusterAPI kubeConfig w
  = ((managerOf w clusterAPI kubeConfig token, None),
     record (GetSecret (argocdSecretKey w)) w).
Proof.
  intros Hq (secret & tokenBase64 & decoded & Hs & Hf & Hd & ->).
  unfold argocd.NewAPIManagerWithCluster, argocd.setBareToken.
  do 3 (erewrite bind_run by apply run_LookupEnv_or).
  erewrite bind_run by by apply run_Get_Secret.
  fold (argocdSecretKey w). rewrite Hs, Hf, Hd. done.
Qed.

Lemma run_handleIntegrationWithArgoCDAPI req RegisterCR clusterAPI w kubeconfig token :
  faults w = [] -> kubeconfigAt req w kubeconfig -> tokenResolves w token ->
  controller.handleIntegrationWithArgoCDAPI req RegisterCR clusterAPI w
  = ((inl (managerOf w clusterAPI kubeconfig token), RegisterCR),
     record (GetSecret (argocdSecretKey w)) (record (GetSecret req) w)).
Proof.
  intros Hq Hk Ht. unfold controller.handleIntegrationWithArgoCDAPI.
  erewrite bind_run by by apply run_getClusterKubeConfigFromSecret.
  cbv beta iota.
  erewrite bind_run by (by apply (run_NewAPIManagerWithCluster _ _ _ token)).
  done.
Qed.

Lemma run_SetStatusCondition cr c w :
  SetStatusCondition cr c w
  = (withStatus cr (mkRegisterStatus
                      (meta.SetStatusCondition (now w) (Conditions (Status cr)) c)), w).
Proof. reflexivity. Qed.

Lemma RemoveFinalizer_shortens fin (f : list string) :
  existsb (String.eqb fin) f = true ->
  negb (length (List.filter (fun x => negb (String.eqb x fin)) f) =? length f)%nat = true.
Proof.
  intros Hin. apply negb_true_iff, Nat.eqb_neq.
  assert (Hle : forall l : list string,
            (length (List.filter (fun x => negb (String.eqb x fin)) l) <= length l)%nat).
  { induction l as [|x l IH]; simpl; [lia|]. destruct (negb _); simpl; lia. }
  induction f as [|x f IH]; simpl in *; [done|].
  destruct (String.eqb_spec fin x) as [->|Hne]; simpl in *.
  - rewrite String.eqb_refl. simpl. specialize (Hle f). lia.
  - destruct (String.eqb_spec x fin) as [->|_]; [done|]. simpl.
    specialize (IH Hin). lia.
Qed.

(** The three conditions of the finalize path. *)
Definition finalizingCondition : metav1.Condition :=
  condition status.ConditionDegraded metav1.ConditionTrue "Finalizing"
    "Performing finalizer operations to delete Register".

Definition finalizedCondition : metav1.Condition :=
  condition status.ConditionDegraded metav1.ConditionTrue "Finalizing"
    "Cluster is unregister successfully accomplished".

Definition finalizeFailedCondition (err : error) : metav1.Condition :=
  condition status.ConditionDegraded metav1.ConditionUnknown "Finalizing"
    ("Error to perform required operations: " +:+ Error err).

Definition withConditions (r : Register) (conditions : list metav1.Condition) : Register :=
  withStatus r (mkRegisterStatus conditions).

Definition withoutFinalizer (r : Register) : Register :=
  (controllerutil.RemoveFinalizer r controller.registerCRFinalizer).1.

Section Finalize.
Variable UnRegisterCluster : APIManager -> M (option error).
Variable argoCDManager : APIManager.
Variable w : World.
Variable r : Register.

Hypothesis Hquiet : faults w = [].
Hypothesis Hstored : registers w !! key r = Some r.
Hypothesis Hfinalizer :
  controllerutil.ContainsFinalizer r controller.registerCRFinalizer = true.

Let conditions1 : list metav1.Condition :=
  meta.SetStatusCondition (now w) (Conditions (Status r)) finalizingCondition.

(** Unregister fails with [err], touching nothing. *)
Lemma run_handleFinalizer_failure err :
  (forall w0, UnRegisterCluster argoCDManager w0
              = (Some err, record (UnRegisterClusterCall argoCDManager) w0)) ->
  let failed :=
    withConditions r
      (meta.SetStatusCondition (now w) conditions1 (finalizeFailedCondition err)) in
  (controller.handleFinalizer_via UnRegisterCluster r (key r) argoCDManager w).1
  = (Some err, failed)
  /\ registers (controller.handleFinalizer_via UnRegisterCluster r (key r) argoCDManager w).2
     = <[key r := failed]> (registers w)
  /\ trace (controller.handleFinalizer_via UnRegisterCluster r (key r) argoCDManager w).2
     = trace w ++ [StatusUpdate (withConditions r conditions1);
                   GetRegister (key r);
                   UnRegisterClusterCall argoCDManager;
                   StatusUpdate failed].
Proof.
  intros HU failed. subst failed conditions1.
  unfold controller.handleFinalizer_via. rewrite Hfinalizer.
  rewrite bind_run with (1 := run_SetStatusCondition _ _ _).
  erewrite bind_run by (apply (run_Status_Update _ r); quiet).
  cbv beta iota.
  erewrite bind_run by (apply run_Get_Register_found; quiet).
  cbv beta iota.
  unfold controller.doFinalizerOperations_via.
  erewrite bind_run by (erewrite bind_run by apply HU; reflexivity).
  cbv beta iota.
  rewrite bind_run with (1 := run_SetStatusCondition _ _ _).
  erewrite bind_run by (eapply run_Status_Update; quiet).
  cbv beta iota. unfold ret.
  cbn [fst snd registers trace now record set_registers].
  split; [done|]. split.
  - by rewrite insert_insert_eq.
  - by rewrite <- !app_assoc.
Qed.

(** Unregister succeeds, touching nothing. *)
Lemma run_handleFinalizer_success :
  (forall w0, UnRegisterCluster argoCDManager w0
              = (None, record (UnRegisterClusterCall argoCDManager) w0)) ->
  let conditions2 := meta.SetStatusCondition (now w) conditions1 finalizedCondition in
  let finalized := withoutFinalizer (withConditions r conditions2) in
  (controller.handleFinalizer_via UnRegisterCluster r (key r) argoCDManager w).1
  = (None, finalized)
  /\ registers (controller.handleFinalizer_via UnRegisterCluster r (key r) argoCDManager w).2
     = <[key r := finalized]> (registers w)
  /\ faults (controller.handleFinalizer_via UnRegisterCluster r (key r) argoCDManager w).2 = []
  /\ trace (controller.handleFinalizer_via UnRegisterCluster r (key r) argoCDManager w).2
     = trace w ++ [StatusUpdate (withConditions r conditions1);
                   GetRegister (key r);
                   UnRegisterClusterCall argoCDManager;
                   RecorderEvent (key r) "Warning" "Deleting"
                     ("Register CR " +:+ metav1.Namespace (ObjectMeta r)
                        +:+ " from the namespace " +:+ metav1.Name (ObjectMeta r)
                        +:+ " will be deleted.");
                   StatusUpdate (withConditions r conditions2);
                   GetRegister (key r);
                   Update finalized].
Proof.
  intros HU conditions2 finalized. subst finalized conditions2 conditions1.
  unfold controller.handleFinalizer_via. rewrite Hfinalizer.
  rewrite bind_run with (1 := run_SetStatusCondition _ _ _).
  erewrite bind_run by (apply (run_Status_Update _ r); quiet).
  cbv beta iota.
  erewrite bind_run by (apply run_Get_Register_found; quiet).
  cbv beta iota.
  unfold controller.doFinalizerOperations_via.
  erewrite bind_run by (erewrite bind_run by apply HU; reflexivity).
  cbv beta iota.
  rewrite bind_run with (1 := run_SetStatusCondition _ _ _).
  erewrite bind_run by (eapply run_Status_Update; quiet).
  cbv beta iota.
  erewrite bind_run by (apply run_Get_Register_found; quiet).
  cbv beta iota.
  unfold controllerutil.RemoveFinalizer. cbv beta iota zeta.
  cbn [ObjectMeta withStatus].
  rewrite RemoveFinalizer_shortens by exact Hfinalizer.
  cbn [negb].
  erewrite bind_run by (eapply run_Update; [quiet | quiet | reflexivity]).
  cbv beta iota. unfold ret.
  cbn [fst snd registers trace faults now record set_registers].
  split; [done|]. split; [|split; [done|]].
  - by rewrite !insert_insert_eq.
  - by rewrite <- !app_assoc.
Qed.

End Finalize.

(** What a reconciliation cannot change: everything but the stored records,
    the schedule and the trace. *)
Definition sameSetting (w w' : World) : Prop :=
  clusters w' = clusters w /\ secrets w' = secrets w /\ environ w' = environ w
  /\ now w' = now w /\ scheme w' = scheme w /\ clientcmd_Load w' = clientcmd_Load w
  /\ http_NewRequest w' = http_NewRequest w /\ roundTrip w' = roundTrip w.

Lemma sameSetting_Reconcile req w : sameSetting w (controller.Reconcile req w).2.
Proof.
  refine (proj1 (safe_Reconcile req (sameSetting w) (fun _ => True) (fun _ => True)
                   (fun _ => True) _ _ _ _ _ _ _ _ _ _ _ _ _ w _)); try done.
Qed.

Lemma kubeconfigAt_sameSetting req w w' kubeconfig :
  sameSetting w w' -> kubeconfigAt req w kubeconfig -> kubeconfigAt req w' kubeconfig.
Proof. intros (_ & Hs & _) (secret & H1 & H2). exists secret. by rewrite Hs. Qed.

Lemma tokenResolves_sameSetting w w' token :
  sameSetting w w' -> tokenResolves w token -> tokenResolves w' token.
Proof.
  intros (_ & Hs & He & _) (secret & tb & d & H1 & H2 & H3 & H4).
  exists secret, tb, d. unfold argocdSecretKey in *. by rewrite Hs, He.
Qed.

Lemma isMarkedToBeDeleted_Some r t :
  GetDeletionTimestamp r = Some t -> controller.isMarkedToBeDeleted r = true.
Proof.
  intros H. unfold controller.isMarkedToBeDeleted. rewrite H.
  by apply bool_decide_eq_true_2.
Qed.

Lemma isMarkedToBeDeleted_None r :
  GetDeletionTimestamp r = None -> controller.isMarkedToBeDeleted r = false.
Proof.
  intros H. unfold controller.isMarkedToBeDeleted. rewrite H.
  apply bool_decide_eq_false_2. by intros [? ?].
Qed.

(** The calls that only read. *)
Definition reads (c : Call) : Prop :=
  match c with
  | GetCluster _ | GetRegister _ | GetSecret _ => True
  | _ => False
  end.

(** The calls of the finalize path, in order. *)
Definition finalizeCalls (w : World) (r : Register) (a : APIManager) : list Call :=
  let conditions1 :=
    meta.SetStatusCondition (now w) (Conditions (Status r)) finalizingCondition in
  let conditions2 := meta.SetStatusCondition (now w) conditions1 finalizedCondition in
  [StatusUpdate (withConditions r conditions1);
   GetRegister (key r);
   UnRegisterClusterCall a;
   RecorderEvent (key r) "Warning" "Deleting"
     ("Register CR " +:+ metav1.Namespace (ObjectMeta r)
        +:+ " from the namespace " +:+ metav1.Name (ObjectMeta r)
        +:+ " will be deleted.");
   StatusUpdate (withConditions r conditions2);
   GetRegister (key r);
   Update (withoutFinalizer (withConditions r conditions2))].

(** The record the finalize path leaves. *)
Definition finalized (w : World) (r : Register) : Register :=
  withoutFinalizer
    (withConditions r
       (meta.SetStatusCondition (now w)
          (meta.SetStatusCondition (now w) (Conditions (Status r)) finalizingCondition)
          finalizedCondition)).

Section Marked.
Variable w : World.
Variable r : Register.
Variable t : metav1.Time.
Variable kubeconfig : list Byte.byte.
Variable token : string.

Hypothesis Hquiet : faults w = [].
Hypothesis Hstored : registers w !! key r = Some r.
Hypothesis Hmarked : GetDeletionTimestamp r = Some t.
Hypothesis Hkubeconfig : kubeconfigAt (key r) w kubeconfig.
Hypothesis Htoken : tokenResolves w token.

Lemma run_reconcileRegister_finalizing clusterAPI RegisterCR :
  controllerutil.ContainsFinalizer r controller.registerCRFinalizer = true ->
  (controller.reconcileRegister (key r) clusterAPI RegisterCR w).1 = None
  /\ registers (controller.reconcileRegister (key r) clusterAPI RegisterCR w).2
     = <[key r := finalized w r]> (registers w)
  /\ faults (controller.reconcileRegister (key r) clusterAPI RegisterCR w).2 = []
  /\ trace (controller.reconcileRegister (key r) clusterAPI RegisterCR w).2
     = trace w ++ [GetRegister (key r); GetSecret (key r); GetSecret (argocdSecretKey w)]
         ++ finalizeCalls w r (managerOf w clusterAPI kubeconfig token).
Proof.
  intros Hfin. unfold controller.reconcileRegister, controller.reconcileWithManager.
  erewrite bind_run by (apply run_Get_Register_found; quiet). cbv beta iota.
  erewrite bind_run
    by (apply (run_handleIntegrationWithArgoCDAPI _ _ _ _ kubeconfig token); by quiet).
  cbv beta iota. rewrite (isMarkedToBeDeleted_Some _ _ Hmarked).
  unfold bind, controller.handleFinalizer.
  match goal with
  | |- context [controller.handleFinalizer_via _ _ _ ?a ?w1] =>
      destruct (run_handleFinalizer_success argocd.UnRegisterCluster a w1 r)
        as (Hres & Hregs & Hfaults & Htrace); [quiet | quiet | exact Hfin | done |]
  end.
  destruct (controller.handleFinalizer_via _ _ _ _ _) as [[res cr] w2].
  cbn [fst snd] in *. injection Hres as -> ->. unfold ret. cbn [fst snd].
  repeat split; [done | done |].
  rewrite Htrace. cbn [trace record now]. by rewrite <- !app_assoc.
Qed.

Lemma run_reconcileRegister_done clusterAPI RegisterCR :
  controllerutil.ContainsFinalizer r controller.registerCRFinalizer = false ->
  (controller.reconcileRegister (key r) clusterAPI RegisterCR w).1 = None
  /\ registers (controller.reconcileRegister (key r) clusterAPI RegisterCR w).2
     = registers w
  /\ faults (controller.reconcileRegister (key r) clusterAPI RegisterCR w).2 = []
  /\ trace (controller.reconcileRegister (key r) clusterAPI RegisterCR w).2
     = trace w ++ [GetRegister (key r); GetSecret (key r); GetSecret (argocdSecretKey w)].
Proof.
  intros Hfin. unfold controller.reconcileRegister, controller.reconcileWithManager.
  erewrite bind_run by (apply run_Get_Register_found; quiet). cbv beta iota.
  erewrite bind_run
    by (apply (run_handleIntegrationWithArgoCDAPI _ _ _ _ kubeconfig token); by quiet).
  cbv beta iota. rewrite (isMarkedToBeDeleted_Some _ _ Hmarked).
  unfold bind, controller.handleFinalizer, controller.handleFinalizer_via.
  rewrite Hfin. unfold ret. cbn [fst snd registers faults trace record].
  split; [done|]. split; [done|]. split; [done|]. by rewrite <- !app_assoc.
Qed.

End Marked.

(** The calls [Reconcile] makes before it reaches the common part: it looks
    for the cluster, and for the record when the cluster is gone. *)
Definition lookupCalls (w0 : World) (req : NamespacedName) : list Call :=
  match clusters w0 !! req with
  | Some _ => [GetCluster req]
  | None => [GetCluster req; GetRegister req]
  end.

Definition clusterOf (w0 : World) (req : NamespacedName) : clusterapiv1.Cluster :=
  default clusterapiv1.Cluster_zero (clusters w0 !! req).

(** From [Reconcile] to its common part, for a record that is marked. *)
Lemma run_Reconcile_marked w r t :
  faults w = [] -> registers w !! key r = Some r -> GetDeletionTimestamp r = Some t ->
  exists RegisterCR,
    controller.Reconcile (key r) w
    = controller.reconcileRegister (key r) (clusterOf w (key r)) RegisterCR
        (set_trace w (trace w ++ lookupCalls w (key r))).
Proof.
  intros Hq Hr Ht. unfold controller.Reconcile, lookupCalls, clusterOf.
  erewrite bind_run by (by apply run_Get_Cluster).
  destruct (clusters w !! key r) as [clusterAPI|] eqn:Hc; cbv beta iota.
  - by exists Register_zero.
  - cbn [NotFound NewNotFound negb].
    erewrite bind_run by (apply run_Get_Register_found; quiet). cbv beta iota.
    rewrite (isMarkedToBeDeleted_Some _ _ Ht). cbn [negb].
    exists r. unfold record, set_trace. cbn. by rewrite <- app_assoc.
Qed.

End Quiet.

Lemma FindStatusCondition_insert conditions t i e e' :
  meta.FindStatusCondition conditions t = Some (i, e) -> metav1.Type_ e' = t ->
  meta.FindStatusCondition (<[i := e']> conditions) t = Some (i, e').
Proof.
  revert i. induction conditions as [|c rest IH]; intros i; simpl; [done|].
  destruct (String.eqb_spec (metav1.Type_ c) t) as [Heq|Hne].
  - intros [= <- <-] Ht. simpl. by rewrite Ht, String.eqb_refl.
  - destruct (meta.FindStatusCondition rest t) as [[j c']|] eqn:Hf; [|done].
    intros [= <- <-] Ht. simpl.
    destruct (String.eqb_spec (metav1.Type_ c) t) as [|_]; [done|].
    by rewrite (IH j).
Qed.

Lemma FindStatusCondition_snoc conditions t e :
  meta.FindStatusCondition conditions t = None -> metav1.Type_ e = t ->
  meta.FindStatusCondition (conditions ++ [e]) t = Some (length conditions, e).
Proof.
  induction conditions as [|c rest IH]; simpl.
  - intros _ ->. by rewrite String.eqb_refl.
  - destruct (String.eqb_spec (metav1.Type_ c) t) as [|_]; [done|].
    destruct (meta.FindStatusCondition rest t) as [[j c']|] eqn:Hf; [done|].
    intros _ Ht. by rewrite IH.
Qed.

(** After [SetStatusCondition], the entry found for the type carries the
    status, reason and message that were set. *)
Lemma FindStatusCondition_SetStatusCondition now conditions c :
  exists i c',
    meta.FindStatusCondition (meta.SetStatusCondition now conditions c) (metav1.Type_ c)
    = Some (i, c')
    /\ metav1.Status c' = metav1.Status c
    /\ metav1.Reason c' = metav1.Reason c
    /\ metav1.Message c' = metav1.Message c.
Proof.
  unfold meta.SetStatusCondition.
  destruct (meta.FindStatusCondition conditions (metav1.Type_ c)) as [[i e]|] eqn:Hf.
  - exists i, (meta.updateExisting now e c). split.
    + apply (FindStatusCondition_insert _ _ _ e); [done|].
      by apply FindStatusCondition_Some in Hf as [_ Ht].
    + unfold meta.updateExisting. simpl.
      destruct (decide (metav1.Status e = metav1.Status c)) as [Heq|Hne].
      * by rewrite bool_decide_eq_true_2.
      * by rewrite bool_decide_eq_false_2.
  - exists (length conditions), (meta.stampNew now c). split.
    + apply FindStatusCondition_snoc; [done | apply Type_stampNew].
    + unfold meta.stampNew. by destruct (metav1.Time_IsZero _).
Qed.

(** ** The finalize path *)

(** The managers [UnRegisterCluster] was invoked on. *)
Definition unregistered (calls : list Call) : list APIManager :=
  omap (fun c => match c with UnRegisterClusterCall a => Some a | _ => None end) calls.

Lemma Forall_reads_lookupCalls w req : Forall reads (lookupCalls w req).
Proof.
  unfold lookupCalls. destruct (clusters w !! req); repeat constructor.
Qed.

(** Done: a marked record without the finalizer is only read. *)
Lemma Reconcile_done w r t kubeconfig token :
  faults w = [] ->
  registers w !! argocdv1beta1.key r = Some r ->
  argocdv1beta1.GetDeletionTimestamp r = Some t ->
  kubeconfigAt (argocdv1beta1.key r) w kubeconfig ->
  tokenResolves w token ->
  controllerutil.ContainsFinalizer r controller.registerCRFinalizer = false ->
  (controller.Reconcile (argocdv1beta1.key r) w).1 = None
  /\ registers (controller.Reconcile (argocdv1beta1.key r) w).2 = registers w
  /\ exists calls,
       trace (controller.Reconcile (argocdv1beta1.key r) w).2 = trace w ++ calls
       /\ Forall reads calls.
Proof.
  intros Hq Hr Ht Hk Htok Hfin.
  destruct (run_Reconcile_marked w r t Hq Hr Ht) as [cr ->].
  destruct (run_reconcileRegister_done
              (set_trace w (trace w ++ lookupCalls w (argocdv1beta1.key r)))
              r t kubeconfig token Hq Hr Ht Hk Htok
              (clusterOf w (argocdv1beta1.key r)) cr Hfin)
    as (Hres & Hregs & _ & Htrace).
  split; [exact Hres|]. split; [exact Hregs|].
  exists (lookupCalls w (argocdv1beta1.key r)
            ++ [GetRegister (argocdv1beta1.key r); GetSecret (argocdv1beta1.key r);
                GetSecret (argocdSecretKey w)]).
  split; [rewrite Htrace; cbn [trace set_trace]; rewrite <- !app_assoc; reflexivity|].
  apply Forall_app. split; [apply Forall_reads_lookupCalls | repeat constructor].
Qed.

(** Finalizing: a marked record with the finalizer is reported, unregistered
    and released. *)
Lemma Reconcile_finalizing w r t kubeconfig token :
  faults w = [] ->
  registers w !! argocdv1beta1.key r = Some r ->
  argocdv1beta1.GetDeletionTimestamp r = Some t ->
  kubeconfigAt (argocdv1beta1.key r) w kubeconfig ->
  tokenResolves w token ->
  controllerutil.ContainsFinalizer r controller.registerCRFinalizer = true ->
  (controller.Reconcile (argocdv1beta1.key r) w).1 = None
  /\ registers (controller.Reconcile (argocdv1beta1.key r) w).2
     = <[argocdv1beta1.key r := finalized w r]> (registers w)
  /\ faults (controller.Reconcile (argocdv1beta1.key r) w).2 = []
  /\ exists calls a,
       trace (controller.Reconcile (argocdv1beta1.key r) w).2
       = trace w ++ calls ++ finalizeCalls w r a
       /\ Forall reads calls.
Proof.
  intros Hq Hr Ht Hk Htok Hfin.
  destruct (run_Reconcile_marked w r t Hq Hr Ht) as [cr ->].
  destruct (run_reconcileRegister_finalizing
              (set_trace w (trace w ++ lookupCalls w (argocdv1beta1.key r)))
              r t kubeconfig token Hq Hr Ht Hk Htok
              (clusterOf w (argocdv1beta1.key r)) cr Hfin)
    as (Hres & Hregs & Hfaults & Htrace).
  split; [exact Hres|]. split; [exact Hregs|]. split; [exact Hfaults|].
  exists (lookupCalls w (argocdv1beta1.key r)
            ++ [GetRegister (argocdv1beta1.key r); GetSecret (argocdv1beta1.key r);
                GetSecret (argocdSecretKey w)]),
         (managerOf w (clusterOf w (argocdv1beta1.key r)) kubeconfig token).
  split; [rewrite Htrace; cbn [trace set_trace]; rewrite <- !app_assoc; reflexivity|].
  apply Forall_app. split; [apply Forall_reads_lookupCalls | repeat constructor].
Qed.

Lemma lacksFinalizer_finalized w r : lacksFinalizer (finalized w r).
Proof. apply lacksFinalizer_removed. Qed.

(** A record marked for deletion that still carries the finalizer, in a
    namespace whose cluster and kubeconfig secret are gone. *)
Definition world_finalizer_without_kubeconfig : World :=
  world_of ∅
           {[ key_test := register_test (Some 500) [controller.registerCRFinalizer] ]}
           {[ ("argocd", "argocd-secret") := secret_token_test ]}
           (http.mkResponse 200 "200 OK").



(** The deletion protocol on the record of the unit test: marked at time
    500, carrying the finalizer, both secrets in place. *)
Definition world_finalizing : World :=
  world_of ∅
           {[ key_test := register_test (Some 500) [controller.registerCRFinalizer] ]}
           {[ key_test := secret_kubeconfig;
              ("argocd", "argocd-secret") := secret_token_test ]}
           (http.mkResponse 200 "200 OK").


(** ** The soft delete *)

(** The record of [req] is stored with the deletion marker [t], and the
    trace extends [t0]. *)
Definition markedAt (req : NamespacedName) (t : metav1.Time) (t0 : list Call) (w : World)
  : Prop :=
  (exists r, registers w !! req = Some r /\ argocdv1beta1.key r = req
             /\ argocdv1beta1.GetDeletionTimestamp r = Some t)
  /\ exists calls, trace w = t0 ++ calls.

(** The records the controller holds while the record of [req] is marked. *)
Definition heldMarked (req : NamespacedName) (t : metav1.Time) (cr : argocdv1beta1.Register)
  : Prop :=
  argocdv1beta1.key cr = req /\ argocdv1beta1.GetDeletionTimestamp cr = Some t.

Section MarkedAt.
Variable req : NamespacedName.
Variable t : metav1.Time.
Variable t0 : list Call.

Lemma markedAt_record w c : markedAt req t t0 w -> markedAt req t t0 (record c w).
Proof.
  intros [Hstore (calls & Htr)]. split; [exact Hstore|].
  exists (calls ++ [c]). cbn [trace record]. by rewrite Htr, app_assoc.
Qed.

Lemma markedAt_update w obj old :
  markedAt req t t0 w -> heldMarked req t obj ->
  registers w !! argocdv1beta1.key obj = Some old ->
  markedAt req t t0
    (set_registers w
       (<[argocdv1beta1.key obj := argocdv1beta1.withStatus obj (argocdv1beta1.Status old)]>
          (registers w))).
Proof.
  intros [_ Htr] [Hkey Hts] Hold. split; [|exact Htr].
  eexists. cbn [registers set_registers]. rewrite Hkey.
  split; [apply lookup_insert_eq | by split].
Qed.

Lemma markedAt_held w obj old :
  markedAt req t t0 w -> heldMarked req t obj ->
  registers w !! argocdv1beta1.key obj = Some old -> heldMarked req t old.
Proof.
  intros [(r1 & Hr1 & Hk1 & Ht1) _] [Hkey Hts] Hold.
  rewrite Hkey in Hold. assert (old = r1) as -> by congruence. by split.
Qed.

Lemma markedAt_status w obj old :
  markedAt req t t0 w -> heldMarked req t obj ->
  registers w !! argocdv1beta1.key obj = Some old ->
  markedAt req t t0
    (set_registers w
       (<[argocdv1beta1.key obj := argocdv1beta1.withStatus old (argocdv1beta1.Status obj)]>
          (registers w))).
Proof.
  intros Hw Hobj Hold. destruct (markedAt_held w obj old Hw Hobj Hold) as [Hk Ht].
  destruct Hw as [_ Htr], Hobj as [Hkey _]. split; [|exact Htr].
  eexists. cbn [registers set_registers]. rewrite Hkey.
  split; [apply lookup_insert_eq | by split].
Qed.

Lemma markedAt_fetched w r :
  markedAt req t t0 w -> registers w !! req = Some r -> heldMarked req t r.
Proof.
  intros [(r1 & Hr1 & Hk1 & Ht1) _] Hr. assert (r = r1) as -> by congruence. by split.
Qed.

Lemma heldMarked_never_unmarked cr t' :
  heldMarked req t cr -> argocdv1beta1.GetDeletionTimestamp cr = None ->
  heldMarked req t (argocdv1beta1.SetDeletionTimestamp cr (Some t')).
Proof. intros [_ Hts] Hnone. congruence. Qed.

Lemma markedAt_reconcileWithManager clusterAPI RegisterCR w :
  heldMarked req t RegisterCR -> markedAt req t t0 w ->
  markedAt req t t0 (controller.reconcileWithManager req clusterAPI RegisterCR w).2.
Proof.
  intros Hcr Hw.
  assert (Hsafe : safe (markedAt req t t0)
                    (controller.reconcileWithManager req clusterAPI RegisterCR) any).
  { eapply safe_reconcileWithManager with (G := heldMarked req t) (okc := fun _ => True);
      eauto using markedAt_record, markedAt_update, markedAt_status, markedAt_held,
        markedAt_fetched, heldMarked_never_unmarked. }
  exact (proj1 (Hsafe w Hw)).
Qed.

End MarkedAt.

(** The record of the unit test after its cluster is gone: not yet marked. *)
Definition world_source_deleted : World :=
  world_of ∅
           {[ key_test := register_test None [] ]}
           {[ key_test := secret_kubeconfig;
              ("argocd", "argocd-secret") := secret_token_test ]}
           (http.mkResponse 200 "200 OK").

(** C7, on the code: the cluster of the unit test is gone and its record,
    still stored, is not marked.  Reconcile writes the deletion marker into
    the record it holds and sends it with Update; the API server refuses an
    update that changes metadata.deletionTimestamp, so Reconcile answers
    that error after these three calls, and the record stays stored as it
    was, without a marker. *)
Lemma C7_soft_delete_update_is_refused :
  (controller.Reconcile key_test world_source_deleted).1
  = Some (NewInvalid "registers.argocd.workload.com" key_test
            client.deletionTimestampImmutable)
  /\ trace (controller.Reconcile key_test world_source_deleted).2
     = [GetCluster key_test; GetRegister key_test;
        Update (argocdv1beta1.SetDeletionTimestamp (register_test None []) (Some 1000))]
  /\ registers (controller.Reconcile key_test world_source_deleted).2 !! key_test
     = Some (register_test None [])
  /\ argocdv1beta1.GetDeletionTimestamp (register_test None []) = None.
Proof. repeat split; vm_compute; reflexivity. Qed.

(** ** Registration is attempted on every Active reconciliation *)

(** A call once made stays in the trace. *)
Section Keeps.
Variable x : Call.

Definition made (w : World) : Prop := x ∈ trace w.

Lemma made_record w c : made w -> made (record c w).
Proof. unfold made. cbn [trace record]. intros H. apply elem_of_app. by left. Qed.

Lemma keeps_Status_Update obj :
  safe made (client.Status_Update_Register obj) any.
Proof.
  eapply safe_weaken.
  - eapply safe_Status_Update with (G := fun _ => True) (okc := fun _ => True);
      eauto using made_record.
  - done.
Qed.

Lemma keeps_SetStatusCondition cr c : safe made (SetStatusCondition cr c) any.
Proof. intros w Hw. by split. Qed.

(** What follows [RegisterCluster] in [handleClusterRegistration]. *)
Lemma keeps_after_RegisterCluster (e : option error) (RegisterCR : argocdv1beta1.Register) w :
  made w ->
  made
    (match e with
     | Some err =>
         RegisterCR <- SetStatusCondition RegisterCR
           (condition status.ConditionDegraded metav1.ConditionTrue "Error"
              ("Unable to register Cluster into ArgoCD: " +:+ Error err)) ;;
         u <- client.Status_Update_Register RegisterCR ;;
         match u with
         | inr err' => ret (Some err', RegisterCR)
         | inl RegisterCR =>
             RegisterCR <- SetStatusCondition RegisterCR
               (condition status.ConditionAvailable metav1.ConditionTrue "Reconciling"
                  "Cluster is Registered") ;;
             u <- client.Status_Update_Register RegisterCR ;;
             match u with
             | inr err' => ret (Some err', RegisterCR)
             | inl RegisterCR => ret (None, RegisterCR)
             end
         end
     | None =>
         RegisterCR <- SetStatusCondition RegisterCR
           (condition status.ConditionAvailable metav1.ConditionTrue "Reconciling"
              "Cluster is Registered") ;;
         u <- client.Status_Update_Register RegisterCR ;;
         match u with
         | inr err' => ret (Some err', RegisterCR)
         | inl RegisterCR => ret (None, RegisterCR)
         end
     end w).2.
Proof.
  intros Hw.
  assert (Havailable : forall cr : argocdv1beta1.Register,
    safe made
      (RegisterCR <- SetStatusCondition cr
         (condition status.ConditionAvailable metav1.ConditionTrue "Reconciling"
            "Cluster is Registered") ;;
       u <- client.Status_Update_Register RegisterCR ;;
       match u with
       | inr err' => ret (Some err', RegisterCR)
       | inl RegisterCR => ret (None, RegisterCR)
       end) any).
  { intros cr.
    eapply safe_bind; [apply keeps_SetStatusCondition | intros cr1 _].
    eapply safe_bind; [apply keeps_Status_Update | intros u _].
    destruct u; by apply safe_ret. }
  destruct e as [err|]; [|by apply Havailable].
  refine (proj1 ((_ : safe made _ any) w Hw)).
  eapply safe_bind; [apply keeps_SetStatusCondition | intros cr1 _].
  eapply safe_bind; [apply keeps_Status_Update | intros u _].
  destruct u; [apply Havailable | by apply safe_ret].
Qed.

End Keeps.

Lemma RegisterCluster_recorded a w :
  RegisterClusterCall a ∈ trace (argocd.RegisterCluster a w).2.
Proof.
  unfold argocd.RegisterCluster, argocd.ValidateKubeConfigForClusterAPI, argocd.Client_Do,
    bind, call, get, ret.
  assert (Hmade : made (RegisterClusterCall a) (record (RegisterClusterCall a) w)).
  { unfold made. cbn [trace record]. apply elem_of_app. right. by left. }
  destruct (clientcmd_Load _ _); [exact Hmade|].
  destruct (http_NewRequest _ _ _); [exact Hmade|].
  destruct (roundTrip _ _ _) as [resp|err]; [destruct (negb _)|];
    by apply made_record.
Qed.

(** Once its record is fetched, [handleClusterRegistration] calls
    [RegisterCluster], whatever the API server answers afterwards. *)
Lemma handleClusterRegistration_registers req a cr cr' w w2 :
  client.Get_Register req (record (IsClusterRegisteredCall a) w) = (inl cr', w2) ->
  RegisterClusterCall a
  ∈ trace (controller.handleClusterRegistration req a cr w).2.
Proof.
  intros Hget. unfold controller.handleClusterRegistration.
  erewrite bind_run by reflexivity. cbv beta iota zeta. cbn [fst snd negb].
  erewrite bind_run by exact Hget. cbv beta iota.
  unfold bind at 1.
  pose proof (RegisterCluster_recorded a w2) as Hmade.
  destruct (argocd.RegisterCluster a w2) as [e w3]. cbn [snd] in Hmade.
  by apply (keeps_after_RegisterCluster (RegisterClusterCall a) e cr' w3).
Qed.

Lemma run_NewAPIManagerWithCluster_quiet clusterAPI kubeConfig w :
  faults w = [] ->
  exists a e,
    argocd.NewAPIManagerWithCluster clusterAPI kubeConfig w
    = ((a, e), record (GetSecret (argocdSecretKey w)) w).
Proof.
  intros Hq. unfold argocd.NewAPIManagerWithCluster, argocd.setBareToken.
  do 3 (erewrite bind_run by apply run_LookupEnv_or).
  erewrite bind_run by by apply run_Get_Secret.
  fold (argocdSecretKey w).
  destruct (secrets w !! argocdSecretKey w) as [secret|]; [|by eexists _, _].
  destruct (corev1.Data secret !! "admin.password") as [tokenBase64|]; [|by eexists _, _].
  destruct (base64.StdEncoding_DecodeString _); by eexists _, _.
Qed.

(** In the Active state the manager is handed on, with or without its
    token, and the record is still stored and not marked. *)
Lemma run_handleIntegrationWithArgoCDAPI_active w r clusterAPI kubeconfig :
  faults w = [] ->
  registers w !! argocdv1beta1.key r = Some r ->
  argocdv1beta1.GetDeletionTimestamp r = None ->
  kubeconfigAt (argocdv1beta1.key r) w kubeconfig ->
  exists a cr' w',
    controller.handleIntegrationWithArgoCDAPI (argocdv1beta1.key r) r clusterAPI w
    = ((inl a, cr'), w')
    /\ faults w' = []
    /\ argocdv1beta1.GetDeletionTimestamp cr' = None
    /\ is_Some (registers w' !! argocdv1beta1.key r).
Proof.
  intros Hq Hr Hts Hk. unfold controller.handleIntegrationWithArgoCDAPI.
  erewrite bind_run by by apply run_getClusterKubeConfigFromSecret. cbv beta iota.
  destruct (run_NewAPIManagerWithCluster_quiet clusterAPI kubeconfig
              (record (GetSecret (argocdv1beta1.key r)) w) Hq) as (a & e & Hnew).
  erewrite bind_run by exact Hnew. cbv beta iota.
  destruct e as [err|].
  - erewrite bind_run by (apply run_Get_Register_found; quiet). cbv beta iota.
    erewrite bind_run by reflexivity.
    erewrite bind_run by (apply (run_Status_Update _ r); quiet). cbv beta iota.
    eexists _, _, _. split; [reflexivity|].
    cbn [faults registers set_registers record]. split; [exact Hq|]. split; [exact Hts|].
    eexists. apply lookup_insert_eq.
  - eexists _, _, _. split; [reflexivity|].
    cbn [faults registers record]. split; [exact Hq|]. split; [exact Hts|]. by eexists.
Qed.



(** ** What the failure paths do, in general *)

(** [RegisterCluster] against an endpoint that answers [resp]. *)
Lemma run_RegisterCluster_response a w resp :
  clientcmd_Load w (KubeConfig a) = None ->
  http_NewRequest w "POST" (Endpoint a +:+ "/api/v1/clusters") = None ->
  roundTrip w argocd.registerClient (argocd.registerRequest a) = inl resp ->
  argocd.RegisterCluster a w
  = (if negb (Z.eqb (http.StatusCode resp) http.StatusOK)
     then Some (errors_New ("error registering cluster, status: " +:+ http.Status resp))
     else None,
     record (Do argocd.registerClient (argocd.registerRequest a))
       (record (RegisterClusterCall a) w)).
Proof.
  intros Hload Hurl Hresp.
  unfold argocd.RegisterCluster, argocd.ValidateKubeConfigForClusterAPI,
    argocd.Client_Do, bind, call, get, ret.
  change (clientcmd_Load (record (RegisterClusterCall a) w)) with (clientcmd_Load w).
  rewrite Hload.
  change (http_NewRequest (record (RegisterClusterCall a) w)) with (http_NewRequest w).
  rewrite Hurl.
  change (roundTrip (record (RegisterClusterCall a) w)) with (roundTrip w).
  rewrite Hresp. by destruct (negb _).
Qed.

Definition registerFailedCondition (err : error) : metav1.Condition :=
  condition status.ConditionDegraded metav1.ConditionTrue "Error"
    ("Unable to register Cluster into ArgoCD: " +:+ Error err).

Definition availableCondition : metav1.Condition :=
  condition status.ConditionAvailable metav1.ConditionTrue "Reconciling"
    "Cluster is Registered".

(** Whenever the endpoint answers a status other than 200 (and the
    API-server calls take their natural course), handleClusterRegistration
    stores the Degraded report, then Available = True on top of it, and
    answers nil. *)
Lemma handleClusterRegistration_after_failed_register w r a cr resp :
  faults w = [] ->
  registers w !! argocdv1beta1.key r = Some r ->
  clientcmd_Load w (KubeConfig a) = None ->
  http_NewRequest w "POST" (Endpoint a +:+ "/api/v1/clusters") = None ->
  roundTrip w argocd.registerClient (argocd.registerRequest a) = inl resp ->
  http.StatusCode resp <> 200 ->
  let err := errors_New ("error registering cluster, status: " +:+ http.Status resp) in
  let conditions' :=
    meta.SetStatusCondition (now w)
      (meta.SetStatusCondition (now w)
         (argocdv1beta1.Conditions (argocdv1beta1.Status r)) (registerFailedCondition err))
      availableCondition in
  (controller.handleClusterRegistration (argocdv1beta1.key r) a cr w).1.1 = None
  /\ registers (controller.handleClusterRegistration (argocdv1beta1.key r) a cr w).2
     = <[argocdv1beta1.key r := withConditions r conditions']> (registers w)
  /\ exists i c,
       meta.FindStatusCondition conditions' status.ConditionAvailable = Some (i, c)
       /\ metav1.Status c = metav1.ConditionTrue.
Proof.
  intros Hq Hr Hload Hurl Hresp Hcode err conditions'. subst err conditions'.
  unfold controller.handleClusterRegistration.
  erewrite bind_run by reflexivity. cbv beta iota zeta. cbn [fst snd negb].
  erewrite bind_run by (apply run_Get_Register_found; quiet). cbv beta iota.
  erewrite bind_run by (by apply (run_RegisterCluster_response _ _ resp)).
  unfold http.StatusOK. rewrite (proj2 (Z.eqb_neq _ _) Hcode). cbn [negb].
  erewrite bind_run by reflexivity.
  erewrite bind_run by (apply (run_Status_Update _ r); quiet). cbv beta iota.
  erewrite bind_run by reflexivity.
  erewrite bind_run by (eapply run_Status_Update; quiet). cbv beta iota.
  unfold ret. cbn [fst snd registers now record set_registers].
  split; [reflexivity|]. split; [by rewrite insert_insert_eq|].
  destruct (FindStatusCondition_SetStatusCondition (now w)
              (meta.SetStatusCondition (now w)
                 (argocdv1beta1.Conditions (argocdv1beta1.Status r))
                 (registerFailedCondition
                    (errors_New ("error registering cluster, status: " +:+ http.Status resp))))
              availableCondition)
    as (i & c & Hf & Hs & _).
  by exists i, c.
Qed.

(** The Active state of the unit test, the endpoint answering 500. *)
Lemma handleClusterRegistration_after_failed_register_witness :
  (controller.handleClusterRegistration key_test manager_active argocdv1beta1.Register_zero
     (world_active (http.mkResponse 500 "500 Internal Server Error"))).1.1 = None.
Proof.
  destruct (handleClusterRegistration_after_failed_register
              (world_active (http.mkResponse 500 "500 Internal Server Error"))
              (register_test None []) manager_active argocdv1beta1.Register_zero
              (http.mkResponse 500 "500 Internal Server Error"))
    as (Hres & _).
  - reflexivity.
  - vm_compute. reflexivity.
  - reflexivity.
  - reflexivity.
  - reflexivity.
  - discriminate.
  - exact Hres.
Defined.

Lemma run_Create obj w :
  faults w = [] -> registers w !! argocdv1beta1.key obj = None ->
  client.Create_Register obj w
  = (inl (argocdv1beta1.withStatus obj (argocdv1beta1.mkRegisterStatus [])),
     set_registers (record (Create obj) w)
       (<[argocdv1beta1.key obj :=
            argocdv1beta1.withStatus obj (argocdv1beta1.mkRegisterStatus [])]>
          (registers w))).
Proof.
  intros Hq Hnew. unfold client.Create_Register. rewrite api_quiet by done.
  cbn [registers record]. by rewrite Hnew.
Qed.

(** Whenever the scheme knows the cluster type (and the API-server calls
    take their natural course), [createRegisterCR] hands to Create a record with
    the identity of the cluster, an owner reference to it and no condition;
    the Progressing condition stays on the record it was given. *)
Lemma createRegisterCR_creates w clusterAPI RegisterCR apiVersion kind :
  faults w = [] ->
  scheme w = inl (apiVersion, kind) ->
  let name := metav1.Name (clusterapiv1.ObjectMeta clusterAPI) in
  let namespace := metav1.Namespace (clusterapiv1.ObjectMeta clusterAPI) in
  registers w !! (namespace, name) = None ->
  let newRegister :=
    argocdv1beta1.mkRegister
      (metav1.mkObjectMeta name namespace "" None []
         [metav1.mkOwnerReference apiVersion kind name
            (metav1.UID (clusterapiv1.ObjectMeta clusterAPI))])
      (argocdv1beta1.mkRegisterSpec "") (argocdv1beta1.mkRegisterStatus []) in
  (controller.createRegisterCR clusterAPI RegisterCR w).1
  = (None,
     withConditions RegisterCR
       (meta.SetStatusCondition (now w)
          (argocdv1beta1.Conditions (argocdv1beta1.Status RegisterCR))
          (condition status.ConditionProgressing metav1.ConditionTrue "Creating Register"
             "Preparing to Register Cluster with ArgoCD")))
  /\ registers (controller.createRegisterCR clusterAPI RegisterCR w).2
     = <[(namespace, name) := newRegister]> (registers w)
  /\ trace (controller.createRegisterCR clusterAPI RegisterCR w).2
     = trace w ++ [Create newRegister].
Proof.
  intros Hq Hscheme name namespace Hnew newRegister. subst name namespace newRegister.
  unfold controller.createRegisterCR, controller.generateRegisterCR.
  erewrite bind_run by (erewrite bind_run by reflexivity; reflexivity).
  rewrite Hscheme. unfold controllerutil.SetOwnerReference.
  assert (Hvalid : forall object : argocdv1beta1.Register,
            metav1.Namespace (argocdv1beta1.ObjectMeta object)
            = metav1.Namespace (clusterapiv1.ObjectMeta clusterAPI) ->
            controllerutil.validateOwner clusterAPI object = None).
  { intros object Hns. unfold controllerutil.validateOwner. rewrite Hns.
    destruct (String.eqb_spec (metav1.Namespace (clusterapiv1.ObjectMeta clusterAPI)) "")
      as [|Hne]; [done|]. cbn [negb].
    by rewrite String.eqb_refl. }
  rewrite Hvalid by reflexivity. cbv beta iota.
  erewrite bind_run by reflexivity.
  erewrite bind_run by (apply run_Create; [exact Hq | exact Hnew]).
  cbv beta iota. unfold ret. cbn [fst snd registers trace set_registers record].
  split; [reflexivity|]. split; reflexivity.
Qed.

(** The first reconciliation of the cluster of the unit test. *)
Lemma createRegisterCR_creates_witness :
  trace (controller.createRegisterCR cluster_Host_80 argocdv1beta1.Register_zero
           world_absent).2
  = [Create register_created].
Proof.
  destruct (createRegisterCR_creates world_absent cluster_Host_80
              argocdv1beta1.Register_zero "cluster.x-k8s.io/v1beta1" "Cluster")
    as (_ & _ & Htrace).
  - reflexivity.
  - reflexivity.
  - vm_compute. reflexivity.
  - exact Htrace.
Defined.

(** * Further properties of the controller and of the API manager *)

(** ** Gathering the kubeconfig *)

(** getClusterKubeConfigFromSecret reads the secret of [req] once and writes
    nothing.  Bytes it answers are the "kubeconfig" field of that secret;
    when the read takes its natural course, a stored field is answered, a
    missing secret gives the NotFound error of the read, and a secret
    without the field gives "kubeconfig not found in secret". *)
Theorem getClusterKubeConfigFromSecret_outcomes req w :
  trace (controller.getClusterKubeConfigFromSecret req w).2 = trace w ++ [GetSecret req]
  /\ registers (controller.getClusterKubeConfigFromSecret req w).2 = registers w
  /\ (forall kubeconfig,
        (controller.getClusterKubeConfigFromSecret req w).1 = inl kubeconfig ->
        kubeconfigAt req w kubeconfig)
  /\ (next_call_natural w ->
      (forall kubeconfig,
         kubeconfigAt req w kubeconfig ->
         (controller.getClusterKubeConfigFromSecret req w).1 = inl kubeconfig)
      /\ (secrets w !! req = None ->
          (controller.getClusterKubeConfigFromSecret req w).1
          = inr (NewNotFound "secrets" req))
      /\ (forall secret,
            secrets w !! req = Some secret ->
            corev1.Data secret !! "kubeconfig" = None ->
            (controller.getClusterKubeConfigFromSecret req w).1
            = inr (errors_New "kubeconfig not found in secret"))).
Proof.
  unfold controller.getClusterKubeConfigFromSecret, bind, client.Get_Secret, api,
    client.lookup_or_NotFound, ret.
  cbn [faults record].
  destruct (faults w) as [|[err|] fs] eqn:Hf; cbn [secrets set_faults record].
  - destruct (secrets w !! req) as [secret|] eqn:Hs;
      [destruct (corev1.Data secret !! "kubeconfig") as [k|] eqn:Hk|];
      cbn [fst snd trace registers record];
      (split; [reflexivity|]); (split; [reflexivity|]); split.
    + intros kubeconfig [= <-]. by exists secret.
    + intros _. split; [|split]; [|done|congruence].
      intros kubeconfig (s' & Hs' & Hk'). congruence.
    + done.
    + intros _. split; [|split]; [|done|].
      * intros kubeconfig (s' & Hs' & Hk'). congruence.
      * intros s' [= <-] _. reflexivity.
    + done.
    + intros _. split; [|split]; [|done|done].
      intros kubeconfig (s' & Hs' & Hk'). congruence.
  - cbn [fst snd trace registers record set_faults].
    split; [reflexivity|]. split; [reflexivity|]. split; [done|].
    unfold next_call_natural. by rewrite Hf.
  - destruct (secrets w !! req) as [secret|] eqn:Hs;
      [destruct (corev1.Data secret !! "kubeconfig") as [k|] eqn:Hk|];
      cbn [fst snd trace registers record set_faults];
      (split; [reflexivity|]); (split; [reflexivity|]); split.
    + intros kubeconfig [= <-]. by exists secret.
    + intros _. split; [|split]; [|done|congruence].
      intros kubeconfig (s' & Hs' & Hk'). congruence.
    + done.
    + intros _. split; [|split]; [|done|].
      * intros kubeconfig (s' & Hs' & Hk'). congruence.
      * intros s' [= <-] _. reflexivity.
    + done.
    + intros _. split; [|split]; [|done|done].
      intros kubeconfig (s' & Hs' & Hk'). congruence.
Qed.

Lemma getClusterKubeConfigFromSecret_outcomes_witness :
  (controller.getClusterKubeConfigFromSecret key_test world_absent).1
  = inl (bytes_of_string "apiVersion: v1").
Proof.
  destruct (getClusterKubeConfigFromSecret_outcomes key_test world_absent)
    as (_ & _ & _ & Hnatural).
  destruct Hnatural as (Hstored & _); [exact I|].
  apply Hstored. exists secret_kubeconfig. split; vm_compute; reflexivity.
Defined.

(** ** Nothing to reconcile *)

(** When neither the cluster nor the record of the key is stored (and the
    two reads take their natural course), Reconcile answers nil after those
    two reads and writes nothing. *)
Theorem Reconcile_nothing_stored req w :
  faults w = [] ->
  clusters w !! req = None ->
  registers w !! req = None ->
  controller.Reconcile req w
  = (None, record (GetRegister req) (record (GetCluster req) w)).
Proof.
  intros Hq Hc Hr. unfold controller.Reconcile.
  erewrite bind_run by (by apply run_Get_Cluster). rewrite Hc. cbv beta iota.
  cbn [NotFound NewNotFound negb].
  erewrite bind_run by (apply run_Get_Register; quiet).
  cbn [registers record]. rewrite Hr. reflexivity.
Qed.

Definition world_empty : World :=
  world_of ∅ ∅ ∅ (http.mkResponse 200 "200 OK").

Lemma Reconcile_nothing_stored_witness :
  (controller.Reconcile key_test world_empty).1 = None.
Proof.
  rewrite (Reconcile_nothing_stored key_test world_empty); reflexivity.
Defined.

(** ** Generating the record *)

Lemma validateOwner_same_namespace clusterAPI (object : argocdv1beta1.Register) :
  metav1.Namespace (argocdv1beta1.ObjectMeta object)
  = metav1.Namespace (clusterapiv1.ObjectMeta clusterAPI) ->
  controllerutil.validateOwner clusterAPI object = None.
Proof.
  intros Hns. unfold controllerutil.validateOwner. rewrite Hns.
  destruct (String.eqb_spec (metav1.Namespace (clusterapiv1.ObjectMeta clusterAPI)) "")
    as [|Hne]; [done|]. cbn [negb].
  by rewrite String.eqb_refl.
Qed.

(** generateRegisterCR touches nothing; the record it answers has the name
    and namespace of the cluster, no deletion marker, no finalizer and no
    condition.  The owner is never rejected: the only error is the one of
    the scheme, and then no owner reference is set; otherwise the record
    carries exactly one owner reference, with the name and UID of the
    cluster. *)
Theorem generateRegisterCR_record clusterAPI w :
  let newRegister := (controller.generateRegisterCR clusterAPI w).1.1 in
  let err := (controller.generateRegisterCR clusterAPI w).1.2 in
  (controller.generateRegisterCR clusterAPI w).2 = w
  /\ argocdv1beta1.key newRegister
     = (metav1.Namespace (clusterapiv1.ObjectMeta clusterAPI),
        metav1.Name (clusterapiv1.ObjectMeta clusterAPI))
  /\ argocdv1beta1.GetDeletionTimestamp newRegister = None
  /\ metav1.Finalizers (argocdv1beta1.ObjectMeta newRegister) = []
  /\ argocdv1beta1.Conditions (argocdv1beta1.Status newRegister) = []
  /\ match scheme w with
     | inl (apiVersion, kind) =>
         err = None
         /\ metav1.OwnerReferences (argocdv1beta1.ObjectMeta newRegister)
            = [metav1.mkOwnerReference apiVersion kind
                 (metav1.Name (clusterapiv1.ObjectMeta clusterAPI))
                 (metav1.UID (clusterapiv1.ObjectMeta clusterAPI))]
     | inr e =>
         err = Some e
         /\ metav1.OwnerReferences (argocdv1beta1.ObjectMeta newRegister) = []
     end.
Proof.
  unfold controller.generateRegisterCR, bind, get, ret. cbn [fst snd].
  unfold controllerutil.SetOwnerReference.
  rewrite validateOwner_same_namespace by reflexivity.
  destruct (scheme w) as [[apiVersion kind]|e]; cbn [fst snd]; by repeat split.
Qed.

Lemma run_createRegisterCR_unknown clusterAPI RegisterCR e w :
  scheme w = inr e ->
  controller.createRegisterCR clusterAPI RegisterCR w
  = ((Some (fmt_Errorf_w "failed to generate Register CR: " e), RegisterCR), w).
Proof.
  intros Hs. unfold controller.createRegisterCR, controller.generateRegisterCR.
  erewrite bind_run by (erewrite bind_run by reflexivity; reflexivity).
  rewrite Hs. unfold controllerutil.SetOwnerReference.
  rewrite validateOwner_same_namespace by reflexivity. reflexivity.
Qed.

(** When the scheme does not know the cluster type, a first reconciliation
    answers the error of the scheme, wrapped, after its two reads: no
    record is created. *)
Theorem Reconcile_unknown_scheme req clusterAPI e w :
  faults w = [] ->
  clusters w !! req = Some clusterAPI ->
  registers w !! req = None ->
  scheme w = inr e ->
  controller.Reconcile req w
  = (Some (fmt_Errorf_w "failed to generate Register CR: " e),
     record (GetRegister req) (record (GetCluster req) w)).
Proof.
  intros Hq Hc Hr Hs. unfold controller.Reconcile.
  erewrite bind_run by (by apply run_Get_Cluster). rewrite Hc. cbv beta iota.
  unfold controller.reconcileRegister.
  erewrite bind_run by (apply run_Get_Register; quiet).
  cbn [registers record]. rewrite Hr. cbv beta iota. cbn [NotFound NewNotFound negb].
  erewrite bind_run by (by apply (run_createRegisterCR_unknown _ _ e)).
  reflexivity.
Qed.

Definition world_unknown_scheme : World :=
  {| clusters := {[ key_test := cluster_Host_80 ]};
     registers := ∅;
     secrets := ∅;
     environ := ∅;
     now := 1000;
     scheme := inr (errors_New "no kind is registered for the type v1beta1.Cluster");
     clientcmd_Load := fun _ => None;
     http_NewRequest := fun _ _ => None;
     roundTrip := fun _ _ => inl (http.mkResponse 200 "200 OK");
     faults := [];
     trace := [] |}.

Lemma Reconcile_unknown_scheme_witness :
  registers (controller.Reconcile key_test world_unknown_scheme).2 = ∅.
Proof.
  rewrite (Reconcile_unknown_scheme key_test cluster_Host_80
             (errors_New "no kind is registered for the type v1beta1.Cluster")
             world_unknown_scheme); reflexivity.
Defined.

(** ** Building the API manager *)

(** NewAPIManagerWithCluster reads the ArgoCD secret once, under the key the
    environment names (or the default one), and writes nothing.  On every
    outcome the manager carries the name, host:port and kubeconfig it was
    given and the endpoint of the environment (or the default one).  No
    error means the token is the decoding of the "admin.password" field of
    that secret; an error leaves the token empty.  When the read takes its
    natural course: a token that resolves is set without error, a missing
    secret gives the wrapped NotFound error, a missing field gives
    "admin.password not found in secret", and a field that is not base64
    gives the error of the decoder. *)
Theorem NewAPIManagerWithCluster_outcomes clusterAPI kubeConfig w :
  let a := (argocd.NewAPIManagerWithCluster clusterAPI kubeConfig w).1.1 in
  let err := (argocd.NewAPIManagerWithCluster clusterAPI kubeConfig w).1.2 in
  let w' := (argocd.NewAPIManagerWithCluster clusterAPI kubeConfig w).2 in
  a = managerOf w clusterAPI kubeConfig (Token a)
  /\ trace w' = trace w ++ [GetSecret (argocdSecretKey w)]
  /\ registers w' = registers w
  /\ (err = None -> tokenResolves w (Token a))
  /\ (err <> None -> Token a = "")
  /\ (next_call_natural w ->
      (forall token, tokenResolves w token -> err = None /\ Token a = token)
      /\ (secrets w !! argocdSecretKey w = None ->
          err = Some (fmt_Errorf_w "error fetching secret: "
                        (NewNotFound "secrets" (argocdSecretKey w))))
      /\ (forall secret,
            secrets w !! argocdSecretKey w = Some secret ->
            corev1.Data secret !! "admin.password" = None ->
            err = Some (errors_New "admin.password not found in secret"))
      /\ (forall secret tokenBase64 e,
            secrets w !! argocdSecretKey w = Some secret ->
            corev1.Data secret !! "admin.password" = Some tokenBase64 ->
            base64.StdEncoding_DecodeString (string_of_bytes tokenBase64) = inr e ->
            err = Some e)).
Proof.
  intros a err w'. subst a err w'.
  unfold argocd.NewAPIManagerWithCluster, argocd.setBareToken.
  do 3 (erewrite bind_run by apply run_LookupEnv_or). fold (argocdSecretKey w).
  unfold bind, client.Get_Secret, api, client.lookup_or_NotFound, ret.
  cbn [faults record].
  assert (Hnat : forall e fs, faults w = Some e :: fs -> ~ next_call_natural w).
  { intros e fs Hf. unfold next_call_natural. rewrite Hf. by intros []. }
  destruct (faults w) as [|[e0|] fs] eqn:Hf; cbn [secrets set_faults record].
  2: { cbn [fst snd trace registers record set_faults argocd.withToken Token].
       do 5 (split; [done|]). intros Hn. by destruct (Hnat _ _ eq_refl). }
  all: clear Hnat.
  all: destruct (secrets w !! argocdSecretKey w) as [secret|] eqn:Hs;
      [destruct (corev1.Data secret !! "admin.password") as [tb|] eqn:Hk;
       [destruct (base64.StdEncoding_DecodeString (string_of_bytes tb)) as [d|e] eqn:Hd|]|];
      cbn [fst snd trace registers record set_faults argocd.withToken Token].
  all: (split; [reflexivity|]); (split; [reflexivity|]); (split; [reflexivity|]).
  all: split; [first [done | intros _; by exists secret, tb, d]|].
  all: split; [done|].
  all: intros _; split; [|split; [|split]].
  all: try done; try congruence.
  all: try (intros token (s' & tb' & d' & H1 & H2 & H3 & ->); split; congruence).
  all: try (intros s' tb' e' ? ? ?; congruence).
  all: try (intros s' ? ?; congruence).
Qed.

Lemma NewAPIManagerWithCluster_outcomes_witness :
  Endpoint (argocd.NewAPIManagerWithCluster cluster_Host_80 [] world_token_test).1.1
  = "https://argocd-api.example.com"
  /\ Token (argocd.NewAPIManagerWithCluster cluster_Host_80 [] world_token_test).1.1
     = "token-test".
Proof.
  destruct (NewAPIManagerWithCluster_outcomes cluster_Host_80 [] world_token_test)
    as (Ha & _ & _ & _ & _ & Hnatural).
  destruct (Hnatural I) as (Hresolved & _).
  destruct (Hresolved "token-test") as [_ Htoken].
  - exists secret_token_test, (bytes_of_string "dG9rZW4tdGVzdA=="),
      (bytes_of_string "token-test").
    repeat split; vm_compute; reflexivity.
  - split; [rewrite Ha; reflexivity | exact Htoken].
Defined.

(** ** Registering a cluster *)

(** RegisterCluster changes nothing but the trace: the stored objects and
    the schedule are as before.  It sends at most one request, the POST of
    the manager, and sends it exactly when the kubeconfig loads and the
    request can be built.  It answers nil exactly when, besides, a response
    arrives with status code 200.  A kubeconfig that does not load, a
    request that cannot be built and a request that cannot be sent each
    give their error, wrapped. *)
Theorem RegisterCluster_outcomes a w :
  let url := Endpoint a +:+ "/api/v1/clusters" in
  let res := (argocd.RegisterCluster a w).1 in
  let w' := (argocd.RegisterCluster a w).2 in
  (exists calls,
     w' = set_trace w (trace w ++ RegisterClusterCall a :: calls)
     /\ (calls = [] \/ calls = [Do argocd.registerClient (argocd.registerRequest a)])
     /\ (calls = [] <-> clientcmd_Load w (KubeConfig a) <> None
                        \/ http_NewRequest w "POST" url <> None))
  /\ (res = None <->
      clientcmd_Load w (KubeConfig a) = None
      /\ http_NewRequest w "POST" url = None
      /\ exists resp, roundTrip w argocd.registerClient (argocd.registerRequest a) = inl resp
                      /\ http.StatusCode resp = 200)
  /\ (forall err, clientcmd_Load w (KubeConfig a) = Some err ->
        res = Some (fmt_Errorf_w "error loading kubeconfig: " err))
  /\ (forall err, clientcmd_Load w (KubeConfig a) = None ->
        http_NewRequest w "POST" url = Some err ->
        res = Some (fmt_Errorf_w "error creating request: " err))
  /\ (forall err, clientcmd_Load w (KubeConfig a) = None ->
        http_NewRequest w "POST" url = None ->
        roundTrip w argocd.registerClient (argocd.registerRequest a) = inr err ->
        res = Some (fmt_Errorf_w "error sending request: " err)).
Proof.
  intros url res w'. subst url res w'.
  unfold argocd.RegisterCluster, argocd.ValidateKubeConfigForClusterAPI,
    argocd.Client_Do, bind, call, get, ret.
  change (clientcmd_Load (record (RegisterClusterCall a) w)) with (clientcmd_Load w).
  destruct (clientcmd_Load w (KubeConfig a)) as [e1|] eqn:Hload.
  { cbn [fst snd]. split; [exists []; split; [reflexivity|]; split; [by left|]|].
    - split; [intros _; by left | done].
    - split; [split; [done | by intros (? & _)]|]. split; [by intros err [= <-]|].
      split; done. }
  change (http_NewRequest (record (RegisterClusterCall a) w)) with (http_NewRequest w).
  destruct (http_NewRequest w "POST" (Endpoint a +:+ "/api/v1/clusters")) as [e2|] eqn:Hurl.
  { cbn [fst snd]. split; [exists []; split; [reflexivity|]; split; [by left|]|].
    - split; [intros _; by right | done].
    - split; [split; [done | by intros (_ & ? & _)]|]. split; [done|].
      split; [by intros err _ [= <-] | done]. }
  assert (Hsent :
    exists calls,
      record (Do argocd.registerClient (argocd.registerRequest a))
        (record (RegisterClusterCall a) w)
      = set_trace w (trace w ++ RegisterClusterCall a :: calls)
      /\ (calls = [] \/ calls = [Do argocd.registerClient (argocd.registerRequest a)])
      /\ (calls = [] <-> @None error <> None \/ @None error <> None)).
  { exists [Do argocd.registerClient (argocd.registerRequest a)].
    split; [|split; [by right|]].
    - unfold record, set_trace. cbn. by rewrite <- app_assoc.
    - split; [done | by intros [|]]. }
  change (roundTrip (record (RegisterClusterCall a) w)) with (roundTrip w).
  destruct (roundTrip w argocd.registerClient (argocd.registerRequest a))
    as [resp|e3] eqn:Hresp.
  - unfold http.StatusOK.
    destruct (Z.eqb_spec (http.StatusCode resp) 200) as [Hcode|Hcode]; cbn [negb fst snd].
    + split; [exact Hsent|]. split; [|by repeat split].
      split; [intros _; repeat split; by exists resp | done].
    + split; [exact Hsent|]. split; [|by repeat split].
      split; [done | intros (_ & _ & resp' & [= <-] & Hok); by destruct Hcode].
  - cbn [fst snd]. split; [exact Hsent|]. split.
    + split; [done | by intros (_ & _ & resp' & ? & _)].
    + split; [done|]. split; [done|]. by intros err _ _ [= <-].
Qed.

Lemma RegisterCluster_outcomes_witness :
  (argocd.RegisterCluster manager_test (world_answering 200 "200 OK")).1 = None.
Proof.
  destruct (RegisterCluster_outcomes manager_test (world_answering 200 "200 OK"))
    as (_ & [_ Hok] & _).
  apply Hok. split; [reflexivity|]. split; [reflexivity|].
  exists (http.mkResponse 200 "200 OK"). split; reflexivity.
Defined.

(** ** Whole reconciliations, the API-server calls taking their natural course *)

Lemma withStatus_Status (r : argocdv1beta1.Register) :
  argocdv1beta1.withStatus r (argocdv1beta1.Status r) = r.
Proof. by destruct r. Qed.

Lemma world_ext w1 w2 :
  clusters w1 = clusters w2 -> registers w1 = registers w2 -> secrets w1 = secrets w2 ->
  environ w1 = environ w2 -> now w1 = now w2 -> scheme w1 = scheme w2 ->
  clientcmd_Load w1 = clientcmd_Load w2 -> http_NewRequest w1 = http_NewRequest w2 ->
  roundTrip w1 = roundTrip w2 -> faults w1 = faults w2 -> trace w1 = trace w2 ->
  w1 = w2.
Proof. destruct w1, w2. simpl. by intros -> -> -> -> -> -> -> -> -> -> ->. Qed.

(** Two worlds built by the same writes and the same calls. *)
Ltac same_world :=
  apply world_ext;
  cbn [clusters registers secrets environ now scheme clientcmd_Load http_NewRequest
       roundTrip faults trace record set_registers set_trace set_faults];
  try reflexivity.

(** From [Reconcile] to "Gathering the data" (line 156), for a record that is
    stored and either has its cluster stored or is marked. *)
Lemma run_Reconcile_stored w r :
  faults w = [] ->
  registers w !! argocdv1beta1.key r = Some r ->
  is_Some (clusters w !! argocdv1beta1.key r)
  \/ is_Some (argocdv1beta1.GetDeletionTimestamp r) ->
  controller.Reconcile (argocdv1beta1.key r) w
  = controller.reconcileWithManager (argocdv1beta1.key r)
      (clusterOf w (argocdv1beta1.key r)) r
      (set_trace w (trace w ++ lookupCalls w (argocdv1beta1.key r)
                      ++ [GetRegister (argocdv1beta1.key r)])).
Proof.
  intros Hq Hr Hs. unfold controller.Reconcile, lookupCalls, clusterOf.
  erewrite bind_run by (by apply run_Get_Cluster).
  destruct (clusters w !! argocdv1beta1.key r) as [c|] eqn:Hc; cbv beta iota.
  - unfold controller.reconcileRegister.
    erewrite bind_run by (apply run_Get_Register_found; quiet). cbv beta iota.
    f_equal. same_world. by rewrite <- !app_assoc.
  - destruct Hs as [[? [=]]|[t Ht]].
    cbn [NotFound NewNotFound negb].
    erewrite bind_run by (apply run_Get_Register_found; quiet). cbv beta iota.
    rewrite (isMarkedToBeDeleted_Some _ _ Ht). cbn [negb].
    unfold controller.reconcileRegister.
    erewrite bind_run by (apply run_Get_Register_found; quiet). cbv beta iota.
    f_equal. same_world. by rewrite <- !app_assoc.
Qed.

(** The kubeconfig of [req] cannot be gathered, and the error that says so. *)
Definition kubeconfigMissing (req : NamespacedName) (w : World) : Prop :=
  forall secret, secrets w !! req = Some secret ->
                 corev1.Data secret !! "kubeconfig" = None.

Definition kubeconfigError (req : NamespacedName) (w : World) : error :=
  match secrets w !! req with
  | None => NewNotFound "secrets" req
  | Some _ => errors_New "kubeconfig not found in secret"
  end.

Definition kubeconfigCondition (err : error) : metav1.Condition :=
  condition status.ConditionDegraded metav1.ConditionTrue "Error"
    ("Unable to gathering kubeConfig: " +:+ Error err).

Lemma run_getClusterKubeConfigFromSecret_missing req w :
  faults w = [] -> kubeconfigMissing req w ->
  controller.getClusterKubeConfigFromSecret req w
  = (inr (kubeconfigError req w), record (GetSecret req) w).
Proof.
  intros Hq Hmiss. unfold controller.getClusterKubeConfigFromSecret, kubeconfigError.
  erewrite bind_run by by apply run_Get_Secret.
  destruct (secrets w !! req) as [secret|] eqn:Hs; [|done].
  by rewrite (Hmiss _ Hs).
Qed.

Lemma run_reconcileWithManager_missing w r clusterAPI :
  faults w = [] ->
  registers w !! argocdv1beta1.key r = Some r ->
  kubeconfigMissing (argocdv1beta1.key r) w ->
  let req := argocdv1beta1.key r in
  let degraded :=
    withConditions r
      (meta.SetStatusCondition (now w) (argocdv1beta1.Conditions (argocdv1beta1.Status r))
         (kubeconfigCondition (kubeconfigError req w))) in
  controller.reconcileWithManager req clusterAPI r w
  = (Some (kubeconfigError req w),
     set_registers
       (set_trace w (trace w ++ [GetSecret req; GetRegister req; StatusUpdate degraded]))
       (<[req := degraded]> (registers w))).
Proof.
  intros Hq Hr Hmiss req degraded. subst req degraded.
  unfold controller.reconcileWithManager, controller.handleIntegrationWithArgoCDAPI.
  erewrite bind_run.
  2: { erewrite bind_run by (by apply run_getClusterKubeConfigFromSecret_missing).
       cbv beta iota.
       erewrite bind_run by (apply run_Get_Register_found; quiet). cbv beta iota.
       erewrite bind_run by reflexivity.
       erewrite bind_run by (apply (run_Status_Update _ r); quiet). cbv beta iota.
       reflexivity. }
  cbv beta iota. unfold ret. f_equal. same_world.
  by rewrite <- !app_assoc.
Qed.

(** When the kubeconfig of the key cannot be gathered (its secret is
    missing, or lacks the "kubeconfig" field), a reconciliation of a stored
    record whose cluster is stored, or that is marked for deletion, answers
    the error of the lookup, reports it in a Degraded condition with reason
    "Error", and does nothing else: after its reads and that one status
    update, no API manager is built and nothing is registered or
    unregistered. *)
Theorem Reconcile_without_kubeconfig w r :
  faults w = [] ->
  registers w !! argocdv1beta1.key r = Some r ->
  is_Some (clusters w !! argocdv1beta1.key r)
  \/ is_Some (argocdv1beta1.GetDeletionTimestamp r) ->
  kubeconfigMissing (argocdv1beta1.key r) w ->
  let req := argocdv1beta1.key r in
  let err := kubeconfigError req w in
  let degraded :=
    withConditions r
      (meta.SetStatusCondition (now w) (argocdv1beta1.Conditions (argocdv1beta1.Status r))
         (condition status.ConditionDegraded metav1.ConditionTrue "Error"
            ("Unable to gathering kubeConfig: " +:+ Error err))) in
  (controller.Reconcile req w).1 = Some err
  /\ registers (controller.Reconcile req w).2 = <[req := degraded]> (registers w)
  /\ trace (controller.Reconcile req w).2
     = trace w ++ lookupCalls w req
         ++ [GetRegister req; GetSecret req; GetRegister req; StatusUpdate degraded]
  /\ (exists i c,
        meta.FindStatusCondition
          (argocdv1beta1.Conditions (argocdv1beta1.Status degraded))
          status.ConditionDegraded = Some (i, c)
        /\ metav1.Status c = metav1.ConditionTrue
        /\ metav1.Reason c = "Error"
        /\ metav1.Message c = "Unable to gathering kubeConfig: " +:+ Error err).
Proof.
  intros Hq Hr Hs Hmiss req err degraded. subst req err degraded.
  rewrite (run_Reconcile_stored w r Hq Hr Hs).
  rewrite run_reconcileWithManager_missing by (try exact Hmiss; quiet).
  cbv zeta. cbn [fst snd registers trace set_registers set_trace secrets now].
  split; [reflexivity|]. split; [reflexivity|]. split.
  - unfold kubeconfigError. cbn [secrets set_trace]. by rewrite <- !app_assoc.
  - destruct (FindStatusCondition_SetStatusCondition (now w)
                (argocdv1beta1.Conditions (argocdv1beta1.Status r))
                (kubeconfigCondition (kubeconfigError (argocdv1beta1.key r) w)))
      as (i & c & Hf & Hst & Hre & Hm).
    by exists i, c.
Qed.

(** The record of the unit test, marked and carrying the finalizer, when
    the kubeconfig secret of its key is gone. *)
Lemma Reconcile_without_kubeconfig_witness :
  (controller.Reconcile key_test world_finalizer_without_kubeconfig).1
  = Some (NewNotFound "secrets" key_test).
Proof.
  destruct (Reconcile_without_kubeconfig world_finalizer_without_kubeconfig
              (register_test (Some 500) [controller.registerCRFinalizer]))
    as (Hres & _).
  - reflexivity.
  - vm_compute. reflexivity.
  - right. by eexists.
  - intros secret. vm_compute. discriminate.
  - exact Hres.
Defined.

(** The record a successful registration leaves, and the calls of the
    Active state from "Gathering the data" on. *)
Definition registered (w : World) (r : argocdv1beta1.Register) : argocdv1beta1.Register :=
  withConditions r
    (meta.SetStatusCondition (now w) (argocdv1beta1.Conditions (argocdv1beta1.Status r))
       availableCondition).

Definition activeCalls (w : World) (r : argocdv1beta1.Register) (a : APIManager) : list Call :=
  [GetSecret (argocdv1beta1.key r);
   GetSecret (argocdSecretKey w);
   IsClusterRegisteredCall a;
   GetRegister (argocdv1beta1.key r);
   RegisterClusterCall a;
   Do argocd.registerClient (argocd.registerRequest a);
   StatusUpdate (registered w r)].

(** The endpoint of [a] accepts its registration. *)
Definition accepts (w : World) (a : APIManager) : Prop :=
  clientcmd_Load w (KubeConfig a) = None
  /\ http_NewRequest w "POST" (Endpoint a +:+ "/api/v1/clusters") = None
  /\ exists resp,
       roundTrip w argocd.registerClient (argocd.registerRequest a) = inl resp
       /\ http.StatusCode resp = 200.

Lemma run_reconcileWithManager_active w r clusterAPI kubeconfig token :
  faults w = [] ->
  registers w !! argocdv1beta1.key r = Some r ->
  argocdv1beta1.GetDeletionTimestamp r = None ->
  kubeconfigAt (argocdv1beta1.key r) w kubeconfig ->
  tokenResolves w token ->
  let a := managerOf w clusterAPI kubeconfig token in
  accepts w a ->
  controller.reconcileWithManager (argocdv1beta1.key r) clusterAPI r w
  = (None,
     set_registers (set_trace w (trace w ++ activeCalls w r a))
       (<[argocdv1beta1.key r := registered w r]> (registers w))).
Proof.
  intros Hq Hr Hts Hk Htok a (Hload & Hurl & resp & Hresp & Hcode). subst a.
  unfold controller.reconcileWithManager.
  erewrite bind_run
    by (apply (run_handleIntegrationWithArgoCDAPI _ _ _ _ kubeconfig token); by quiet).
  cbv beta iota. rewrite (isMarkedToBeDeleted_None _ Hts).
  erewrite bind_run.
  2: { unfold controller.handleClusterRegistration.
       erewrite bind_run by reflexivity. cbv beta iota zeta. cbn [fst snd negb].
       erewrite bind_run by (apply run_Get_Register_found; quiet). cbv beta iota.
       erewrite bind_run by (by apply (run_RegisterCluster_response _ _ resp)).
       unfold http.StatusOK. rewrite Hcode. cbn [Z.eqb Pos.eqb negb].
       erewrite bind_run by reflexivity.
       erewrite bind_run by (apply (run_Status_Update _ r); quiet). cbv beta iota.
       reflexivity. }
  cbn [fst]. unfold ret. f_equal.
  same_world. unfold activeCalls. by rewrite <- !app_assoc.
Qed.

(** [SetStatusCondition] leaves the conditions of the other types where and
    as they are. *)
Lemma FindStatusCondition_insert_other conditions t i e e' :
  conditions !! i = Some e -> metav1.Type_ e <> t -> metav1.Type_ e' <> t ->
  meta.FindStatusCondition (<[i := e']> conditions) t
  = meta.FindStatusCondition conditions t.
Proof.
  revert i. induction conditions as [|c rest IH]; intros i; [done|].
  destruct i as [|i]; simpl.
  - intros [= ->] He He'.
    destruct (String.eqb_spec (metav1.Type_ e') t) as [|_]; [done|].
    by destruct (String.eqb_spec (metav1.Type_ e) t).
  - intros Hi He He'. by rewrite (IH i).
Qed.

Lemma FindStatusCondition_snoc_other conditions t e :
  metav1.Type_ e <> t ->
  meta.FindStatusCondition (conditions ++ [e]) t = meta.FindStatusCondition conditions t.
Proof.
  intros He. induction conditions as [|c rest IH]; simpl.
  - by destruct (String.eqb_spec (metav1.Type_ e) t).
  - by rewrite IH.
Qed.

Lemma FindStatusCondition_SetStatusCondition_other now conditions c t :
  metav1.Type_ c <> t ->
  meta.FindStatusCondition (meta.SetStatusCondition now conditions c) t
  = meta.FindStatusCondition conditions t.
Proof.
  intros Hne. unfold meta.SetStatusCondition.
  destruct (meta.FindStatusCondition conditions (metav1.Type_ c)) as [[i e]|] eqn:Hf.
  - apply FindStatusCondition_Some in Hf as [Hi Ht].
    apply (FindStatusCondition_insert_other _ _ _ e); [done | by rewrite Ht |].
    by rewrite Type_updateExisting, Ht.
  - apply FindStatusCondition_snoc_other. by rewrite Type_stampNew.
Qed.

(** Setting a condition a second time changes nothing, whatever the time. *)
Lemma SetStatusCondition_again now now' conditions c :
  meta.SetStatusCondition now' (meta.SetStatusCondition now conditions c) c
  = meta.SetStatusCondition now conditions c.
Proof.
  assert (Hfound : exists i c',
    meta.FindStatusCondition (meta.SetStatusCondition now conditions c) (metav1.Type_ c)
    = Some (i, c')
    /\ metav1.Status c' = metav1.Status c /\ metav1.Reason c' = metav1.Reason c
    /\ metav1.Message c' = metav1.Message c
    /\ metav1.ObservedGeneration c' = metav1.ObservedGeneration c).
  { unfold meta.SetStatusCondition.
    destruct (meta.FindStatusCondition conditions (metav1.Type_ c)) as [[i e]|] eqn:Hf.
    - exists i, (meta.updateExisting now e c). split.
      + apply (FindStatusCondition_insert _ _ _ e); [done|].
        by apply FindStatusCondition_Some in Hf as [_ Ht].
      + unfold meta.updateExisting. simpl.
        destruct (decide (metav1.Status e = metav1.Status c)) as [Heq|Hne].
        * by rewrite bool_decide_eq_true_2.
        * by rewrite bool_decide_eq_false_2.
    - exists (length conditions), (meta.stampNew now c). split.
      + apply FindStatusCondition_snoc; [done | apply Type_stampNew].
      + unfold meta.stampNew. by destruct (metav1.Time_IsZero _). }
  destruct Hfound as (i & c' & Hf & Hs & Hr & Hm & Ho).
  by apply (SetStatusCondition_same _ _ _ i c').
Qed.

Lemma run_Reconcile_active w r clusterAPI kubeconfig token :
  faults w = [] ->
  clusters w !! argocdv1beta1.key r = Some clusterAPI ->
  registers w !! argocdv1beta1.key r = Some r ->
  argocdv1beta1.GetDeletionTimestamp r = None ->
  kubeconfigAt (argocdv1beta1.key r) w kubeconfig ->
  tokenResolves w token ->
  let req := argocdv1beta1.key r in
  let a := managerOf w clusterAPI kubeconfig token in
  accepts w a ->
  controller.Reconcile req w
  = (None,
     set_registers
       (set_trace w (trace w ++ [GetCluster req; GetRegister req] ++ activeCalls w r a))
       (<[req := registered w r]> (registers w))).
Proof.
  intros Hq Hc Hr Hts Hk Htok req a Hacc. subst req a.
  rewrite (run_Reconcile_stored w r Hq Hr) by (left; by eexists).
  unfold clusterOf, lookupCalls. rewrite Hc. cbn [default from_option id].
  erewrite (run_reconcileWithManager_active _ r clusterAPI kubeconfig token);
    [| quiet | quiet | exact Hts | exact Hk | exact Htok | exact Hacc].
  f_equal. same_world. unfold activeCalls. by rewrite <- !app_assoc.
Qed.

(** The Active state, the endpoint accepting the registration: the cluster
    and its unmarked record are stored, the kubeconfig is gathered and the
    token resolves.  Reconcile answers nil after exactly these calls, among
    them one POST, whose body carries host:port and the name of the cluster,
    the kubeconfig bytes of the secret and the resolved token.  The record
    is stored with its metadata and spec unchanged and Available = True,
    reason "Reconciling"; the conditions of the other types are as they
    were. *)
Theorem Reconcile_active_registers w r clusterAPI kubeconfig token :
  faults w = [] ->
  clusters w !! argocdv1beta1.key r = Some clusterAPI ->
  registers w !! argocdv1beta1.key r = Some r ->
  argocdv1beta1.GetDeletionTimestamp r = None ->
  kubeconfigAt (argocdv1beta1.key r) w kubeconfig ->
  tokenResolves w token ->
  let req := argocdv1beta1.key r in
  let a := managerOf w clusterAPI kubeconfig token in
  accepts w a ->
  let w' := (controller.Reconcile req w).2 in
  let endpoint := clusterapiv1.ControlPlaneEndpoint (clusterapiv1.Spec clusterAPI) in
  let body := http.Body (argocd.registerRequest a) in
  (controller.Reconcile req w).1 = None
  /\ trace w'
     = trace w ++ [GetCluster req; GetRegister req; GetSecret req;
                   GetSecret (argocdSecretKey w); IsClusterRegisteredCall a;
                   GetRegister req; RegisterClusterCall a;
                   Do argocd.registerClient (argocd.registerRequest a);
                   StatusUpdate (registered w r)]
  /\ http.field "server" body
     = Some (http.JString (clusterapiv1.Host endpoint +:+ ":"
                             +:+ strconv_Itoa (clusterapiv1.Port endpoint)))
  /\ http.field "name" body
     = Some (http.JString (metav1.Name (clusterapiv1.ObjectMeta clusterAPI)))
  /\ http.field "kubeconfig" body = Some (http.JBytes kubeconfig)
  /\ (http.field "config" body ≫= http.field "bearerToken") = Some (http.JString token)
  /\ registers w' = <[req := registered w r]> (registers w)
  /\ argocdv1beta1.ObjectMeta (registered w r) = argocdv1beta1.ObjectMeta r
  /\ argocdv1beta1.Spec (registered w r) = argocdv1beta1.Spec r
  /\ (exists i c,
        meta.FindStatusCondition
          (argocdv1beta1.Conditions (argocdv1beta1.Status (registered w r)))
          status.ConditionAvailable = Some (i, c)
        /\ metav1.Status c = metav1.ConditionTrue
        /\ metav1.Reason c = "Reconciling"
        /\ metav1.Message c = "Cluster is Registered")
  /\ (forall t, t <> status.ConditionAvailable ->
        meta.FindStatusCondition
          (argocdv1beta1.Conditions (argocdv1beta1.Status (registered w r))) t
        = meta.FindStatusCondition
            (argocdv1beta1.Conditions (argocdv1beta1.Status r)) t).
Proof.
  intros Hq Hc Hr Hts Hk Htok req a Hacc w' endpoint body. subst w' endpoint body req a.
  rewrite (run_Reconcile_active w r clusterAPI kubeconfig token Hq Hc Hr Hts Hk Htok Hacc).
  cbn [fst snd trace registers set_trace set_registers].
  split; [reflexivity|]. split; [reflexivity|].
  do 7 (split; [reflexivity|]). split.
  - destruct (FindStatusCondition_SetStatusCondition (now w)
                (argocdv1beta1.Conditions (argocdv1beta1.Status r)) availableCondition)
      as (i & c & Hf & Hst & Hre & Hm).
    by exists i, c.
  - intros t Ht. apply FindStatusCondition_SetStatusCondition_other.
    intros Heq. by apply Ht.
Qed.

(** The Active state of the unit test, the endpoint answering 200. *)
Lemma Reconcile_active_registers_witness :
  (controller.Reconcile key_test (world_active (http.mkResponse 200 "200 OK"))).1 = None
  /\ registers (controller.Reconcile key_test (world_active (http.mkResponse 200 "200 OK"))).2
     = {[ key_test :=
            withConditions (register_test None [])
              [metav1.mkCondition "Available" metav1.ConditionTrue 0 1000 "Reconciling"
                 "Cluster is Registered"] ]}.
Proof.
  destruct (Reconcile_active_registers (world_active (http.mkResponse 200 "200 OK"))
              (register_test None []) cluster_Host_80
              (bytes_of_string "apiVersion: v1") "token-test")
    as (Hres & _ & _ & _ & _ & _ & Hregs & _).
  - reflexivity.
  - vm_compute. reflexivity.
  - vm_compute. reflexivity.
  - reflexivity.
  - exists secret_kubeconfig. split; vm_compute; reflexivity.
  - exists secret_token_test, (bytes_of_string "dG9rZW4tdGVzdA=="),
      (bytes_of_string "token-test").
    repeat split; vm_compute; reflexivity.
  - split; [reflexivity|]. split; [reflexivity|].
    exists (http.mkResponse 200 "200 OK"). split; reflexivity.
  - split; [exact Hres|].
    etransitivity; [exact Hregs | apply insert_insert_eq].
Defined.

(** Reconciling the Active state again, at any later time, sends the
    registration again and leaves every stored record as the first
    reconciliation left it. *)
Theorem Reconcile_active_again w r clusterAPI kubeconfig token later :
  faults w = [] ->
  clusters w !! argocdv1beta1.key r = Some clusterAPI ->
  registers w !! argocdv1beta1.key r = Some r ->
  argocdv1beta1.GetDeletionTimestamp r = None ->
  kubeconfigAt (argocdv1beta1.key r) w kubeconfig ->
  tokenResolves w token ->
  let req := argocdv1beta1.key r in
  let a := managerOf w clusterAPI kubeconfig token in
  accepts w a ->
  let w1 := set_now (controller.Reconcile req w).2 later in
  (controller.Reconcile req w1).1 = None
  /\ registers (controller.Reconcile req w1).2 = registers w1
  /\ trace (controller.Reconcile req w1).2
     = trace w1 ++ [GetCluster req; GetRegister req; GetSecret req;
                    GetSecret (argocdSecretKey w); IsClusterRegisteredCall a;
                    GetRegister req; RegisterClusterCall a;
                    Do argocd.registerClient (argocd.registerRequest a);
                    StatusUpdate (registered w r)].
Proof.
  intros Hq Hc Hr Hts Hk Htok req a Hacc w1. subst w1 req a.
  rewrite (run_Reconcile_active w r clusterAPI kubeconfig token Hq Hc Hr Hts Hk Htok Hacc).
  cbn [snd].
  match goal with
  | |- context [controller.Reconcile _ ?w1] =>
      pose proof (run_Reconcile_active w1 (registered w r) clusterAPI kubeconfig token)
        as Hagain
  end.
  cbv zeta in Hagain.
  change (argocdv1beta1.key (registered w r)) with (argocdv1beta1.key r) in Hagain.
  rewrite Hagain; clear Hagain.
  - assert (Hsame : forall w1, registered w1 (registered w r) = registered w r).
    { intros w1. unfold registered at 1.
      change (argocdv1beta1.Conditions (argocdv1beta1.Status (registered w r)))
        with (meta.SetStatusCondition (now w)
                (argocdv1beta1.Conditions (argocdv1beta1.Status r)) availableCondition).
      rewrite SetStatusCondition_again. reflexivity. }
    unfold activeCalls. rewrite !Hsame.
    cbn [fst snd trace registers set_trace set_registers set_now].
    split; [reflexivity|]. split; [by rewrite insert_insert_eq | reflexivity].
  - exact Hq.
  - exact Hc.
  - cbn [registers set_now set_registers]. apply lookup_insert_eq.
  - exact Hts.
  - exact Hk.
  - exact Htok.
  - exact Hacc.
Qed.

Lemma Reconcile_active_again_witness :
  registers
    (controller.Reconcile (argocdv1beta1.key (register_test None []))
       (set_now (controller.Reconcile (argocdv1beta1.key (register_test None []))
                   (world_active (http.mkResponse 200 "200 OK"))).2 2000)).2
  = registers
      (set_now (controller.Reconcile (argocdv1beta1.key (register_test None []))
                  (world_active (http.mkResponse 200 "200 OK"))).2 2000).
Proof.
  destruct (Reconcile_active_again (world_active (http.mkResponse 200 "200 OK"))
              (register_test None []) cluster_Host_80
              (bytes_of_string "apiVersion: v1") "token-test" 2000)
    as (_ & Hregs & _).
  - reflexivity.
  - vm_compute. reflexivity.
  - vm_compute. reflexivity.
  - reflexivity.
  - exists secret_kubeconfig. split; vm_compute; reflexivity.
  - exists secret_token_test, (bytes_of_string "dG9rZW4tdGVzdA=="),
      (bytes_of_string "token-test").
    repeat split; vm_compute; reflexivity.
  - split; [reflexivity|]. split; [reflexivity|].
    exists (http.mkResponse 200 "200 OK"). split; reflexivity.
  - exact Hregs.
Defined.

(** The record [generateRegisterCR] builds for a cluster the scheme knows. *)
Definition generated (apiVersion kind : string) (clusterAPI : clusterapiv1.Cluster)
  : argocdv1beta1.Register :=
  argocdv1beta1.mkRegister
    (metav1.mkObjectMeta
       (metav1.Name (clusterapiv1.ObjectMeta clusterAPI))
       (metav1.Namespace (clusterapiv1.ObjectMeta clusterAPI))
       "" None []
       [metav1.mkOwnerReference apiVersion kind
          (metav1.Name (clusterapiv1.ObjectMeta clusterAPI))
          (metav1.UID (clusterapiv1.ObjectMeta clusterAPI))])
    (argocdv1beta1.mkRegisterSpec "") (argocdv1beta1.mkRegisterStatus []).

Lemma run_createRegisterCR w clusterAPI RegisterCR apiVersion kind :
  faults w = [] ->
  scheme w = inl (apiVersion, kind) ->
  registers w !! argocdv1beta1.key (generated apiVersion kind clusterAPI) = None ->
  exists RegisterCR',
    controller.createRegisterCR clusterAPI RegisterCR w
    = ((None, RegisterCR'),
       set_registers (record (Create (generated apiVersion kind clusterAPI)) w)
         (<[argocdv1beta1.key (generated apiVersion kind clusterAPI) :=
              generated apiVersion kind clusterAPI]> (registers w))).
Proof.
  intros Hq Hscheme Hnew.
  unfold controller.createRegisterCR, controller.generateRegisterCR.
  erewrite bind_run by (erewrite bind_run by reflexivity; reflexivity).
  rewrite Hscheme. unfold controllerutil.SetOwnerReference.
  rewrite validateOwner_same_namespace by reflexivity. cbv beta iota.
  erewrite bind_run by reflexivity.
  erewrite bind_run by (apply run_Create; [exact Hq | exact Hnew]).
  cbv beta iota. eexists. reflexivity.
Qed.

(** The first reconciliation of a cluster that has no record yet, the
    scheme knowing the cluster type and the endpoint accepting the
    registration: Reconcile answers nil; it creates exactly one record,
    named after the cluster, in its namespace, owned by it, without
    finalizer, and registers the cluster; the record ends with the one
    condition Available = True, stamped with the current time. *)
Theorem Reconcile_creates_and_registers w clusterAPI apiVersion kind kubeconfig token :
  let req := (metav1.Namespace (clusterapiv1.ObjectMeta clusterAPI),
              metav1.Name (clusterapiv1.ObjectMeta clusterAPI)) in
  let a := managerOf w clusterAPI kubeconfig token in
  let newRegister := generated apiVersion kind clusterAPI in
  faults w = [] ->
  clusters w !! req = Some clusterAPI ->
  registers w !! req = None ->
  scheme w = inl (apiVersion, kind) ->
  kubeconfigAt req w kubeconfig ->
  tokenResolves w token ->
  accepts w a ->
  (controller.Reconcile req w).1 = None
  /\ trace (controller.Reconcile req w).2
     = trace w ++ [GetCluster req; GetRegister req; Create newRegister; GetRegister req;
                   GetSecret req; GetSecret (argocdSecretKey w); IsClusterRegisteredCall a;
                   GetRegister req; RegisterClusterCall a;
                   Do argocd.registerClient (argocd.registerRequest a);
                   StatusUpdate (registered w newRegister)]
  /\ registers (controller.Reconcile req w).2
     = <[req := withConditions newRegister
                  [metav1.mkCondition "Available" metav1.ConditionTrue 0 (now w)
                     "Reconciling" "Cluster is Registered"]]> (registers w).
Proof.
  intros req a newRegister Hq Hc Hr Hscheme Hk Htok Hacc. subst req a newRegister.
  unfold controller.Reconcile.
  erewrite bind_run by (by apply run_Get_Cluster). rewrite Hc. cbv beta iota.
  unfold controller.reconcileRegister.
  erewrite bind_run by (apply run_Get_Register; quiet).
  cbn [registers record]. rewrite Hr. cbv beta iota. cbn [NotFound NewNotFound negb].
  destruct (run_createRegisterCR
              (record (GetRegister (metav1.Namespace (clusterapiv1.ObjectMeta clusterAPI),
                                    metav1.Name (clusterapiv1.ObjectMeta clusterAPI)))
                 (record (GetCluster (metav1.Namespace (clusterapiv1.ObjectMeta clusterAPI),
                                      metav1.Name (clusterapiv1.ObjectMeta clusterAPI))) w))
              clusterAPI argocdv1beta1.Register_zero apiVersion kind Hq Hscheme Hr)
    as [cr Hcreate].
  erewrite bind_run by exact Hcreate. cbv beta iota.
  erewrite bind_run by (apply run_Get_Register_found; quiet). cbv beta iota.
  match goal with
  | |- context [controller.reconcileWithManager ?k ?c ?r0 ?w0] =>
      replace (controller.reconcileWithManager k c r0 w0)
        with (@None error,
              set_registers
                (set_trace w0 (trace w0 ++ activeCalls w0 r0
                                 (managerOf w0 c kubeconfig token)))
                (<[argocdv1beta1.key r0 := registered w0 r0]> (registers w0)))
        by (symmetry;
            apply (run_reconcileWithManager_active w0 r0 c kubeconfig token);
            [ exact Hq
            | cbn [registers record set_registers]; apply lookup_insert_eq
            | reflexivity | exact Hk | exact Htok | exact Hacc ])
  end.
  cbn [fst snd trace registers record set_registers set_trace].
  split; [reflexivity|]. split.
  - unfold activeCalls. by rewrite <- !app_assoc.
  - apply insert_insert_eq.
Qed.

(** The first reconciliation of the cluster of the unit test. *)
Lemma Reconcile_creates_and_registers_witness :
  (controller.Reconcile key_test world_absent).1 = None.
Proof.
  destruct (Reconcile_creates_and_registers world_absent cluster_Host_80
              "cluster.x-k8s.io/v1beta1" "Cluster"
              (bytes_of_string "apiVersion: v1") "token-test")
    as (Hres & _).
  - reflexivity.
  - vm_compute. reflexivity.
  - vm_compute. reflexivity.
  - reflexivity.
  - exists secret_kubeconfig. split; vm_compute; reflexivity.
  - exists secret_token_test, (bytes_of_string "dG9rZW4tdGVzdA=="),
      (bytes_of_string "token-test").
    repeat split; vm_compute; reflexivity.
  - split; [reflexivity|]. split; [reflexivity|].
    exists (http.mkResponse 200 "200 OK"). split; reflexivity.
  - exact Hres.
Defined.



(** ** One condition per type, whatever the API server answers *)

(** A record with at most one condition per type, and a store of such
    records. *)
Definition tidy (r : argocdv1beta1.Register) : Prop :=
  meta.OnePerType (argocdv1beta1.Conditions (argocdv1beta1.Status r)).

Definition tidyStore (w : World) : Prop :=
  forall k r, registers w !! k = Some r -> tidy r.

Arguments tidy : simpl never.

Section Tidy.
Import argocdv1beta1.

Lemma tidyStore_faults w fs : tidyStore w -> tidyStore (set_faults w fs).
Proof. done. Qed.

Lemma tidyStore_record w (c : Call) : True -> tidyStore w -> tidyStore (record c w).
Proof. done. Qed.

Lemma tidyStore_insert w k r :
  tidyStore w -> tidy r -> tidyStore (set_registers w (<[k := r]> (registers w))).
Proof.
  intros Hw Hr k' r'. cbn [registers set_registers].
  destruct (decide (k = k')) as [<-|Hne].
  - rewrite lookup_insert_eq. by intros [= <-].
  - rewrite lookup_insert_ne by done. apply Hw.
Qed.

Lemma plain_calls (c : Call) : ~ finalizing c -> True.
Proof. done. Qed.

Lemma tidy_Get_Cluster k : safe tidyStore (client.Get_Cluster k) any.
Proof.
  apply safe_Get_Cluster with (okc := fun _ => True);
    auto using tidyStore_faults, tidyStore_record.
Qed.

Lemma tidy_Get_Secret k : safe tidyStore (client.Get_Secret k) any.
Proof.
  apply safe_Get_Secret with (okc := fun _ => True);
    auto using tidyStore_faults, tidyStore_record.
Qed.

Lemma tidy_Get_Register k : safe tidyStore (client.Get_Register k) (fetched tidy).
Proof.
  apply safe_Get_Register with (okc := fun _ => True);
    auto using tidyStore_faults, tidyStore_record.
  intros w r Hw Hr. by apply (Hw k).
Qed.

Lemma tidy_api {A : Type} c (natural : M (result A)) (post : result A -> Prop) :
  safe tidyStore natural post -> (forall err, post (inr err)) ->
  safe tidyStore (api c natural) post.
Proof.
  intros Hn Herr.
  apply safe_api with (okc := fun _ => True);
    auto using tidyStore_faults, tidyStore_record.
Qed.

(** [Create] stores no condition. *)
Lemma tidy_Create obj : safe tidyStore (client.Create_Register obj) any.
Proof.
  apply tidy_api; [|done].
  intros w Hw. destruct (registers w !! key obj) eqn:Hold; simpl; [done|].
  split; [|done]. apply tidyStore_insert; [done | apply OnePerType_nil].
Qed.

(** [Update] keeps the stored status. *)
Lemma tidy_Update obj : safe tidyStore (client.Update_Register obj) (fetched tidy).
Proof.
  apply tidy_api; [|done].
  intros w Hw. destruct (registers w !! key obj) as [old|] eqn:Hold; simpl; [|done].
  destruct (bool_decide _); simpl; [|done].
  assert (Hstored : tidy (withStatus obj (Status old))) by exact (Hw _ _ Hold).
  split; [by apply tidyStore_insert | done].
Qed.

(** [Status().Update] stores the status it is given. *)
Lemma tidy_Status_Update obj :
  tidy obj -> safe tidyStore (client.Status_Update_Register obj) (fetched tidy).
Proof.
  intros Hobj. apply tidy_api; [|done].
  intros w Hw. destruct (registers w !! key obj) as [old|] eqn:Hold; simpl; [|done].
  assert (Hstored : tidy (withStatus old (Status obj))) by exact Hobj.
  split; [by apply tidyStore_insert | done].
Qed.

Lemma tidy_SetStatusCondition cr c :
  tidy cr -> safe tidyStore (SetStatusCondition cr c) tidy.
Proof.
  intros Hcr w Hw. split; [done|]. by apply OnePerType_SetStatusCondition.
Qed.

Lemma tidy_NewAPIManagerWithCluster clusterAPI kubeConfig :
  safe tidyStore (argocd.NewAPIManagerWithCluster clusterAPI kubeConfig) any.
Proof.
  apply safe_NewAPIManagerWithCluster with (okc := fun _ => True);
    auto using tidyStore_faults, tidyStore_record.
Qed.

Lemma tidy_RegisterCluster a : safe tidyStore (argocd.RegisterCluster a) any.
Proof.
  apply safe_RegisterCluster with (okc := fun _ => True);
    auto using tidyStore_record.
Qed.

Lemma tidy_IsClusterRegistered a : safe tidyStore (argocd.IsClusterRegistered a) any.
Proof.
  apply safe_IsClusterRegistered with (okc := fun _ => True);
    auto using tidyStore_record.
Qed.

Lemma tidy_getClusterKubeConfigFromSecret req :
  safe tidyStore (controller.getClusterKubeConfigFromSecret req) any.
Proof.
  apply safe_getClusterKubeConfigFromSecret with (okc := fun _ => True);
    auto using tidyStore_faults, tidyStore_record.
Qed.

Lemma tidy_createRegisterCR clusterAPI RegisterCR :
  safe tidyStore (controller.createRegisterCR clusterAPI RegisterCR) any.
Proof.
  apply safe_createRegisterCR with (C := fun _ => True) (okc := fun _ => True);
    auto using tidyStore_faults, tidyStore_record.
  intros w obj Hw _ _. apply tidyStore_insert; [done | apply OnePerType_nil].
Qed.

Lemma tidy_doFinalizerOperations cr argoCDManager :
  safe tidyStore (controller.doFinalizerOperations cr argoCDManager) any.
Proof.
  apply safe_doFinalizerOperations with (okc := fun _ => True);
    auto using tidyStore_record.
Qed.

Create HintDb tidy.

Hint Resolve tidy_Get_Cluster tidy_Get_Secret tidy_Get_Register tidy_Create tidy_Update
  tidy_Status_Update tidy_NewAPIManagerWithCluster tidy_RegisterCluster
  tidy_IsClusterRegistered tidy_getClusterKubeConfigFromSecret tidy_createRegisterCR
  tidy_doFinalizerOperations safe_get : tidy.

(** One step through a body, as in the section on invariants. *)
Ltac tidy_step :=
  first
    [ apply safe_ret
    | eapply safe_bind; [ apply tidy_SetStatusCondition; assumption | intros ? ? ]
    | eapply safe_bind; [ solve [eauto with tidy] | intros ? ? ]
    | match goal with
      | |- safe _ (match ?x with _ => _ end) _ => destruct x eqn:?; simpl in *
      | |- safe _ (if ?b then _ else _) _ => destruct b eqn:?; simpl in *
      end ].

Ltac tidy_steps := repeat (tidy_step; try done).

Lemma tidy_handleIntegrationWithArgoCDAPI req RegisterCR clusterAPI :
  tidy RegisterCR ->
  safe tidyStore (controller.handleIntegrationWithArgoCDAPI req RegisterCR clusterAPI)
       (fun i => tidy i.2).
Proof. intros HG. unfold controller.handleIntegrationWithArgoCDAPI. tidy_steps. Qed.

Lemma tidy_handleClusterRegistration req argoCDManager RegisterCR :
  safe tidyStore (controller.handleClusterRegistration req argoCDManager RegisterCR) any.
Proof.
  unfold controller.handleClusterRegistration.
  tidy_step. destruct a as [isClusterRegistered err]; simpl.
  tidy_steps.
Qed.

Lemma tidy_handleFinalizer RegisterCR req argoCDManager :
  tidy RegisterCR ->
  safe tidyStore (controller.handleFinalizer RegisterCR req argoCDManager) any.
Proof.
  intros HG. unfold controller.handleFinalizer, controller.handleFinalizer_via.
  destruct (controllerutil.ContainsFinalizer _ _) eqn:Hfin; [|by apply safe_ret].
  pose proof (fun cr => tidy_doFinalizerOperations cr argoCDManager) as Hdo.
  unfold controller.doFinalizerOperations in Hdo.
  tidy_steps.
Qed.

Hint Resolve tidy_handleIntegrationWithArgoCDAPI tidy_handleClusterRegistration
  tidy_handleFinalizer : tidy.

Lemma tidy_reconcileWithManager req clusterAPI RegisterCR :
  tidy RegisterCR ->
  safe tidyStore (controller.reconcileWithManager req clusterAPI RegisterCR) any.
Proof. intros HG. unfold controller.reconcileWithManager. tidy_steps. Qed.

Lemma tidy_reconcileRegister req clusterAPI RegisterCR :
  safe tidyStore (controller.reconcileRegister req clusterAPI RegisterCR) any.
Proof.
  unfold controller.reconcileRegister. tidy_steps; by apply tidy_reconcileWithManager.
Qed.

Hint Resolve tidy_reconcileRegister : tidy.

Lemma tidy_Reconcile req : safe tidyStore (controller.Reconcile req) any.
Proof. unfold controller.Reconcile. tidy_steps. Qed.

End Tidy.

(** Whatever the API server answers to each call, a reconciliation leaves
    every stored record with at most one condition per type, provided the
    stored records were so before. *)
Theorem Reconcile_keeps_one_condition_per_type req w :
  (forall k r, registers w !! k = Some r ->
               meta.OnePerType (argocdv1beta1.Conditions (argocdv1beta1.Status r))) ->
  forall k r, registers (controller.Reconcile req w).2 !! k = Some r ->
              meta.OnePerType (argocdv1beta1.Conditions (argocdv1beta1.Status r)).
Proof. intros Hw. exact (proj1 (tidy_Reconcile req w Hw)). Qed.

(** The Active state of the unit test, the endpoint answering 500: the
    record ends with a Degraded and an Available condition. *)
Lemma Reconcile_keeps_one_condition_per_type_witness :
  exists r,
    registers (controller.Reconcile key_test
                 (world_active (http.mkResponse 500 "500 Internal Server Error"))).2
      !! key_test = Some r
    /\ meta.OnePerType (argocdv1beta1.Conditions (argocdv1beta1.Status r)).
Proof.
  assert (Hw : forall k r,
            registers (world_active (http.mkResponse 500 "500 Internal Server Error")) !! k
            = Some r ->
            meta.OnePerType (argocdv1beta1.Conditions (argocdv1beta1.Status r))).
  { intros k r Hr.
    change (({[ key_test := register_test None [] ]} : gmap _ _) !! k = Some r) in Hr.
    apply lookup_singleton_Some in Hr as [_ <-]. apply NoDup_nil_2. }
  destruct (registers (controller.Reconcile key_test
                         (world_active (http.mkResponse 500 "500 Internal Server Error"))).2
              !! key_test) as [r|] eqn:Hr.
  - exists r. split; [reflexivity|].
    exact (Reconcile_keeps_one_condition_per_type key_test _ Hw key_test r Hr).
  - vm_compute in Hr. discriminate.
Defined.

(** ** The lines of a command output *)
Section Lines.

Variable sep : ascii.

Definition free (s : string) : Prop := ~ In sep (list_ascii_of_string s).

Lemma strings_Split_cons s : exists first others, strings_Split s sep = first :: others.
Proof.
  destruct s as [|c rest]; simpl; [by eexists _, _|].
  destruct (Ascii.eqb c sep); [by eexists _, _|].
  destruct (strings_Split rest sep); by eexists _, _.
Qed.

Lemma strings_Split_app s1 s2 :
  strings_Split (s1 +:+ String sep s2) sep = strings_Split s1 sep ++ strings_Split s2 sep.
Proof.
  induction s1 as [|c rest IH]; simpl.
  - by rewrite Ascii.eqb_refl.
  - rewrite IH. destruct (Ascii.eqb c sep); [done|].
    by destruct (strings_Split_cons rest) as (first & others & ->).
Qed.

Lemma strings_Split_free s : free s -> strings_Split s sep = [s].
Proof.
  unfold free. induction s as [|c rest IH]; simpl; [done|].
  intros Hfree. destruct (Ascii.eqb_spec c sep) as [->|Hne]; [by destruct Hfree; left|].
  rewrite IH; [done|]. intros Hin. apply Hfree. by right.
Qed.

Lemma strings_Split_pieces s : Forall free (strings_Split s sep).
Proof.
  induction s as [|c rest IH]; simpl.
  - constructor; [|done]. by intros [].
  - destruct (Ascii.eqb_spec c sep) as [->|Hne].
    + constructor; [|done]. by intros [].
    + destruct (strings_Split rest sep) as [|first others].
      * constructor; [|done]. by intros [|[]].
      * inversion IH as [|? ? Hfirst Hothers]; subst. constructor; [|done].
        intros [Heq|Hin]; [by destruct Hne | by apply Hfirst].
Qed.

End Lines.

(** The text without its line breaks. *)
Definition unbroken (output : string) : string :=
  string_of_list_ascii
    (List.filter (fun c => negb (Ascii.eqb c utils.newline)) (list_ascii_of_string output)).

Lemma append_empty_r (s : string) : s +:+ "" = s.
Proof.
  induction s as [|c rest IH]; [done|].
  change (String c (rest +:+ "") = String c rest). by rewrite IH.
Qed.

Lemma concat_empty_cons (first : string) (others : list string) :
  String.concat "" (first :: others) = first +:+ String.concat "" others.
Proof. destruct others; simpl; [by rewrite append_empty_r | done]. Qed.

Lemma concat_nonempty (pieces : list string) :
  String.concat "" (List.filter (fun element => negb (String.eqb element "")) pieces)
  = String.concat "" pieces.
Proof.
  induction pieces as [|first others IH]; [done|].
  rewrite concat_empty_cons. cbn [List.filter].
  destruct (String.eqb_spec first "") as [->|Hne]; cbn [negb]; [exact IH|].
  by rewrite concat_empty_cons, IH.
Qed.

Lemma concat_strings_Split s :
  String.concat "" (strings_Split s utils.newline) = unbroken s.
Proof.
  unfold unbroken. induction s as [|c rest IH]; [done|].
  cbn [strings_Split list_ascii_of_string List.filter].
  destruct (Ascii.eqb c utils.newline); cbn [negb].
  - by rewrite concat_empty_cons.
  - destruct (strings_Split_cons utils.newline rest) as (first & others & Hsplit).
    rewrite Hsplit in *. rewrite concat_empty_cons in *.
    cbn [string_of_list_ascii]. rewrite <- IH. reflexivity.
Qed.

(** GetNonEmptyLines answers pieces that are not empty and hold no line
    break; put end to end they are the output without its line breaks, so
    nothing but line breaks is dropped and the order is kept. *)
Theorem GetNonEmptyLines_pieces output :
  Forall (fun element => element <> "" /\ free utils.newline element)
    (utils.GetNonEmptyLines output)
  /\ String.concat "" (utils.GetNonEmptyLines output) = unbroken output.
Proof.
  unfold utils.GetNonEmptyLines. split.
  - apply List.Forall_forall. intros element Hin. apply filter_In in Hin as [Hin Hne].
    split.
    + intros ->. done.
    + pose proof (strings_Split_pieces utils.newline output) as Hfree.
      rewrite List.Forall_forall in Hfree. by apply Hfree.
  - by rewrite concat_nonempty, concat_strings_Split.
Qed.

(** The lines of two outputs joined by a line break are the lines of the
    first followed by the lines of the second; hence lines that are not
    empty and hold no line break are found again when they are joined by
    line breaks, with or without a line break at the end, and an output of
    nothing but line breaks has no line. *)
Theorem GetNonEmptyLines_joined :
  (forall output1 output2,
     utils.GetNonEmptyLines (output1 +:+ String utils.newline output2)
     = utils.GetNonEmptyLines output1 ++ utils.GetNonEmptyLines output2)
  /\ (forall lines,
        Forall (fun element => element <> "" /\ free utils.newline element) lines ->
        utils.GetNonEmptyLines (String.concat (String utils.newline "") lines) = lines
        /\ utils.GetNonEmptyLines
             (String.concat (String utils.newline "") lines +:+ String utils.newline "")
           = lines)
  /\ (forall n, utils.GetNonEmptyLines (string_of_list_ascii (repeat utils.newline n)) = []).
Proof.
  assert (Happ : forall output1 output2,
     utils.GetNonEmptyLines (output1 +:+ String utils.newline output2)
     = utils.GetNonEmptyLines output1 ++ utils.GetNonEmptyLines output2).
  { intros output1 output2. unfold utils.GetNonEmptyLines.
    by rewrite strings_Split_app, List.filter_app. }
  assert (Hone : forall element,
     element <> "" -> free utils.newline element ->
     utils.GetNonEmptyLines element = [element]).
  { intros element Hne Hfree. unfold utils.GetNonEmptyLines.
    rewrite strings_Split_free by done. cbn [List.filter].
    by destruct (String.eqb_spec element ""). }
  assert (Hlines : forall lines,
     Forall (fun element => element <> "" /\ free utils.newline element) lines ->
     utils.GetNonEmptyLines (String.concat (String utils.newline "") lines) = lines).
  { induction lines as [|first others IH]; intros Hok; [done|].
    inversion Hok as [|? ? [Hne Hfree] Hothers]; subst.
    destruct others as [|second others]; [by apply Hone|].
    change (String.concat (String utils.newline "") (first :: second :: others))
      with (first +:+ String utils.newline
                        (String.concat (String utils.newline "") (second :: others))).
    by rewrite Happ, Hone, IH. }
  split; [exact Happ|]. split.
  - intros lines Hok. split; [by apply Hlines|].
    rewrite Happ, Hlines by done. apply app_nil_r.
  - induction n as [|n IH]; [done|].
    change (string_of_list_ascii (repeat utils.newline (S n)))
      with ("" +:+ String utils.newline (string_of_list_ascii (repeat utils.newline n))).
    by rewrite Happ, IH.
Qed.

(** Two pod names, one per line, the way kubectl prints them. *)
Lemma GetNonEmptyLines_joined_witness :
  utils.GetNonEmptyLines
    (String.concat (String utils.newline "") ["pod-a"; "pod-b"] +:+ String utils.newline "")
  = ["pod-a"; "pod-b"].
Proof.
  destruct GetNonEmptyLines_joined as (_ & Hlines & _).
  apply Hlines. repeat constructor; try done.
  - intros Hin. vm_compute in Hin. intuition discriminate.
  - intros Hin. vm_compute in Hin. intuition discriminate.
Defined.

(** ** What a reconciliation never does to the stored records *)

(** Every record is stored under its own namespace and name. *)
Definition wellKeyed (w : World) : Prop :=
  forall k r, registers w !! k = Some r -> argocdv1beta1.key r = k.

(** [r'] is [r] up to its deletion marker, finalizers and status. *)
Definition sameIdentity (r r' : argocdv1beta1.Register) : Prop :=
  metav1.Name (argocdv1beta1.ObjectMeta r') = metav1.Name (argocdv1beta1.ObjectMeta r)
  /\ metav1.Namespace (argocdv1beta1.ObjectMeta r')
     = metav1.Namespace (argocdv1beta1.ObjectMeta r)
  /\ metav1.UID (argocdv1beta1.ObjectMeta r') = metav1.UID (argocdv1beta1.ObjectMeta r)
  /\ metav1.OwnerReferences (argocdv1beta1.ObjectMeta r')
     = metav1.OwnerReferences (argocdv1beta1.ObjectMeta r)
  /\ argocdv1beta1.Spec r' = argocdv1beta1.Spec r.

(** The records of [w0] are still stored in [w], with their identity. *)
Definition preserves (w0 w : World) : Prop :=
  wellKeyed w
  /\ forall k r, registers w0 !! k = Some r ->
                 exists r', registers w !! k = Some r' /\ sameIdentity r r'.

(** A record held in memory is a stored record of [w0] with its identity,
    or a record of a key that [w0] does not hold. *)
Definition heldFrom (w0 : World) (cr : argocdv1beta1.Register) : Prop :=
  forall r, registers w0 !! argocdv1beta1.key cr = Some r -> sameIdentity r cr.

Lemma preserves_insert w0 w obj stored :
  preserves w0 w ->
  argocdv1beta1.key stored = argocdv1beta1.key obj ->
  heldFrom w0 stored ->
  preserves w0 (set_registers w (<[argocdv1beta1.key obj := stored]> (registers w))).
Proof.
  intros [Hkeys Hkept] Hkey Hheld. split.
  - intros k r. cbn [registers set_registers].
    destruct (decide (argocdv1beta1.key obj = k)) as [<-|Hne].
    + rewrite lookup_insert_eq. by intros [= <-].
    + rewrite lookup_insert_ne by done. apply Hkeys.
  - intros k r Hr. cbn [registers set_registers].
    destruct (decide (argocdv1beta1.key obj = k)) as [<-|Hne].
    + rewrite lookup_insert_eq. exists stored. split; [done|].
      apply Hheld. by rewrite Hkey.
    + rewrite lookup_insert_ne by done. by apply Hkept.
Qed.

Lemma preserves_Reconcile req w0 : wellKeyed w0 -> preserves w0 (controller.Reconcile req w0).2.
Proof.
  intros Hkeys.
  refine (proj1 (safe_Reconcile req (preserves w0) (heldFrom w0) (fun _ => True)
                   (fun _ => True) _ _ _ _ _ _ _ _ _ _ _ _ _ w0 _)); try done.
  - intros w obj old Hw Hobj Hold.
    apply preserves_insert; [done | by destruct obj | exact Hobj].
  - intros w obj old Hw Hobj Hold.
    destruct Hw as [Hk Hkept]. pose proof (Hk _ _ Hold) as Hkey.
    apply preserves_insert; [by split | by destruct old |].
    intros r Hr. change (sameIdentity r old).
    change (argocdv1beta1.key (argocdv1beta1.withStatus old (argocdv1beta1.Status obj)))
      with (argocdv1beta1.key old) in Hr. rewrite Hkey in Hr.
    destruct (Hkept _ _ Hr) as (r' & Hr' & Hsame). congruence.
  - intros w obj Hw _ Hnew.
    apply preserves_insert; [done | by destruct obj |].
    intros r Hr. destruct Hw as [_ Hkept].
    change (argocdv1beta1.key
              (argocdv1beta1.withStatus obj (argocdv1beta1.mkRegisterStatus [])))
      with (argocdv1beta1.key obj) in Hr.
    destruct (Hkept _ _ Hr) as (r' & Hr' & _). congruence.
  - intros w r [Hk Hkept] Hr r0 Hr0.
    rewrite (Hk _ _ Hr) in Hr0.
    destruct (Hkept _ _ Hr0) as (r' & Hr' & Hsame). congruence.
  - intros w obj old [Hk Hkept] Hobj Hold r Hr.
    rewrite (Hk _ _ Hold) in Hr.
    destruct (Hkept _ _ Hr) as (r' & Hr' & Hsame). congruence.
  - split; [done|]. intros k r Hr. exists r. by split.
Qed.

(** Whatever the API server answers to each call, a reconciliation of any
    key leaves the clusters and the secrets as they are, deletes no record,
    and changes neither the name, the namespace, the UID, the owner
    references nor the spec of a stored record (the records being stored
    under their own namespace and name). *)
Theorem Reconcile_never_deletes req w :
  wellKeyed w ->
  clusters (controller.Reconcile req w).2 = clusters w
  /\ secrets (controller.Reconcile req w).2 = secrets w
  /\ forall k r, registers w !! k = Some r ->
       exists r', registers (controller.Reconcile req w).2 !! k = Some r'
                  /\ sameIdentity r r'.
Proof.
  intros Hkeys.
  destruct (sameSetting_Reconcile req w) as (Hclusters & Hsecrets & _).
  split; [exact Hclusters|]. split; [exact Hsecrets|].
  exact (proj2 (preserves_Reconcile req w Hkeys)).
Qed.

(** The Active state of the unit test, the endpoint answering 500. *)
Lemma Reconcile_never_deletes_witness :
  exists r',
    registers (controller.Reconcile key_test
                 (world_active (http.mkResponse 500 "500 Internal Server Error"))).2
      !! key_test = Some r'
    /\ sameIdentity (register_test None []) r'.
Proof.
  destruct (Reconcile_never_deletes key_test
              (world_active (http.mkResponse 500 "500 Internal Server Error")))
    as (_ & _ & Hkept).
  - intros k r Hr.
    change (({[ key_test := register_test None [] ]} : gmap _ _) !! k = Some r) in Hr.
    by apply lookup_singleton_Some in Hr as [<- <-].
  - apply Hkept. vm_compute. reflexivity.
Defined.

(** ** The finalizer is released only after unregister *)

(** [UnRegisterCluster] was invoked since the trace was [t0]. *)
Definition unregisterCalled (t0 : list Call) (w : World) : Prop :=
  exists calls a, trace w = t0 ++ calls /\ UnRegisterClusterCall a ∈ calls.

(** The records of [w0] are still stored in [w] with the finalizers they
    had, and the trace extends [t0]. *)
Definition finalizersKept (w0 : World) (t0 : list Call) (w : World) : Prop :=
  wellKeyed w
  /\ (forall k r, registers w0 !! k = Some r ->
        exists r', registers w !! k = Some r'
                   /\ metav1.Finalizers (argocdv1beta1.ObjectMeta r')
                      = metav1.Finalizers (argocdv1beta1.ObjectMeta r))
  /\ exists calls, trace w = t0 ++ calls.

(** A record held in memory carries the finalizers [w0] stores for it. *)
Definition holdsFinalizers (w0 : World) (cr : argocdv1beta1.Register) : Prop :=
  forall r, registers w0 !! argocdv1beta1.key cr = Some r ->
            metav1.Finalizers (argocdv1beta1.ObjectMeta cr)
            = metav1.Finalizers (argocdv1beta1.ObjectMeta r).

(** [m] takes a world of [P] to a world of [Q], answering a value of [post]. *)
Definition hoare (P : World -> Prop) {A : Type} (m : M A) (Q : World -> Prop)
    (post : A -> Prop) : Prop :=
  forall w, P w -> Q (m w).2 /\ post (m w).1.

Section Released.
Import argocdv1beta1.

Variable req : NamespacedName.
Variable w0 : World.
Variable t0 : list Call.

Let kept := finalizersKept w0 t0.
Let called := unregisterCalled t0.
Let held := holdsFinalizers w0.
Let either (w : World) : Prop := kept w \/ called w.

Lemma hoare_bind {A B : Type} P Q R (m : M A) (k : A -> M B) (mid : A -> Prop)
    (post : B -> Prop) :
  hoare P m Q mid -> (forall a, mid a -> hoare Q (k a) R post) -> hoare P (bind m k) R post.
Proof.
  intros Hm Hk w Hw. unfold bind.
  destruct (Hm w Hw) as [Hw1 Ha]. destruct (m w) as [a w1]; simpl in *.
  by apply Hk.
Qed.

Lemma hoare_ret {A : Type} P (a : A) (post : A -> Prop) : post a -> hoare P (ret a) P post.
Proof. intros Ha w Hw. by split. Qed.

Lemma hoare_safe {A : Type} I (m : M A) (post : A -> Prop) :
  safe I m post -> hoare I m I post.
Proof. done. Qed.

Lemma hoare_weaken {A : Type} P (Q Q' : World -> Prop) (m : M A) (post post' : A -> Prop) :
  hoare P m Q post -> (forall w, Q w -> Q' w) -> (forall a, post a -> post' a) ->
  hoare P m Q' post'.
Proof. intros Hm HQ Hpost w Hw. destruct (Hm w Hw). split; auto. Qed.

(** *** Before unregister: the finalizers are kept *)

Lemma kept_faults w fs : kept w -> kept (set_faults w fs).
Proof. done. Qed.

Lemma kept_record w (c : Call) : True -> kept w -> kept (record c w).
Proof.
  intros _ (Hkeys & Hkept & calls & Htrace). split; [done|]. split; [done|].
  exists (calls ++ [c]). cbn [trace record]. by rewrite Htrace, app_assoc.
Qed.

Lemma kept_insert w obj stored :
  kept w ->
  key stored = key obj ->
  (forall r, registers w0 !! key obj = Some r ->
             metav1.Finalizers (ObjectMeta stored) = metav1.Finalizers (ObjectMeta r)) ->
  kept (set_registers w (<[key obj := stored]> (registers w))).
Proof.
  intros (Hkeys & Hkept & Htrace) Hkey Hfin. split; [|split; [|done]].
  - intros k r. cbn [registers set_registers].
    destruct (decide (key obj = k)) as [<-|Hne].
    + rewrite lookup_insert_eq. by intros [= <-].
    + rewrite lookup_insert_ne by done. apply Hkeys.
  - intros k r Hr. cbn [registers set_registers].
    destruct (decide (key obj = k)) as [<-|Hne].
    + rewrite lookup_insert_eq. exists stored. split; [done|]. by apply Hfin.
    + rewrite lookup_insert_ne by done. by apply Hkept.
Qed.

Lemma kept_update w obj old :
  kept w -> held obj -> registers w !! key obj = Some old ->
  kept (set_registers w (<[key obj := withStatus obj (Status old)]> (registers w))).
Proof. intros Hw Hobj Hold. apply kept_insert; [done | by destruct obj | exact Hobj]. Qed.

Lemma kept_stored w k old r :
  kept w -> registers w !! k = Some old -> registers w0 !! k = Some r ->
  metav1.Finalizers (ObjectMeta old) = metav1.Finalizers (ObjectMeta r).
Proof.
  intros (_ & Hkept & _) Hold Hr. destruct (Hkept _ _ Hr) as (r' & Hr' & Hfin). congruence.
Qed.

Lemma kept_status w obj old :
  kept w -> held obj -> registers w !! key obj = Some old ->
  kept (set_registers w (<[key obj := withStatus old (Status obj)]> (registers w))).
Proof.
  intros Hw _ Hold. pose proof Hw as (Hkeys & _).
  apply kept_insert; [done | exact (Hkeys _ _ Hold) |].
  intros r Hr. exact (kept_stored w _ old r Hw Hold Hr).
Qed.

Lemma kept_create w obj :
  kept w -> True -> registers w !! key obj = None ->
  kept (set_registers w (<[key obj := withStatus obj (mkRegisterStatus [])]> (registers w))).
Proof.
  intros Hw _ Hnew. apply kept_insert; [done | by destruct obj |].
  intros r Hr. destruct Hw as (_ & Hkept & _).
  destruct (Hkept _ _ Hr) as (r' & Hr' & _). congruence.
Qed.

Lemma held_fetched k w r : kept w -> registers w !! k = Some r -> held r.
Proof.
  intros Hw Hr r0 Hr0. pose proof Hw as (Hkeys & _).
  rewrite (Hkeys _ _ Hr) in Hr0. exact (kept_stored w _ r r0 Hw Hr Hr0).
Qed.

Lemma held_old w obj old : kept w -> held obj -> registers w !! key obj = Some old -> held old.
Proof. intros Hw _ Hold. exact (held_fetched _ w old Hw Hold). Qed.

Lemma held_status cr s : held cr -> held (withStatus cr s).
Proof. done. Qed.

Lemma held_marked cr t :
  held cr -> GetDeletionTimestamp cr = None -> held (SetDeletionTimestamp cr (Some t)).
Proof. done. Qed.

Lemma kept_Get_Register : safe kept (client.Get_Register req) (fetched held).
Proof.
  apply safe_Get_Register with (okc := fun _ => True);
    eauto using kept_faults, kept_record, held_fetched.
Qed.

Lemma kept_Status_Update obj :
  held obj -> safe kept (client.Status_Update_Register obj) (fetched held).
Proof.
  intros Hobj.
  apply safe_Status_Update with (okc := fun _ => True);
    eauto using kept_faults, kept_record, kept_status, held_old, held_status.
Qed.

Lemma kept_Update obj :
  held obj -> safe kept (client.Update_Register obj) (fetched held).
Proof.
  intros Hobj.
  apply safe_Update with (okc := fun _ => True);
    eauto using kept_faults, kept_record, kept_update, held_status.
Qed.

Lemma kept_handleIntegrationWithArgoCDAPI RegisterCR clusterAPI :
  held RegisterCR ->
  safe kept (controller.handleIntegrationWithArgoCDAPI req RegisterCR clusterAPI)
       (fun i => held i.2).
Proof.
  intros HG.
  eapply safe_handleIntegrationWithArgoCDAPI with (okc := fun _ => True);
    eauto using kept_faults, kept_record, kept_status, held_fetched, held_old, held_status.
Qed.

Lemma kept_handleClusterRegistration argoCDManager RegisterCR :
  safe kept (controller.handleClusterRegistration req argoCDManager RegisterCR) any.
Proof.
  eapply safe_handleClusterRegistration with (G := held) (okc := fun _ => True);
    eauto using kept_faults, kept_record, kept_status, held_fetched, held_old, held_status.
Qed.

Lemma kept_createRegisterCR clusterAPI RegisterCR :
  safe kept (controller.createRegisterCR clusterAPI RegisterCR) any.
Proof.
  eapply safe_createRegisterCR with (C := fun _ => True) (okc := fun _ => True);
    eauto using kept_faults, kept_record, kept_create.
Qed.

Lemma kept_Get_Cluster k : safe kept (client.Get_Cluster k) any.
Proof.
  apply safe_Get_Cluster with (okc := fun _ => True); eauto using kept_faults, kept_record.
Qed.

(** *** After unregister: anything goes *)

Lemma called_faults w fs : called w -> called (set_faults w fs).
Proof. done. Qed.

Lemma called_record w (c : Call) : True -> called w -> called (record c w).
Proof.
  intros _ (calls & a & Htrace & Hin). exists (calls ++ [c]), a.
  cbn [trace record]. split; [by rewrite Htrace, app_assoc|].
  apply elem_of_app. by left.
Qed.

Lemma called_registers w rs : called w -> called (set_registers w rs).
Proof. done. Qed.

Lemma called_Get_Register : safe called (client.Get_Register req) (fetched (fun _ => True)).
Proof.
  apply safe_Get_Register with (okc := fun _ => True);
    eauto using called_faults, called_record.
Qed.

Lemma called_Status_Update obj :
  safe called (client.Status_Update_Register obj) (fetched (fun _ => True)).
Proof.
  apply safe_Status_Update with (okc := fun _ => True);
    eauto using called_faults, called_record, called_registers.
Qed.

Lemma called_Update obj :
  safe called (client.Update_Register obj) (fetched (fun _ => True)).
Proof.
  apply safe_Update with (okc := fun _ => True);
    eauto using called_faults, called_record, called_registers.
Qed.

Lemma called_SetStatusCondition cr c : safe called (SetStatusCondition cr c) any.
Proof. intros w Hw. by split. Qed.

(** [UnRegisterCluster] is the step from the one to the other. *)
Lemma kept_UnRegisterCluster a : hoare kept (argocd.UnRegisterCluster a) called any.
Proof.
  intros w (_ & _ & calls & Htrace). split; [|done].
  exists (calls ++ [UnRegisterClusterCall a]), a. cbn [trace record snd].
  unfold argocd.UnRegisterCluster, bind, call, ret. cbn [trace record snd].
  split; [by rewrite Htrace, app_assoc|]. apply elem_of_app. right. by left.
Qed.

Lemma kept_SetStatusCondition cr c : held cr -> safe kept (SetStatusCondition cr c) held.
Proof. intros Hcr w Hw. by split. Qed.

Lemma either_ret {A : Type} (a : A) : hoare kept (ret a) either any.
Proof. intros w Hw. split; [by left | done]. Qed.

Lemma either_called {A : Type} (m : M A) : safe called m any -> hoare called m either any.
Proof. intros Hm w Hw. destruct (Hm w Hw). split; [by right | done]. Qed.

Lemma either_kept {A : Type} (m : M A) : safe kept m any -> hoare kept m either any.
Proof. intros Hm w Hw. destruct (Hm w Hw). split; [by left | done]. Qed.

Lemma either_done {A : Type} (a : A) : hoare either (ret a) either any.
Proof. by apply hoare_ret. Qed.

Create HintDb kept.
Create HintDb called.

Hint Resolve kept_Get_Cluster kept_Get_Register kept_Status_Update kept_Update
  kept_handleIntegrationWithArgoCDAPI kept_handleClusterRegistration
  kept_createRegisterCR safe_get : kept.

Hint Resolve called_Get_Register called_Status_Update called_Update
  called_SetStatusCondition : called.

Ltac kept_step :=
  first
    [ apply either_ret
    | eapply hoare_bind;
        [ apply hoare_safe, kept_SetStatusCondition; assumption | intros ? ? ]
    | eapply hoare_bind; [ apply hoare_safe; solve [eauto with kept] | intros ? ? ]
    | match goal with
      | |- hoare _ (match ?x with _ => _ end) _ _ =>
          destruct x eqn:?; cbn [fetched fst snd] in *
      | |- hoare _ (if ?b then _ else _) _ _ =>
          destruct b eqn:?; cbn [fetched fst snd] in *
      end ].

Ltac called_step :=
  first
    [ apply safe_ret
    | eapply safe_bind; [ solve [eauto with called] | intros ? ? ]
    | match goal with
      | |- safe _ (match ?x with _ => _ end) _ => destruct x eqn:?; simpl in *
      | |- safe _ (if ?b then _ else _) _ => destruct b eqn:?; simpl in *
      | |- safe _ (let (_, _) := ?x in _) _ => destruct x eqn:?; simpl in *
      end ].

Lemma kept_doFinalizerOperations cr a :
  hoare kept (controller.doFinalizerOperations cr a) called any.
Proof.
  unfold controller.doFinalizerOperations, controller.doFinalizerOperations_via.
  eapply hoare_bind; [apply kept_UnRegisterCluster | intros e _].
  destruct e as [err|]; [by apply hoare_ret|].
  eapply hoare_bind with (Q := called) (mid := any); [|intros ? _; by apply hoare_ret].
  apply hoare_safe. intros w Hw. unfold call. cbn [fst snd].
  split; [by apply called_record | done].
Qed.

Lemma either_handleFinalizer RegisterCR argoCDManager :
  held RegisterCR ->
  hoare kept (controller.handleFinalizer RegisterCR req argoCDManager) either any.
Proof.
  intros HG. unfold controller.handleFinalizer, controller.handleFinalizer_via.
  destruct (controllerutil.ContainsFinalizer _ _) eqn:Hfin; [|apply either_ret].
  do 2 kept_step. kept_step; [|apply either_ret].
  kept_step. kept_step; [|apply either_ret].
  eapply hoare_bind;
    [exact (kept_doFinalizerOperations _ argoCDManager) | intros e _].
  apply either_called. repeat (called_step; try done).
Qed.

Lemma either_reconcileWithManager clusterAPI RegisterCR :
  held RegisterCR ->
  hoare kept (controller.reconcileWithManager req clusterAPI RegisterCR) either any.
Proof.
  intros HG. unfold controller.reconcileWithManager.
  kept_step. kept_step. kept_step; [|apply either_ret].
  kept_step.
  - eapply hoare_bind; [by apply either_handleFinalizer | intros f _].
    destruct (fst f); apply either_done.
  - eapply hoare_bind; [apply either_kept, kept_handleClusterRegistration | intros h _].
    destruct (fst h); apply either_done.
Qed.

Lemma either_reconcileRegister clusterAPI RegisterCR :
  hoare kept (controller.reconcileRegister req clusterAPI RegisterCR) either any.
Proof.
  unfold controller.reconcileRegister.
  repeat first [ by apply either_reconcileWithManager | kept_step ].
Qed.

Lemma either_Reconcile : hoare kept (controller.Reconcile req) either any.
Proof.
  unfold controller.Reconcile.
  repeat first
    [ apply either_reconcileRegister
    | eapply hoare_bind;
        [ apply hoare_safe, kept_Update; by apply held_marked | intros ? ? ]
    | kept_step ].
Qed.

End Released.


